(** * ExigeOS: console, input, timing and tone drivers

    A shallow embedding of the hardware-abstraction drivers of ExigeOS
    (sound.c, vga.c, keyboard.c for the PC; vga_rpi3.c and keyboard_rpi3.c
    for the Raspberry Pi 3), of the command shell (shell.c) and of the
    entry point (kernel.c), together with the properties their
    specification states about them and further properties of the code.

    Machine integers are values of [Z] with the C conversions written out
    ([u8], [u16], [u32]).  Hardware is reached only through port reads and
    writes; every access is recorded in a log, and the answer of a read is
    given by an arbitrary deterministic device (class [Hardware]).  Loops
    that poll the hardware take a bound on their number of iterations and
    yield [None] when the bound is reached before the loop exits. *)

From Stdlib Require Import ZArith List Lia Bool.
From Stdlib Require Ascii String.
Import ListNotations.
Local Open Scope Z_scope.

(** ** Machine integers *)

Definition u8 (x : Z) : Z := x mod 256.
Definition u16 (x : Z) : Z := x mod 65536.
Definition u32 (x : Z) : Z := x mod 4294967296.

(** ** Hardware, access log, machine state *)

Inductive event : Type :=
| EvIn (addr val : Z)
| EvOut (addr val : Z).

Class Hardware (HW : Type) : Type := {
  hw_read : Z -> HW -> Z * HW;
  hw_write : Z -> Z -> HW -> HW
}.

Record machine (HW G : Type) : Type := Machine {
  hw : HW;
  log : list event;
  globals : G
}.
Arguments Machine {HW G}.
Arguments hw {HW G}.
Arguments log {HW G}.
Arguments globals {HW G}.

Definition set_globals {HW G} (g : G) (m : machine HW G) : machine HW G :=
  Machine (hw m) (log m) g.

(** ** The monad of polling code *)

Definition M (S A : Type) : Type := S -> option (A * S).

Definition ret {S A} (a : A) : M S A := fun s => Some (a, s).

Definition bind {S A B} (c : M S A) (k : A -> M S B) : M S B :=
  fun s => match c s with
           | Some (a, s') => k a s'
           | None => None
           end.

Definition lift {S} (f : S -> S) : M S unit := fun s => Some (tt, f s).

Notation "x <- c1 ;; c2" := (bind c1 (fun x => c2))
  (at level 61, c1 at next level, right associativity).
Notation "c1 ;; c2" := (bind c1 (fun _ => c2))
  (at level 61, right associativity).

(** [iter fuel body x]: run [body] from loop state [x] until it answers
    [inr a]; at most [fuel] iterations. *)
Fixpoint iter {S X A} (fuel : nat) (body : X -> M S (X + A)) (x : X) : M S A :=
  match fuel with
  | O => fun _ => None
  | Datatypes.S n =>
      fun s => match body x s with
               | Some (inl x', s') => iter n body x' s'
               | Some (inr a, s') => Some (a, s')
               | None => None
               end
  end.

(** ** Port and memory-mapped register access (io.h) *)

Section Ports.
Context {HW G : Type} `{Hardware HW}.

(* uint8_t inb(uint16_t port) *)
Definition port_in (port : Z) (m : machine HW G) : Z * machine HW G :=
  let (v, h) := hw_read port (hw m) in
  (u8 v, Machine h (log m ++ [EvIn port (u8 v)]) (globals m)).

(* void outb(uint16_t port, uint8_t val) *)
Definition port_out (port val : Z) (m : machine HW G) : machine HW G :=
  Machine (hw_write port (u8 val) (hw m))
          (log m ++ [EvOut port (u8 val)]) (globals m).

Definition inb (port : Z) : M (machine HW G) Z := fun m => Some (port_in port m).
Definition outb (port val : Z) : M (machine HW G) unit := lift (port_out port val).

(* volatile uint32_t load and store at a fixed physical address *)
Definition mmio_load (addr : Z) : M (machine HW G) Z :=
  fun m => let (v, h) := hw_read addr (hw m) in
           Some (u32 v, Machine h (log m ++ [EvIn addr (u32 v)]) (globals m)).

Definition mmio_store (addr val : Z) : M (machine HW G) unit :=
  fun m => Some (tt, Machine (hw_write addr (u32 val) (hw m))
                             (log m ++ [EvOut addr (u32 val)]) (globals m)).

End Ports.

(** ** C strings and character buffers *)

(** A [const char *] argument is the list of its characters; reading past
    the end of the list reads the terminating NUL. *)
Definition deref (s : list Z) : Z :=
  match s with
  | [] => 0
  | c :: _ => c
  end.

(** A writable [char] array is a function from index to character. *)
Definition upd (a : Z -> Z) (i v : Z) : Z -> Z :=
  fun j => if j =? i then v else a j.

(** The C string stored in an array: the characters before the first NUL,
    looking at [n] cells at most. *)
Fixpoint cstring_from (n : nat) (a : Z -> Z) (i : Z) : list Z :=
  match n with
  | O => []
  | Datatypes.S k => if a i =? 0 then [] else a i :: cstring_from k a (i + 1)
  end.

(** * sound.c: PIT timing and the PC speaker (x86) *)

Module Sound.
Section WithHardware.
Context {HW G : Type} `{Hardware HW}.
Abbreviation IO := (M (machine HW G)).

Definition PIT_BASE_FREQ : Z := 1193180.

(* static const note_t notes[]; the end of the list stands for the
   closing { 0, 0 } entry *)
Definition notes : list (list Z * Z) :=
  [ ([100; 111], 262);        (* "do"  *)
    ([114; 101], 294);        (* "re"  *)
    ([109; 105], 330);        (* "mi"  *)
    ([102; 97], 349);         (* "fa"  *)
    ([115; 111; 108], 392);   (* "sol" *)
    ([108; 97], 440);         (* "la"  *)
    ([115; 105], 494) ].      (* "si"  *)

(* static int str_eq_sound(const char *a, const char *b) *)
Fixpoint str_eq_sound (a b : list Z) : bool :=
  match a, b with
  | x :: a', y :: b' =>
      if (x =? 0) || (y =? 0) then deref a =? deref b
      else if negb (x =? y) then false
      else str_eq_sound a' b'
  | _, _ => deref a =? deref b
  end.

(* static uint16_t pit0_read(void) *)
Definition pit0_read : IO Z :=
  outb 0x43 0x00 ;;
  lo <- inb 0x40 ;;
  hi <- inb 0x40 ;;
  ret (u16 (Z.lor (Z.shiftl (u16 hi) 8) lo)).

(** The [delta] computed in the loop of [delay_ms] from two successive
    samples: [prev - curr] is an [int], [prev + (65536U - curr)] an
    [unsigned], and both are stored in a [uint16_t]. *)
Definition delta (prev curr : Z) : Z :=
  if prev >=? curr then u16 (prev - curr)
  else u16 (u16 (u32 (prev + u32 (65536 - curr)))).

(** One turn of [while (elapsed < ticks_needed)]; the loop state is
    [(prev, elapsed)]. *)
Definition delay_body (ticks_needed : Z) (st : Z * Z) : IO (Z * Z + unit) :=
  let (prev, elapsed) := st in
  if elapsed <? ticks_needed then
    curr <- pit0_read ;;
    ret (inl (curr, u32 (elapsed + delta prev curr)))
  else ret (inr tt).

(* static void delay_ms(uint32_t ms) *)
Definition delay_ms (fuel : nat) (ms : Z) : IO unit :=
  let ticks_needed := u32 (ms * 1193) in
  prev <- pit0_read ;;
  iter fuel (delay_body ticks_needed) (prev, 0).

(* static void pit_set_divisor(uint16_t divisor) *)
Definition pit_set_divisor (divisor : Z) : IO unit :=
  outb 0x43 0xB6 ;;
  outb 0x42 (u8 (Z.land divisor 0xFF)) ;;
  outb 0x42 (u8 (Z.shiftr divisor 8)).

(* void sound_stop(void) *)
Definition sound_stop : IO unit :=
  tmp <- inb 0x61 ;;
  outb 0x61 (Z.land tmp (Z.lnot 0x03)).

(* void sound_play(uint32_t freq_hz, uint32_t duration_ms) *)
Definition sound_play (fuel : nat) (freq_hz duration_ms : Z) : IO unit :=
  if freq_hz =? 0 then
    sound_stop ;;
    delay_ms fuel duration_ms
  else
    let divisor := u16 (PIT_BASE_FREQ / freq_hz) in
    pit_set_divisor divisor ;;
    tmp <- inb 0x61 ;;
    outb 0x61 (Z.lor tmp 0x03) ;;
    delay_ms fuel duration_ms ;;
    sound_stop.

(** The [for] loop of [sound_note] over the note table. *)
Fixpoint sound_note_from (fuel : nat) (tbl : list (list Z * Z)) (name : list Z)
  : IO unit :=
  match tbl with
  | [] => ret tt
  | (n, freq) :: rest =>
      if str_eq_sound name n then sound_play fuel freq 450
      else sound_note_from fuel rest name
  end.

(* void sound_note(const char *name) *)
Definition sound_note (fuel : nat) (name : list Z) : IO unit :=
  sound_note_from fuel notes name.

(** What [sound_play_sequence] does on reaching a delimiter: the
    [if (ti > 0)] block.  It yields the new [token] and [ti]. *)
Definition flush_token (fuel : nat) (token : Z -> Z) (ti : Z)
  : IO ((Z -> Z) * Z) :=
  if ti >? 0 then
    let token' := upd token ti 0 in
    sound_note fuel (cstring_from 8 token' 0) ;;
    sound_play fuel 0 80 ;;
    ret (token', 0)
  else ret (token, ti).

(** The [while (1)] loop of [sound_play_sequence], by recursion on the
    characters that remain. *)
Fixpoint play_sequence_loop (fuel : nat) (str : list Z) (token : Z -> Z) (ti : Z)
  : IO unit :=
  match str with
  | [] => flush_token fuel token ti ;; ret tt
  | c :: rest =>
      if (c =? 32) || (c =? 0) then
        r <- flush_token fuel token ti ;;
        if c =? 0 then ret tt
        else play_sequence_loop fuel rest (fst r) (snd r)
      else if ti <? 7 then play_sequence_loop fuel rest (upd token ti c) (ti + 1)
      else play_sequence_loop fuel rest token ti
  end.

(* void sound_play_sequence(const char *str); [char token[8]] starts with
   unspecified contents, of which no cell is read before it is written. *)
Definition sound_play_sequence (fuel : nat) (str : list Z) : IO unit :=
  play_sequence_loop fuel str (fun _ => 0) 0.

End WithHardware.
End Sound.

(** * vga.c and keyboard.c: framebuffer console and PS/2 input (x86) *)

Module X86.

Definition VGA_WIDTH : Z := 80.
Definition VGA_HEIGHT : Z := 25.

(** The globals of vga.c.  [VGA_MEM] maps a cell index to the 16-bit cell
    stored at [0xB8000 + 2 * index].  [cursor_row] and [cursor_col] are C
    [int]s; they stay far from the bounds of [int] in every state reached
    from [vga_init], so their arithmetic is that of [Z]. *)
Record vga_state : Type := Vga {
  cursor_row : Z;
  cursor_col : Z;
  current_color : Z;
  VGA_MEM : Z -> Z
}.

Section WithHardware.
Context {HW : Type} `{Hardware HW}.
Abbreviation PC := (machine HW vga_state).
Abbreviation IO := (M PC).

Definition row (m : PC) : Z := cursor_row (globals m).
Definition col (m : PC) : Z := cursor_col (globals m).
Definition color (m : PC) : Z := current_color (globals m).
Definition cell (m : PC) (i : Z) : Z := VGA_MEM (globals m) i.

Definition set_row (r : Z) (m : PC) : PC :=
  set_globals (Vga r (col m) (color m) (VGA_MEM (globals m))) m.
Definition set_col (c : Z) (m : PC) : PC :=
  set_globals (Vga (row m) c (color m) (VGA_MEM (globals m))) m.
Definition set_color (a : Z) (m : PC) : PC :=
  set_globals (Vga (row m) (col m) a (VGA_MEM (globals m))) m.
(* VGA_MEM[i] = v *)
Definition poke (i v : Z) (m : PC) : PC :=
  set_globals (Vga (row m) (col m) (color m) (upd (VGA_MEM (globals m)) i v)) m.

(** [for (int i = 0; i < n; i++) body(i)] *)
Definition for_range {S} (n : nat) (body : Z -> S -> S) (s : S) : S :=
  fold_left (fun s i => body (Z.of_nat i) s) (seq 0 n) s.

(* static uint16_t vga_entry(char c, uint8_t color) *)
Definition vga_entry (c attr : Z) : Z :=
  u16 (Z.lor (u16 (u8 c)) (Z.shiftl (u16 attr) 8)).

(* static void vga_update_cursor(void) *)
Definition vga_update_cursor (m : PC) : PC :=
  let pos := u16 (row m * VGA_WIDTH + col m) in
  let m := port_out 0x3D4 0x0F m in
  let m := port_out 0x3D5 (u8 (Z.land pos 0xFF)) m in
  let m := port_out 0x3D4 0x0E m in
  port_out 0x3D5 (u8 (Z.shiftr pos 8)) m.

(* void vga_set_color(uint8_t fg, uint8_t bg) *)
Definition vga_set_color (fg bg : Z) (m : PC) : PC :=
  set_color (u8 (Z.lor (Z.shiftl (u8 bg) 4) (Z.land (u8 fg) 0x0F))) m.

(* void vga_clear(void) *)
Definition vga_clear (m : PC) : PC :=
  let m := for_range (Z.to_nat (VGA_WIDTH * VGA_HEIGHT))
             (fun i m => poke i (vga_entry 32 (color m)) m) m in
  let m := set_row 0 m in
  let m := set_col 0 m in
  vga_update_cursor m.

(* void vga_init(void) *)
Definition vga_init (m : PC) : PC :=
  vga_clear (set_color 0x07 m).

(* static void vga_scroll(void) *)
Definition vga_scroll (m : PC) : PC :=
  let m := for_range (Z.to_nat (VGA_HEIGHT - 1)) (fun r m =>
             for_range (Z.to_nat VGA_WIDTH) (fun c m =>
               poke (r * VGA_WIDTH + c) (cell m ((r + 1) * VGA_WIDTH + c)) m) m) m in
  let m := for_range (Z.to_nat VGA_WIDTH) (fun c m =>
             poke ((VGA_HEIGHT - 1) * VGA_WIDTH + c) (vga_entry 32 (color m)) m) m in
  set_row (VGA_HEIGHT - 1) m.

(* void vga_putchar(char c) *)
Definition vga_putchar (c : Z) (m : PC) : PC :=
  let m :=
    if c =? 10 then
      let m := set_col 0 m in
      set_row (row m + 1) m
    else if c =? 13 then
      set_col 0 m
    else if c =? 8 then
      if col m >? 0 then
        let m := set_col (col m - 1) m in
        poke (row m * VGA_WIDTH + col m) (vga_entry 32 (color m)) m
      else m
    else
      let m := poke (row m * VGA_WIDTH + col m) (vga_entry c (color m)) m in
      let m := set_col (col m + 1) m in
      if col m >=? VGA_WIDTH then
        let m := set_col 0 m in
        set_row (row m + 1) m
      else m in
  let m := if row m >=? VGA_HEIGHT then vga_scroll m else m in
  vga_update_cursor m.

(* void vga_print(const char *str) *)
Fixpoint vga_print (str : list Z) (m : PC) : PC :=
  match str with
  | [] => m
  | c :: rest => if c =? 0 then m else vga_print rest (vga_putchar c m)
  end.

(* void vga_newline(void) *)
Definition vga_newline (m : PC) : PC := vga_putchar 10 m.

(** [while (n > 0) { buf[i++] = '0' + (n % 10); n /= 10; }] of
    [vga_print_int]; a [uint32_t] has at most ten decimal digits, so ten
    turns always reach [n = 0]. *)
Fixpoint digits_loop (turns : nat) (n : Z) (buf : Z -> Z) (i : Z) : (Z -> Z) * Z :=
  match turns with
  | O => (buf, i)
  | S k => if n >? 0 then digits_loop k (n / 10) (upd buf i (u8 (48 + n mod 10))) (i + 1)
           else (buf, i)
  end.

(* void vga_print_int(uint32_t n) *)
Definition vga_print_int (n : Z) (m : PC) : PC :=
  let n := u32 n in
  if n =? 0 then vga_putchar 48 m
  else
    let (buf, i) := digits_loop 10 n (fun _ => 0) 0 in
    for_range (Z.to_nat i) (fun k m => vga_putchar (buf (i - 1 - k)) m) m.

(* void vga_print_int2(uint8_t n) *)
Definition vga_print_int2 (n : Z) (m : PC) : PC :=
  let n := u8 n in
  let m := vga_putchar (u8 (48 + n / 10)) m in
  vga_putchar (u8 (48 + n mod 10)) m.

(** What [vga_flash] stores back for a cell: the two nibbles of the
    attribute byte are exchanged, the character byte is kept. *)
Definition invert_cell (entry : Z) : Z :=
  let attr := u8 (Z.shiftr entry 8) in
  let inv := u8 (Z.lor (Z.shiftl (Z.land attr 0x0F) 4) (Z.land (Z.shiftr attr 4) 0x0F)) in
  u16 (Z.lor (Z.land entry 0x00FF) (Z.shiftl (u16 inv) 8)).

(* void vga_flash(void); the empty loop [for (volatile int i = 0;
   i < 5000000; i++);] between the two passes changes no state *)
Definition vga_flash (m : PC) : PC :=
  let m := for_range (Z.to_nat (VGA_WIDTH * VGA_HEIGHT))
             (fun i m => poke i (invert_cell (u16 (cell m i))) m) m in
  for_range (Z.to_nat (VGA_WIDTH * VGA_HEIGHT))
    (fun i m => poke i (invert_cell (u16 (cell m i))) m) m.

(** ** keyboard.c *)

Definition KB_DATA : Z := 0x60.
Definition KB_STATUS : Z := 0x64.

(* static const char sc_azerty[128] *)
Definition sc_azerty : list Z :=
  [ 0; 0; 49; 50; 51; 52; 53; 54;
    55; 56; 57; 48; 45; 61; 8; 9;
    97; 122; 101; 114; 116; 121; 117; 105;
    111; 112; 91; 93; 10; 0; 113; 115;
    100; 102; 103; 104; 106; 107; 108; 109;
    39; 96; 0; 92; 119; 120; 99; 118;
    98; 110; 44; 46; 47; 0; 42; 0;
    0; 32; 0; 0; 0; 0; 0; 0 ] ++ repeat 0 64.

(* void keyboard_init(void) *)
Definition keyboard_init (fuel : nat) : IO unit :=
  iter fuel (fun _ : unit =>
    st <- inb KB_STATUS ;;
    if negb (Z.land st 0x01 =? 0) then inb KB_DATA ;; ret (inl tt)
    else ret (inr tt)) tt.

(** [while (!(inb(KB_STATUS) & 0x01));] *)
Definition wait_output_full (fuel : nat) : IO unit :=
  iter fuel (fun _ : unit =>
    st <- inb KB_STATUS ;;
    if Z.land st 0x01 =? 0 then ret (inl tt) else ret (inr tt)) tt.

(** One turn of the [for (;;)] of [keyboard_getchar]. *)
Definition getchar_body (fuel : nat) (_ : unit) : IO (unit + Z) :=
  wait_output_full fuel ;;
  sc <- inb KB_DATA ;;
  if negb (Z.land sc 0x80 =? 0) then ret (inl tt)
  else if sc >=? 128 then ret (inl tt)
  else
    let c := nth (Z.to_nat sc) sc_azerty 0 in
    if negb (c =? 0) then ret (inr c) else ret (inl tt).

(* char keyboard_getchar(void) *)
Definition keyboard_getchar (fuel : nat) : IO Z :=
  iter fuel (getchar_body fuel) tt.

(** One turn of the [for (;;)] of [keyboard_readline]; the loop state is
    the buffer and [len], the result the buffer and the returned length. *)
Definition readline_body (fuel : nat) (max : Z) (st : (Z -> Z) * Z)
  : IO ((Z -> Z) * Z + (Z -> Z) * Z) :=
  let (buf, len) := st in
  c <- keyboard_getchar fuel ;;
  if c =? 10 then
    lift (vga_putchar 10) ;;
    ret (inr (upd buf len 0, len))
  else if c =? 8 then
    if len >? 0 then
      lift (vga_putchar 8) ;;
      ret (inl (buf, len - 1))
    else ret (inl (buf, len))
  else if len <? max - 1 then
    lift (vga_putchar c) ;;
    ret (inl (upd buf len c, len + 1))
  else ret (inl (buf, len)).

(* int keyboard_readline(char *buf, int max) *)
Definition keyboard_readline (fuel : nat) (buf : Z -> Z) (max : Z)
  : IO ((Z -> Z) * Z) :=
  iter fuel (readline_body fuel max) (buf, 0).

End WithHardware.
End X86.

(** * shell.c: the command shell (x86 build) *)

Module Shell.
Import Ascii String.

(** The characters of a string literal. *)
Definition chars (s : string) : list Z :=
  List.map (fun a => Z.of_N (N_of_ascii a)) (list_ascii_of_string s).

Definition BUF_SIZE : Z := 128.

(* static int str_eq(const char *a, const char *b) *)
Fixpoint str_eq (a b : list Z) : bool :=
  match a, b with
  | x :: a', y :: b' =>
      if (x =? 0) || (y =? 0) then deref a =? deref b
      else if negb (x =? y) then false
      else str_eq a' b'
  | _, _ => deref a =? deref b
  end.

(** The loop [while ( *p && *p != ' ') p++;] of [split_arg]; [p] is an
    index into the buffer and [cells] is the number of cells of the
    buffer.  The result is [None] when the loop finds neither a NUL nor a
    space in the buffer, where the C code would read past its end. *)
Fixpoint scan_token (cells : nat) (buf : Z -> Z) (p : Z) : option Z :=
  match cells with
  | O => None
  | S k =>
      if negb (buf p =? 0) && negb (buf p =? 32) then scan_token k buf (p + 1)
      else Some p
  end.

(* static char *split_arg(char *buf): the buffer after the call and the
   index of the argument, [None] for a NULL result *)
Definition split_arg (cells : nat) (buf : Z -> Z) : option ((Z -> Z) * option Z) :=
  match scan_token cells buf 0 with
  | None => None
  | Some p =>
      if buf p =? 32 then Some (upd buf p 0, Some (p + 1))
      else Some (buf, None)
  end.

(* static uint8_t bcd2dec(uint8_t bcd) *)
Definition bcd2dec (bcd : Z) : Z :=
  let bcd := u8 bcd in
  u8 (Z.shiftr bcd 4 * 10 + Z.land bcd 0x0F).

(* static const color_entry_t color_table[]; the end of the list stands
   for the closing { 0, 0 } entry *)
Definition color_table : list (list Z * Z) :=
  [ (chars "black", 0); (chars "blue", 1); (chars "green", 2); (chars "cyan", 3);
    (chars "red", 4); (chars "magenta", 5); (chars "brown", 6); (chars "grey", 7);
    (chars "darkgrey", 8); (chars "lightblue", 9); (chars "lightgreen", 10);
    (chars "lightcyan", 11); (chars "lightred", 12); (chars "lightmagenta", 13);
    (chars "yellow", 14); (chars "white", 15) ].

Section WithHardware.
Context {HW : Type} `{Hardware HW}.
Abbreviation PC := (machine HW X86.vga_state).
Abbreviation IO := (M PC).

(* static inline void io_wait(void), io.h *)
Definition io_wait (m : PC) : PC := port_out 0x80 0 m.

(* static uint8_t cmos_read(uint8_t reg) *)
Definition cmos_read (reg : Z) (m : PC) : Z * PC :=
  let m := port_out 0x70 (u8 reg) m in
  let m := io_wait m in
  port_in 0x71 m.

(* static void print_uint8_2digits(uint8_t n) *)
Definition print_uint8_2digits (n : Z) (m : PC) : PC := X86.vga_print_int2 n m.

(* static void cmd_beep(void) *)
Definition cmd_beep (m : PC) : PC := X86.vga_flash m.

(* static void cmd_reboot(void): after the write the function stays in
   [for (;;) hlt] and does not return *)
Definition cmd_reboot : IO unit :=
  outb 0x64 0xFE ;; (fun _ => None).

(** The [for] loop of [cmd_color] over the colour table and the message
    that follows it. *)
Fixpoint cmd_color_from (tbl : list (list Z * Z)) (name : list Z) (m : PC) : PC :=
  match tbl with
  | [] =>
      let m := X86.vga_newline m in
      let m := X86.vga_print (chars "Unknown color name.") m in
      X86.vga_newline m
  | (n, code) :: rest =>
      if str_eq name n then X86.vga_set_color code 0 m
      else cmd_color_from rest name m
  end.

(* static void cmd_color(const char *name); [None] is the NULL pointer *)
Definition cmd_color (name : option (list Z)) (m : PC) : PC :=
  match name with
  | None =>
      let m := X86.vga_newline m in
      let m := X86.vga_print (chars "Usage: color <name>  (e.g. color white)") m in
      X86.vga_newline m
  | Some name => cmd_color_from color_table name m
  end.

(* static void cmd_cls(void) *)
Definition cmd_cls (m : PC) : PC := X86.vga_clear m.

(** [vga_print(text); vga_newline();] *)
Definition print_line (text : string) (m : PC) : PC :=
  X86.vga_newline (X86.vga_print (chars text) m).

(* static void cmd_help(void) *)
Definition cmd_help (m : PC) : PC :=
  let m := X86.vga_newline m in
  let m := print_line "Available commands:" m in
  let m := X86.vga_newline m in
  let m := print_line "  reboot  : restart the computer" m in
  let m := print_line "  cls     : clear the screen" m in
  let m := print_line "  beep    : visual flash (screen bell)" m in
  let m := print_line "  note    : play notes (do re mi fa sol la si)" m in
  let m := print_line "  color   : change text foreground color" m in
  let m := print_line "  date    : display current date" m in
  let m := print_line "  time    : display current time" m in
  print_line "  help    : list available commands" m.

(* static void cmd_date(void) *)
Definition cmd_date (m : PC) : PC :=
  let (b, m) := cmos_read 0x07 m in let day := bcd2dec b in
  let (b, m) := cmos_read 0x08 m in let month := bcd2dec b in
  let (b, m) := cmos_read 0x09 m in let year := bcd2dec b in
  let (b, m) := cmos_read 0x32 m in let cent := bcd2dec b in
  let m := X86.vga_newline m in
  let m := print_uint8_2digits day m in
  let m := X86.vga_putchar 47 m in
  let m := print_uint8_2digits month m in
  let m := X86.vga_putchar 47 m in
  let m := X86.vga_print_int2 cent m in
  let m := X86.vga_print_int2 year m in
  X86.vga_newline m.

(* static void cmd_time(void) *)
Definition cmd_time (m : PC) : PC :=
  let (b, m) := cmos_read 0x04 m in let h := bcd2dec b in
  let (b, m) := cmos_read 0x02 m in let mi := bcd2dec b in
  let (b, m) := cmos_read 0x00 m in let s := bcd2dec b in
  let m := X86.vga_newline m in
  let m := print_uint8_2digits h m in
  let m := X86.vga_putchar 58 m in
  let m := print_uint8_2digits mi m in
  let m := X86.vga_putchar 58 m in
  let m := print_uint8_2digits s m in
  X86.vga_newline m.

(** The chain of [str_eq] tests in the loop of [shell_run]; [buf] holds
    the command and [arg] is the result of [split_arg]. *)
Definition dispatch (fuel : nat) (buf : Z -> Z) (arg : option Z) : IO unit :=
  let cmd := cstring_from (Z.to_nat BUF_SIZE) buf 0 in
  if str_eq cmd (chars "reboot") then cmd_reboot
  else if str_eq cmd (chars "cls") then lift cmd_cls
  else if str_eq cmd (chars "help") then lift cmd_help
  else if str_eq cmd (chars "beep") then lift cmd_beep
  else if str_eq cmd (chars "note") then
    match arg with
    | Some p => Sound.sound_play_sequence fuel (cstring_from (Z.to_nat BUF_SIZE) buf p)
    | None => ret tt
    end
  else if str_eq cmd (chars "color") then
    lift (cmd_color (option_map (cstring_from (Z.to_nat BUF_SIZE) buf) arg))
  else if str_eq cmd (chars "date") then lift cmd_date
  else if str_eq cmd (chars "time") then lift cmd_time
  else if negb (buf 0 =? 0) then
    lift (fun m =>
      let m := X86.vga_newline m in
      let m := X86.vga_print (chars "Unknown command. Type 'help' to list commands.") m in
      X86.vga_newline m)
  else ret tt.

(** One turn of the [for (;;)] of [shell_run]; the result is the buffer,
    which the next turn reuses. *)
Definition shell_turn (fuel : nat) (buf : Z -> Z) : IO (Z -> Z) :=
  lift X86.vga_newline ;;
  lift (X86.vga_print (chars "Kernel# ")) ;;
  r <- X86.keyboard_readline fuel buf BUF_SIZE ;;
  match split_arg (Z.to_nat BUF_SIZE) (fst r) with
  | None => fun _ => None
  | Some (buf', arg) => dispatch fuel buf' arg ;; ret buf'
  end.

(* void shell_run(void): the loop has no exit; [char buf[BUF_SIZE]] starts
   with unspecified contents, of which no cell is read before
   [keyboard_readline] has written it *)
Definition shell_run (fuel : nat) : IO unit :=
  iter fuel (fun buf : Z -> Z =>
    buf' <- shell_turn fuel buf ;;
    ret (inl buf')) (fun _ => 0).

End WithHardware.
End Shell.

(** * vga_rpi3.c and keyboard_rpi3.c: serial console and input (Raspberry Pi 3) *)

Module Rpi3.

Definition UART_DR : Z := 0x3F201000.
Definition UART_FR : Z := 0x3F201018.
Definition UART_IBRD : Z := 0x3F201024.
Definition UART_FBRD : Z := 0x3F201028.
Definition UART_LCRH : Z := 0x3F20102C.
Definition UART_CR : Z := 0x3F201030.
Definition UART_ICR : Z := 0x3F201044.
Definition FR_TXFF : Z := 32.   (* 1 << 5 *)
Definition FR_RXFE : Z := 16.   (* 1 << 4 *)

Section WithHardware.
Context {HW : Type} `{Hardware HW}.
Abbreviation Pi := (machine HW unit).
Abbreviation IO := (M Pi).

(* static void uart_putchar(char c) *)
Definition uart_putchar (fuel : nat) (c : Z) : IO unit :=
  iter fuel (fun _ : unit =>
    fr <- mmio_load UART_FR ;;
    if negb (Z.land fr FR_TXFF =? 0) then ret (inl tt) else ret (inr tt)) tt ;;
  mmio_store UART_DR (u32 (u8 c)).

(* static void uart_puts(const char *s) *)
Fixpoint uart_puts (fuel : nat) (s : list Z) : IO unit :=
  match s with
  | [] => ret tt
  | c :: rest =>
      if c =? 0 then ret tt
      else
        (if c =? 10 then uart_putchar fuel 13 else ret tt) ;;
        uart_putchar fuel c ;;
        uart_puts fuel rest
  end.

(* void vga_clear(void): "\033[2J\033[H" *)
Definition vga_clear (fuel : nat) : IO unit :=
  uart_puts fuel [27; 91; 50; 74; 27; 91; 72].

(* void vga_init(void) *)
Definition vga_init (fuel : nat) : IO unit :=
  mmio_store UART_CR 0 ;;
  mmio_store UART_ICR 0x7FF ;;
  mmio_store UART_IBRD 26 ;;
  mmio_store UART_FBRD 3 ;;
  mmio_store UART_LCRH (Z.lor (Z.shiftl 3 5) (Z.shiftl 1 4)) ;;
  mmio_store UART_CR (Z.lor (Z.lor (Z.shiftl 1 0) (Z.shiftl 1 8)) (Z.shiftl 1 9)) ;;
  vga_clear fuel.

(* void vga_putchar(char c) *)
Definition vga_putchar (fuel : nat) (c : Z) : IO unit :=
  (if c =? 10 then uart_putchar fuel 13 else ret tt) ;;
  uart_putchar fuel c.

(* void vga_print(const char *str) *)
Definition vga_print (fuel : nat) (str : list Z) : IO unit :=
  uart_puts fuel str.

(* void vga_print_int2(uint8_t n) *)
Definition vga_print_int2 (fuel : nat) (n : Z) : IO unit :=
  let n := u8 n in
  uart_putchar fuel (u8 (48 + n / 10)) ;;
  uart_putchar fuel (u8 (48 + n mod 10)).

(* static const char *ansi_fg[16]: "\033[30m", "\033[34m", ... *)
Definition ansi_fg : list (list Z) :=
  map (fun code : Z * Z => [27; 91; fst code; snd code; 109])
    [ (51, 48); (51, 52); (51, 50); (51, 54);
      (51, 49); (51, 53); (51, 51); (51, 55);
      (57, 48); (57, 52); (57, 50); (57, 54);
      (57, 49); (57, 53); (57, 51); (57, 55) ].

(* void vga_set_color(uint8_t fg, uint8_t bg) *)
Definition vga_set_color (fuel : nat) (fg bg : Z) : IO unit :=
  let fg := u8 fg in
  if fg <? 16 then uart_puts fuel (nth (Z.to_nat fg) ansi_fg []) else ret tt.

(* void vga_newline(void) *)
Definition vga_newline (fuel : nat) : IO unit :=
  uart_puts fuel [13; 10].

(** [while (n > 0) { buf[i++] = '0' + (int)(n % 10); n /= 10; }] of
    [vga_print_int], at most ten turns for a [uint32_t]. *)
Fixpoint digits_loop (turns : nat) (n : Z) (buf : Z -> Z) (i : Z) : (Z -> Z) * Z :=
  match turns with
  | O => (buf, i)
  | S k => if n >? 0 then digits_loop k (n / 10) (upd buf i (u8 (48 + n mod 10))) (i + 1)
           else (buf, i)
  end.

(** [for (int j = i - 1; j >= 0; j--) uart_putchar(buf[j]);] *)
Fixpoint put_digits (fuel : nat) (buf : Z -> Z) (i : nat) : IO unit :=
  match i with
  | O => ret tt
  | S j => uart_putchar fuel (buf (Z.of_nat j)) ;; put_digits fuel buf j
  end.

(* void vga_print_int(uint32_t n) *)
Definition vga_print_int (fuel : nat) (n : Z) : IO unit :=
  let n := u32 n in
  if n =? 0 then uart_putchar fuel 48
  else
    let (buf, i) := digits_loop 10 n (fun _ => 0) 0 in
    put_digits fuel buf (Z.to_nat i).

(* void vga_flash(void): "\033[?5h", an empty counting loop, "\033[?5l" *)
Definition vga_flash (fuel : nat) : IO unit :=
  uart_puts fuel [27; 91; 63; 53; 104] ;;
  uart_puts fuel [27; 91; 63; 53; 108].

(* void keyboard_init(void) {} *)
Definition keyboard_init : IO unit := ret tt.

(* char keyboard_getchar(void); plain [char] is unsigned on AArch64 *)
Definition keyboard_getchar (fuel : nat) : IO Z :=
  iter fuel (fun _ : unit =>
    fr <- mmio_load UART_FR ;;
    if negb (Z.land fr FR_RXFE =? 0) then ret (inl tt) else ret (inr tt)) tt ;;
  dr <- mmio_load UART_DR ;;
  ret (u8 (Z.land dr 0xFF)).

(** One turn of the [for (;;)] of [keyboard_readline]. *)
Definition readline_body (fuel : nat) (max : Z) (st : (Z -> Z) * Z)
  : IO ((Z -> Z) * Z + (Z -> Z) * Z) :=
  let (buf, len) := st in
  c <- keyboard_getchar fuel ;;
  if (c =? 13) || (c =? 10) then
    vga_putchar fuel 10 ;;
    ret (inr (upd buf len 0, len))
  else if (c =? 8) || (c =? 127) then
    if len >? 0 then
      vga_putchar fuel 8 ;;
      vga_putchar fuel 32 ;;
      vga_putchar fuel 8 ;;
      ret (inl (buf, len - 1))
    else ret (inl (buf, len))
  else if (c >=? 32) && (len <? max - 1) then
    vga_putchar fuel c ;;
    ret (inl (upd buf len c, len + 1))
  else ret (inl (buf, len)).

(* int keyboard_readline(char *buf, int max) *)
Definition keyboard_readline (fuel : nat) (buf : Z -> Z) (max : Z)
  : IO ((Z -> Z) * Z) :=
  iter fuel (readline_body fuel max) (buf, 0).

End WithHardware.
End Rpi3.

(** * kernel.c: the entry point *)

Module Kernel.
Import Ascii String.

Section WithHardware.
Context {HW : Type} `{Hardware HW}.

(** [kernel_main] up to the call of [shell_run], x86 build. *)
Definition kernel_start (fuel : nat) : M (machine HW X86.vga_state) unit :=
  lift X86.vga_init ;;
  X86.keyboard_init fuel ;;
  lift (X86.vga_print (Shell.chars "EXIGE OS [version 0.1]")) ;;
  lift X86.vga_newline.

(* void kernel_main(void), x86 build *)
Definition kernel_main (fuel : nat) : M (machine HW X86.vga_state) unit :=
  kernel_start fuel ;;
  Shell.shell_run fuel.

(** [kernel_main] up to the call of [shell_run], Raspberry Pi build. *)
Definition kernel_start_rpi3 (fuel : nat) : M (machine HW unit) unit :=
  Rpi3.vga_init fuel ;;
  Rpi3.keyboard_init ;;
  Rpi3.vga_print fuel (Shell.chars "EXIGE OS [version 0.1]") ;;
  Rpi3.vga_newline fuel.

End WithHardware.
End Kernel.

(** * Simulated devices

    Two concrete devices on which the drivers can be run: a PC with a
    free-running timer, the speaker gate register and a keyboard
    controller fed from a queue of scan codes, and a serial port fed from
    a queue of received bytes. *)

Record sim_pc : Type := SimPc {
  pit_counter : Z;      (* current value of the channel 0 counter *)
  pit_step : Z;         (* ticks that elapse between two latch commands *)
  pit_latch : Z;        (* value frozen by the last latch command *)
  pit_high : bool;      (* the next read of port 0x40 gives the high byte *)
  port61 : Z;           (* system control port B *)
  kbd_queue : list Z    (* scan codes waiting in the controller *)
}.

Definition sim_pc_read (port : Z) (s : sim_pc) : Z * sim_pc :=
  if port =? 0x40 then
    if pit_high s
    then (pit_latch s / 256,
          SimPc (pit_counter s) (pit_step s) (pit_latch s) false (port61 s) (kbd_queue s))
    else (pit_latch s mod 256,
          SimPc (pit_counter s) (pit_step s) (pit_latch s) true (port61 s) (kbd_queue s))
  else if port =? 0x61 then (port61 s, s)
  else if port =? 0x64 then
    (match kbd_queue s with [] => 0 | _ :: _ => 1 end, s)
  else if port =? 0x60 then
    (deref (kbd_queue s),
     SimPc (pit_counter s) (pit_step s) (pit_latch s) (pit_high s) (port61 s)
           (tl (kbd_queue s)))
  else (0, s).

Definition sim_pc_write (port val : Z) (s : sim_pc) : sim_pc :=
  if (port =? 0x43) && (val =? 0) then
    SimPc ((pit_counter s - pit_step s) mod 65536) (pit_step s) (pit_counter s)
          false (port61 s) (kbd_queue s)
  else if port =? 0x61 then
    SimPc (pit_counter s) (pit_step s) (pit_latch s) (pit_high s) val (kbd_queue s)
  else s.

#[export] Instance sim_pc_hardware : Hardware sim_pc :=
  {| hw_read := sim_pc_read; hw_write := sim_pc_write |}.

Definition sim_pc_boot (counter step gate : Z) (keys : list Z) : sim_pc :=
  SimPc counter step 0 false gate keys.

(** A serial port: the transmitter is never full, the receiver holds a
    queue of bytes. *)
Record sim_uart : Type := SimUart { rx_queue : list Z }.

Definition sim_uart_read (addr : Z) (s : sim_uart) : Z * sim_uart :=
  if addr =? Rpi3.UART_FR then
    (match rx_queue s with [] => Rpi3.FR_RXFE | _ :: _ => 0 end, s)
  else if addr =? Rpi3.UART_DR then (deref (rx_queue s), SimUart (tl (rx_queue s)))
  else (0, s).

#[export] Instance sim_uart_hardware : Hardware sim_uart :=
  {| hw_read := sim_uart_read; hw_write := fun _ _ s => s |}.

Definition blank_screen : X86.vga_state := X86.Vga 0 0 0x07 (fun _ => 0).

(** * Specification-side definitions *)

(** The port traffic of one [pit0_read] that samples the value [s]. *)
Definition sample_events (s : Z) : list event :=
  [EvOut 0x43 0; EvIn 0x40 (s mod 256); EvIn 0x40 (s / 256)].

(** The ticks that a run of samples accounts for: the sum of the deltas of
    its consecutive pairs, without any wrap-around of the sum. *)
Fixpoint total_delta (prev : Z) (samples : list Z) : Z :=
  match samples with
  | [] => 0
  | s :: rest => Sound.delta prev s + total_delta s rest
  end.

(** Bits 0 and 1 of [w] are set, bits 2 to 7 are those of [v]. *)
Definition gate_bits_set (v w : Z) : Prop :=
  forall i, 0 <= i < 8 -> Z.testbit w i = (i <? 2) || Z.testbit v i.

(** Bits 0 and 1 of [w] are clear, bits 2 to 7 are those of [v]. *)
Definition gate_bits_cleared (v w : Z) : Prop :=
  forall i, 0 <= i < 8 -> Z.testbit w i = (2 <=? i) && Z.testbit v i.

Definition touches (port : Z) (e : event) : Prop :=
  match e with
  | EvIn p _ => p = port
  | EvOut p _ => p = port
  end.

(** The tokens of a note sequence, following the specification: the text
    is cut at every space and ends at its NUL, empty tokens are dropped,
    and a token keeps its first seven characters. *)
Fixpoint split_tokens (str cur : list Z) : list (list Z) :=
  match str with
  | [] => [cur]
  | c :: rest =>
      if c =? 0 then [cur]
      else if c =? 32 then cur :: split_tokens rest []
      else split_tokens rest (cur ++ [c])
  end.

Definition nonempty (t : list Z) : bool :=
  match t with
  | [] => false
  | _ :: _ => true
  end.

Definition spec_tokens (str : list Z) : list (list Z) :=
  map (firstn 7) (filter nonempty (split_tokens str [])).

(** Every token is handed to [sound_note] and followed by an 80 ms rest. *)
Fixpoint play_tokens {HW G : Type} `{Hardware HW} (fuel : nat)
    (tokens : list (list Z)) : M (machine HW G) unit :=
  match tokens with
  | [] => ret tt
  | t :: rest =>
      Sound.sound_note fuel t ;;
      Sound.sound_play fuel 0 80 ;;
      play_tokens fuel rest
  end.

(** The array [token] and the index [ti] hold the first seven characters
    of the token read so far. *)
Definition holds_token (token : Z -> Z) (ti : Z) (cur : list Z) : Prop :=
  ti = Z.of_nat (length (firstn 7 cur)) /\
  (forall k, (k < length (firstn 7 cur))%nat -> token (Z.of_nat k) = nth k (firstn 7 cur) 0) /\
  Forall (fun c => c <> 0) cur.

(** ** The framebuffer console *)

Section ConsoleSpec.
Context {HW : Type} `{Hardware HW}.

(** The cursor denotes a cell of the 80 x 25 screen. *)
Definition cursor_valid (m : machine HW X86.vga_state) : Prop :=
  0 <= X86.row m <= X86.VGA_HEIGHT - 1 /\ 0 <= X86.col m <= X86.VGA_WIDTH - 1.

(** The index of the cell under the cursor. *)
Definition pos (m : machine HW X86.vga_state) : Z :=
  X86.row m * X86.VGA_WIDTH + X86.col m.

(** A character that [vga_putchar] draws: not newline, carriage return or
    backspace. *)
Definition printable (c : Z) : Prop := c <> 10 /\ c <> 13 /\ c <> 8.

(** Writing the characters of [s] one after the other with [vga_putchar]. *)
Definition put_chars (s : list Z) (m : machine HW X86.vga_state)
  : machine HW X86.vga_state :=
  fold_left (fun m c => X86.vga_putchar c m) s m.

(** Row [r] shows nothing but blanks in the current colour. *)
Definition row_blank (m : machine HW X86.vga_state) (r : Z) : Prop :=
  forall k, 0 <= k < X86.VGA_WIDTH ->
    X86.cell m (r * X86.VGA_WIDTH + k) = X86.vga_entry 32 (X86.color m).

(** What does not touch the screen memory. *)
Definition same_cursor (m m' : machine HW X86.vga_state) : Prop :=
  X86.row m' = X86.row m /\ X86.col m' = X86.col m /\ X86.color m' = X86.color m.

(** The cursor movement of [vga_putchar], before the test for scrolling. *)
Definition moved (c : Z) (m : machine HW X86.vga_state) : machine HW X86.vga_state :=
  if c =? 10 then
    let m := X86.set_col 0 m in
    X86.set_row (X86.row m + 1) m
  else if c =? 13 then
    X86.set_col 0 m
  else if c =? 8 then
    if X86.col m >? 0 then
      let m := X86.set_col (X86.col m - 1) m in
      X86.poke (X86.row m * X86.VGA_WIDTH + X86.col m) (X86.vga_entry 32 (X86.color m)) m
    else m
  else
    let m := X86.poke (X86.row m * X86.VGA_WIDTH + X86.col m)
                      (X86.vga_entry c (X86.color m)) m in
    let m := X86.set_col (X86.col m + 1) m in
    if X86.col m >=? X86.VGA_WIDTH then
      let m := X86.set_col 0 m in
      X86.set_row (X86.row m + 1) m
    else m.

End ConsoleSpec.

Ltac vga_unfold :=
  unfold cursor_valid, pos, X86.set_col, X86.set_row, X86.set_color, X86.poke,
         X86.row, X86.col, X86.color, X86.cell, set_globals,
         X86.VGA_WIDTH, X86.VGA_HEIGHT in *;
  cbn [globals X86.cursor_row X86.cursor_col X86.current_color X86.VGA_MEM] in *.



(** ** The serial console and line input *)

(** A read of the UART flag register. *)
Definition status_poll (e : event) : Prop :=
  match e with
  | EvIn a _ => a = Rpi3.UART_FR
  | EvOut _ _ => False
  end.

(** The bytes handed to the transmitter: the values stored in [UART_DR]. *)
Fixpoint uart_sent (evs : list event) : list Z :=
  match evs with
  | [] => []
  | EvOut a v :: rest => if a =? Rpi3.UART_DR then v :: uart_sent rest else uart_sent rest
  | EvIn _ _ :: rest => uart_sent rest
  end.

(** The bytes taken from the receiver: the low byte of every value loaded
    from [UART_DR]. *)
Fixpoint uart_received (evs : list event) : list Z :=
  match evs with
  | [] => []
  | EvIn a v :: rest =>
      if a =? Rpi3.UART_DR then v mod 256 :: uart_received rest else uart_received rest
  | EvOut _ _ :: rest => uart_received rest
  end.

(** What [uart_puts] transmits for a text: its characters up to the NUL,
    with a carriage return before every line feed. *)
Fixpoint crlf (s : list Z) : list Z :=
  match s with
  | [] => []
  | c :: rest =>
      if c =? 0 then []
      else (if c =? 10 then [13; 10] else [u8 c]) ++ crlf rest
  end.

(** The character that a scan code read from port 0x60 produces, if any:
    key releases, codes of 128 and more and unmapped keys produce none. *)
Definition kbd_key (sc : Z) : option Z :=
  if (Z.land sc 0x80 =? 0) && (sc <? 128) then
    let c := nth (Z.to_nat sc) X86.sc_azerty 0 in
    if c =? 0 then None else Some c
  else None.

(** The characters typed on the PS/2 keyboard, from the reads of port 0x60. *)
Fixpoint kbd_keys (evs : list event) : list Z :=
  match evs with
  | [] => []
  | EvIn a v :: rest =>
      if a =? X86.KB_DATA
      then match kbd_key v with
           | Some c => c :: kbd_keys rest
           | None => kbd_keys rest
           end
      else kbd_keys rest
  | EvOut _ _ :: rest => kbd_keys rest
  end.

(** Line editing as the specification words it.  A backspace drops the
    last character of a non-empty line and does nothing to an empty one;
    any other character is appended while fewer than [max - 1] characters
    are stored, and dropped otherwise. *)
Definition pc_edit_key (max : Z) (line : list Z) (c : Z) : list Z :=
  if c =? 8 then removelast line
  else if Z.of_nat (length line) <? max - 1 then line ++ [c]
  else line.

Definition pc_edit (max : Z) (keys : list Z) : list Z :=
  fold_left (pc_edit_key max) keys [].





(** The buffer [buf] holds [line] followed by a NUL, and [len] is its
    length. *)
Definition stored_line (buf : Z -> Z) (len : Z) (line : list Z) : Prop :=
  len = Z.of_nat (length line) /\ buf len = 0 /\
  forall i, (i < length line)%nat -> buf (Z.of_nat i) = nth i line 0.

(** The buffer [buf] holds [line] in its first cells. *)
Definition holds_line (buf : Z -> Z) (len : Z) (line : list Z) : Prop :=
  len = Z.of_nat (length line) /\
  forall i, (i < length line)%nat -> buf (Z.of_nat i) = nth i line 0.

(** The decimal value of a run of ASCII digits. *)
Definition decimal_value (digits : list Z) : Z :=
  fold_left (fun acc d => 10 * acc + (d - 48)) digits 0.

Definition is_digit (d : Z) : Prop := 48 <= d <= 57.

(** A transmitter that never reports a full FIFO. *)
Definition tx_always_ready (HW : Type) `{Hardware HW} : Prop :=
  forall h : HW, Z.land (u32 (fst (hw_read Rpi3.UART_FR h))) Rpi3.FR_TXFF = 0.

(** The run transmitted [sent] and received [received]. *)
Definition exchanges {HW : Type} (m m' : machine HW unit) (sent received : list Z) : Prop :=
  exists evs, log m' = log m ++ evs /\ uart_sent evs = sent /\
              uart_received evs = received.

(** The run transmitted [sent] and received nothing. *)
Definition transmits {HW : Type} (m m' : machine HW unit) (sent : list Z) : Prop :=
  exchanges m m' sent [].

(** The run read the characters [keys] from the keyboard. *)
Definition types {HW : Type} (m m' : machine HW X86.vga_state) (keys : list Z) : Prop :=
  exists evs, log m' = log m ++ evs /\ kbd_keys evs = keys.

(** ** Decimal numbers *)

(** The decimal digits of [n] as ASCII characters, least significant
    first, [k] of them at most. *)
Fixpoint digits_rev (k : nat) (n : Z) : list Z :=
  match k with
  | O => []
  | S k' => if n >? 0 then (48 + n mod 10) :: digits_rev k' (n / 10) else []
  end.

(** The decimal representation of a 32-bit number: most significant digit
    first, ["0"] for zero. *)
Definition decimal (n : Z) : list Z :=
  if n =? 0 then [48] else rev (digits_rev 10 n).

(** ** Text and the hardware cursor *)

(** The characters of a C string: those before its first NUL. *)
Fixpoint until_nul (s : list Z) : list Z :=
  match s with
  | [] => []
  | c :: rest => if c =? 0 then [] else c :: until_nul rest
  end.

(** The CRT controller seen from the port log: a write to port 0x3D4
    selects a register, a write to port 0x3D5 stores into the selected
    register. *)
Definition crtc_step (st : Z * (Z -> Z)) (e : event) : Z * (Z -> Z) :=
  match e with
  | EvOut p v =>
      if p =? 0x3D4 then (v, snd st)
      else if p =? 0x3D5 then (fst st, upd (snd st) (fst st) v)
      else st
  | EvIn _ _ => st
  end.

(** The cursor location held by the CRT controller after a run of port
    accesses: register 0x0E is its high byte, register 0x0F its low byte. *)
Definition crtc_cursor (evs : list event) : Z :=
  let regs := snd (fold_left crtc_step evs (0, fun _ => 0)) in
  regs 0x0E * 256 + regs 0x0F.

(** A write to one of the two ports of the CRT controller. *)
Definition crtc_write (e : event) : Prop :=
  match e with
  | EvOut p _ => p = 0x3D4 \/ p = 0x3D5
  | EvIn _ _ => False
  end.

(** ** The real-time clock *)

(** One access to the CMOS: the register number goes to port 0x70, a
    write to port 0x80 lets the chip settle, the value comes from port
    0x71. *)
Definition cmos_events (reg b : Z) : list event :=
  [EvOut 0x70 reg; EvOut 0x80 0; EvIn 0x71 b].

(** The byte holds two decimal digits, one in each half. *)
Definition valid_bcd (b : Z) : Prop := b / 16 <= 9 /\ b mod 16 <= 9.

(** The two characters that the shell prints for a byte read from the
    CMOS. *)
Definition bcd_text (b : Z) : list Z :=
  [48 + Shell.bcd2dec b / 10; 48 + Shell.bcd2dec b mod 10].

(** ** The texts of the shell *)

Module ShellText.
Import Ascii String.

Definition unknown_color : list Z := Shell.chars "Unknown color name.".
Definition color_usage : list Z :=
  Shell.chars "Usage: color <name>  (e.g. color white)".
Definition unknown_command : list Z :=
  Shell.chars "Unknown command. Type 'help' to list commands.".

Definition banner : list Z := Shell.chars "EXIGE OS [version 0.1]".
Definition reboot : list Z := Shell.chars "reboot".
Definition note : list Z := Shell.chars "note".

(** The names of the commands. *)
Definition commands : list (list Z) :=
  [ reboot; Shell.chars "cls"; Shell.chars "help"; Shell.chars "beep"; note;
    Shell.chars "color"; Shell.chars "date"; Shell.chars "time" ].

End ShellText.

(** ** The keyboard controller protocol *)

(** A port log that respects the keyboard controller: it consists of
    reads of the status port 0x64 and of the data port 0x60, and the data
    port is read only right after a status read that showed a byte
    waiting (bit 0 set).  [ready] tells whether the access before the log
    was such a status read. *)
Fixpoint polled (ready : bool) (evs : list event) : Prop :=
  match evs with
  | [] => True
  | EvIn p v :: rest =>
      if p =? X86.KB_STATUS then polled (negb (Z.land v 1 =? 0)) rest
      else if p =? X86.KB_DATA then ready = true /\ polled false rest
      else False
  | EvOut _ _ :: _ => False
  end.

(** Whether the log ends with a status read that showed a byte waiting. *)
Fixpoint ready_after (ready : bool) (evs : list event) : bool :=
  match evs with
  | [] => ready
  | EvIn p v :: rest =>
      if p =? X86.KB_STATUS then ready_after (negb (Z.land v 1 =? 0)) rest
      else ready_after false rest
  | EvOut _ _ :: rest => ready_after false rest
  end.

(** The run from [m] to [s] respected the controller, read the
    characters [keys] and left the globals alone; [r] tells whether it
    ended with a status read that showed a byte waiting. *)
Definition kbd_log {HW : Type} (m s : machine HW X86.vga_state) (r : bool)
    (keys : list Z) : Prop :=
  exists evs, log s = log m ++ evs /\ polled false evs /\
              ready_after false evs = r /\ kbd_keys evs = keys /\
              globals s = globals m.

(** The accesses by which [keyboard_init] discards one stale byte [d]
    after the status [st]. *)
Definition discard (sd : Z * Z) : list event :=
  [EvIn X86.KB_STATUS (fst sd); EvIn X86.KB_DATA (snd sd)].

(** ** Line input and the bounds of the buffer *)

(** * Properties *)

(** ** The monad and its loops *)

Lemma bind_Some {S A B} (c : M S A) (k : A -> M S B) s r :
  bind c k s = Some r ->
  exists a s', c s = Some (a, s') /\ k a s' = Some r.
Proof.
  unfold bind. destruct (c s) as [[a s']|] eqn:E; [|discriminate].
  intros Hk. exists a, s'. split; [reflexivity|exact Hk].
Qed.

Lemma bind_eq {S A B} (c : M S A) (k : A -> M S B) s a s' :
  c s = Some (a, s') -> bind c k s = k a s'.
Proof. intros E. unfold bind. rewrite E. reflexivity. Qed.

Lemma bind_assoc {S A B C} (c : M S A) (k : A -> M S B) (h : B -> M S C) s :
  bind (bind c k) h s = bind c (fun a => bind (k a) h) s.
Proof. unfold bind. destruct (c s) as [[a s']|]; reflexivity. Qed.

Lemma bind_ret_r {S A} (c : M S A) s : bind c ret s = c s.
Proof. unfold bind, ret. destruct (c s) as [[a s']|]; reflexivity. Qed.

(** Invariant rule for [iter]: [I] holds of the loop state on entry and is
    kept by every turn that continues; a turn that exits establishes [Q]. *)
Lemma iter_inv {S X A} (I : X -> S -> Prop) (Q : A -> S -> Prop)
      (body : X -> M S (X + A)) :
  (forall x s r s', I x s -> body x s = Some (r, s') ->
     match r with inl x' => I x' s' | inr a => Q a s' end) ->
  forall fuel x s a s', I x s -> iter fuel body x s = Some (a, s') -> Q a s'.
Proof.
  intros Hbody fuel. induction fuel as [|n IH]; intros x s a s' HI Hrun.
  - discriminate.
  - simpl in Hrun. destruct (body x s) as [[[x'|a'] s1]|] eqn:E; try discriminate.
    + apply (IH x' s1); [|exact Hrun]. exact (Hbody x s (inl x') s1 HI E).
    + inversion Hrun; subst. exact (Hbody x s (inr a) s' HI E).
Qed.

(** More fuel does not change the result of a loop that returned. *)
Lemma iter_more_fuel {S X A} (body : X -> M S (X + A)) fuel k x s r :
  iter fuel body x s = Some r -> iter (fuel + k) body x s = Some r.
Proof.
  revert x s. induction fuel as [|n IH]; intros x s Hrun; [discriminate|].
  simpl in *. destruct (body x s) as [[[x'|a'] s1]|]; try discriminate.
  - apply IH. exact Hrun.
  - exact Hrun.
Qed.

(** ** Machine integers and bits *)

Lemma u8_range x : 0 <= u8 x < 256.
Proof. unfold u8. apply Z.mod_pos_bound. lia. Qed.

Lemma u16_range x : 0 <= u16 x < 65536.
Proof. unfold u16. apply Z.mod_pos_bound. lia. Qed.

Lemma u32_range x : 0 <= u32 x < 4294967296.
Proof. unfold u32. apply Z.mod_pos_bound. lia. Qed.

Lemma u8_small x : 0 <= x < 256 -> u8 x = x.
Proof. intros. unfold u8. apply Z.mod_small. assumption. Qed.

Lemma u16_small x : 0 <= x < 65536 -> u16 x = x.
Proof. intros. unfold u16. apply Z.mod_small. assumption. Qed.

Lemma u32_small x : 0 <= x < 4294967296 -> u32 x = x.
Proof. intros. unfold u32. apply Z.mod_small. assumption. Qed.

Lemma u32_le x : 0 <= x -> u32 x <= x.
Proof. intros. unfold u32. apply Z.mod_le; lia. Qed.

Lemma testbit_u8 x i : 0 <= i < 8 -> Z.testbit (u8 x) i = Z.testbit x i.
Proof.
  intros Hi. unfold u8. change 256 with (2 ^ 8).
  apply Z.mod_pow2_bits_low. lia.
Qed.

(** A high byte shifted left by eight and or-ed with a low byte. *)
Lemma lor_shiftl_bytes hi lo :
  0 <= hi < 256 -> 0 <= lo < 256 ->
  Z.lor (Z.shiftl hi 8) lo = hi * 256 + lo.
Proof.
  intros Hhi Hlo.
  rewrite Z.shiftl_mul_pow2 by lia. change (2 ^ 8) with 256.
  rewrite <- Z.lxor_lor, <- Z.add_nocarry_lxor; try reflexivity.
  all: apply Z.bits_inj'; intros i Hi; rewrite Z.land_spec, Z.bits_0.
  all: destruct (Z_lt_ge_dec i 8) as [Hlt|Hge].
  all: try (replace (hi * 256) with (hi * 2 ^ 8) by reflexivity;
            rewrite Z.mul_pow2_bits_low by lia; reflexivity).
  all: rewrite (Z.bits_above_log2 lo i), andb_false_r; try reflexivity; try lia.
  all: destruct (Z.eq_dec lo 0) as [->|Hne]; [simpl; lia|].
  all: apply Z.lt_le_trans with 8; [|lia].
  all: apply Z.log2_lt_pow2; [lia|simpl; lia].
Qed.

(** ** sound.c: sampling the timer *)

Section SoundFacts.
Context {HW G : Type} `{Hardware HW}.
Implicit Types m : machine HW G.

Lemma inb_spec port m :
  exists v m', inb port m = Some (v, m') /\ 0 <= v < 256 /\
               log m' = log m ++ [EvIn port v] /\ globals m' = globals m.
Proof.
  unfold inb, port_in. destruct (hw_read port (hw m)) as [v h].
  eexists _, _. split; [reflexivity|]. split; [apply u8_range|].
  split; reflexivity.
Qed.

Lemma outb_spec port val m :
  exists m', outb port val m = Some (tt, m') /\
             log m' = log m ++ [EvOut port (u8 val)] /\ globals m' = globals m.
Proof. eexists. split; [reflexivity|]. split; reflexivity. Qed.

Lemma sample_bytes hi lo :
  0 <= hi < 256 -> 0 <= lo < 256 ->
  let s := u16 (Z.lor (Z.shiftl (u16 hi) 8) lo) in
  0 <= s < 65536 /\ s mod 256 = lo /\ s / 256 = hi.
Proof.
  intros Hhi Hlo s. subst s.
  rewrite (u16_small hi) by lia.
  rewrite lor_shiftl_bytes by assumption.
  rewrite u16_small by lia.
  split; [lia|]. split.
  - rewrite Z.add_comm, Z.mod_add by lia. apply Z.mod_small. assumption.
  - rewrite Z.add_comm, Z.div_add by lia. rewrite Z.div_small by assumption. lia.
Qed.

(** [pit0_read] always returns: it latches, reads the low then the high
    byte, and yields the 16-bit value they form. *)
Lemma pit0_read_spec m :
  exists s m', Sound.pit0_read m = Some (s, m') /\ 0 <= s < 65536 /\
               log m' = log m ++ sample_events s /\ globals m' = globals m.
Proof.
  unfold Sound.pit0_read.
  destruct (outb_spec 0x43 0x00 m) as (m1 & E1 & L1 & G1).
  destruct (inb_spec 0x40 m1) as (lo & m2 & E2 & Hlo & L2 & G2).
  destruct (inb_spec 0x40 m2) as (hi & m3 & E3 & Hhi & L3 & G3).
  destruct (sample_bytes hi lo Hhi Hlo) as (Hs & Hmod & Hdiv).
  eexists _, m3.
  rewrite (bind_eq _ _ _ _ _ E1), (bind_eq _ _ _ _ _ E2), (bind_eq _ _ _ _ _ E3).
  split; [reflexivity|]. split; [exact Hs|]. split.
  - unfold sample_events. rewrite L3, L2, L1, Hmod, Hdiv.
    rewrite <- !app_assoc. reflexivity.
  - congruence.
Qed.

Lemma delta_range prev curr : 0 <= Sound.delta prev curr < 65536.
Proof. unfold Sound.delta. destruct (prev >=? curr); apply u16_range. Qed.

(** The value of [delta] on two 16-bit samples. *)
Lemma delta_cases prev curr :
  0 <= prev < 65536 -> 0 <= curr < 65536 ->
  Sound.delta prev curr =
    if curr <=? prev then prev - curr else prev + (65536 - curr).
Proof.
  intros Hp Hc. unfold Sound.delta.
  destruct (Z.geb_spec prev curr) as [Hge|Hlt];
    destruct (Z.leb_spec curr prev) as [Hle|Hgt]; try lia.
  - apply u16_small. lia.
  - rewrite (u32_small (65536 - curr)) by lia.
    rewrite u32_small by lia.
    rewrite !(u16_small (prev + (65536 - curr))) by lia. reflexivity.
Qed.

Lemma total_delta_nonneg prev ss : 0 <= total_delta prev ss.
Proof.
  revert prev. induction ss as [|s r IH]; intros prev; simpl; [lia|].
  pose proof (delta_range prev s). specialize (IH s). lia.
Qed.

Lemma last_cons {A} (s : A) r d : last (s :: r) d = last r s.
Proof.
  revert s d. induction r as [|x r IH]; intros s d; [reflexivity|].
  change (last (s :: x :: r) d) with (last (x :: r) d).
  rewrite !IH. reflexivity.
Qed.

Lemma total_delta_snoc prev ss c :
  total_delta prev (ss ++ [c]) = total_delta prev ss + Sound.delta (last ss prev) c.
Proof.
  revert prev. induction ss as [|s r IH]; intros prev.
  - simpl. lia.
  - change ((s :: r) ++ [c]) with (s :: (r ++ [c])).
    cbn [total_delta]. rewrite IH.
    rewrite last_cons. lia.
Qed.

Lemma flat_map_snoc {A B} (f : A -> list B) l x :
  flat_map f (l ++ [x]) = flat_map f l ++ f x.
Proof. rewrite flat_map_app. simpl. rewrite app_nil_r. reflexivity. Qed.

(** The loop of [delay_ms] exits only once the deltas of the samples it
    read add up to [ticks_needed]. *)
Lemma delay_loop_spec fuel tn s0 m0 m' :
  0 <= s0 < 65536 ->
  iter fuel (Sound.delay_body tn) (s0, 0) m0 = Some (tt, m') ->
  exists ss, log m' = log m0 ++ flat_map sample_events ss /\
             tn <= total_delta s0 ss /\ globals m' = globals m0.
Proof.
  intros Hs0 Hrun.
  pose (I := fun (st : Z * Z) m =>
    exists ss, log m = log m0 ++ flat_map sample_events ss /\
               fst st = last ss s0 /\ 0 <= fst st < 65536 /\
               0 <= snd st <= total_delta s0 ss /\ globals m = globals m0).
  pose (Q := fun (_ : unit) m =>
    exists ss, log m = log m0 ++ flat_map sample_events ss /\
               tn <= total_delta s0 ss /\ globals m = globals m0).
  apply (iter_inv I Q (Sound.delay_body tn)) with (fuel := fuel) (x := (s0, 0))
    (s := m0) (a := tt); [| |exact Hrun].
  - intros [prev elapsed] m r m1 (ss & HL & Hprev & Hrange & Hel & HG) Hbody.
    simpl in Hprev, Hrange, Hel. unfold Sound.delay_body in Hbody.
    destruct (Z.ltb_spec elapsed tn) as [Hlt|Hge].
    + destruct (pit0_read_spec m) as (c & m2 & E & Hc & L2 & G2).
      rewrite (bind_eq _ _ _ _ _ E) in Hbody. inversion Hbody; subst r m1.
      exists (ss ++ [c]). simpl.
      rewrite flat_map_snoc, total_delta_snoc, <- Hprev, app_assoc, <- HL.
      split; [exact L2|]. split.
      * rewrite last_last. reflexivity.
      * split; [exact Hc|]. split; [|congruence].
        pose proof (delta_range prev c).
        pose proof (u32_range (elapsed + Sound.delta prev c)).
        pose proof (u32_le (elapsed + Sound.delta prev c)). lia.
    + inversion Hbody; subst r m1. exists ss.
      split; [exact HL|]. split; [lia|exact HG].
  - exists []. simpl. rewrite app_nil_r. repeat split; try lia.
Qed.

(** [delay_ms ms] returns only after the samples it read account for
    [ms * 1193] ticks reduced to 32 bits, which is the value of the
    variable [ticks_needed]. *)
Lemma delay_ms_spec fuel ms m m' :
  Sound.delay_ms fuel ms m = Some (tt, m') ->
  exists s0 ss,
    log m' = log m ++ flat_map sample_events (s0 :: ss) /\
    u32 (ms * 1193) <= total_delta s0 ss /\ globals m' = globals m.
Proof.
  unfold Sound.delay_ms. intros Hrun.
  destruct (pit0_read_spec m) as (s0 & m0 & E & Hs0 & L0 & G0).
  rewrite (bind_eq _ _ _ _ _ E) in Hrun.
  destruct (delay_loop_spec _ _ _ _ _ Hs0 Hrun) as (ss & L & Htn & HG).
  exists s0, ss. split; [|split; [exact Htn|congruence]].
  rewrite L, L0. simpl. rewrite <- app_assoc. reflexivity.
Qed.

End SoundFacts.

(** C1 (as stated): with two equal samples the claimed delta is
    [previous + (65536 - new)]; [delay_ms] computes [previous - new].
    At [previous = 0], [new = 0] the claim asks for 65536 and the code
    adds 0. *)
Lemma delta_law_fails_on_equal_samples :
  ~ (forall previous new,
       0 <= previous <= 65535 -> 0 <= new <= 65535 ->
       Sound.delta previous new =
         if new <? previous then previous - new else previous + (65536 - new)).
Proof.
  intros Hclaim. specialize (Hclaim 0 0 ltac:(lia) ltac:(lia)).
  vm_compute in Hclaim. discriminate.
Qed.

(** C1 (amended): for consecutive samples [prev] and [curr] in
    [0, 65535], the delta that one turn of the loop of [delay_ms] adds to
    [elapsed] is [prev - curr] when [curr <= prev] and
    [prev + (65536 - curr)] when [curr > prev]. *)
Theorem delay_delta_law {HW G : Type} `{Hardware HW}
    (tn prev elapsed curr : Z) (m m' : machine HW G) :
  0 <= prev <= 65535 ->
  elapsed < tn ->
  Sound.pit0_read m = Some (curr, m') ->
  let d := if curr <=? prev then prev - curr else prev + (65536 - curr) in
  0 <= curr <= 65535 /\
  Sound.delta prev curr = d /\
  Sound.delay_body tn (prev, elapsed) m = Some (inl (curr, u32 (elapsed + d)), m').
Proof.
  intros Hprev Hlt Hread d.
  destruct (pit0_read_spec m) as (c & m1 & E & Hc & _).
  rewrite Hread in E. inversion E; subst c m1.
  assert (Hd : Sound.delta prev curr = d) by (apply delta_cases; lia).
  split; [lia|]. split; [exact Hd|].
  unfold Sound.delay_body.
  destruct (Z.ltb_spec elapsed tn) as [_|Hge]; [|lia].
  rewrite (bind_eq _ _ _ _ _ Hread), Hd. reflexivity.
Qed.

(** The wrap case [prev = 5], [curr = 65530] on the simulated timer. *)
Lemma delay_delta_law_witness :
  let m : machine sim_pc unit := Machine (sim_pc_boot 65530 1 0 []) [] tt in
  exists m',
    Sound.pit0_read m = Some (65530, m') /\
    Sound.delta 5 65530 = 11 /\
    Sound.delay_body 100 (5, 0) m = Some (inl (65530, 11), m').
Proof.
  intros m.
  destruct (Sound.pit0_read m) as [[c m']|] eqn:E; [|vm_compute in E; discriminate].
  assert (Hc : c = 65530) by (vm_compute in E; inversion E; reflexivity).
  subst c. exists m'. split; [reflexivity|].
  exact (proj2 (delay_delta_law 100 5 0 65530 m m'
                  ltac:(lia) ltac:(lia) E)).
Defined.

(** C2, in the range where [ms * 1193] fits in 32 bits: [delay_ms ms]
    returns only after the deltas of the samples it read add up to at
    least [ms * 1193]. *)
Theorem delay_ms_reaches_target {HW G : Type} `{Hardware HW}
    (fuel : nat) (ms : Z) (m m' : machine HW G) :
  0 <= ms <= 3600140 ->
  Sound.delay_ms fuel ms m = Some (tt, m') ->
  exists s0 ss,
    log m' = log m ++ flat_map sample_events (s0 :: ss) /\
    ms * (Sound.PIT_BASE_FREQ / 1000) <= total_delta s0 ss.
Proof.
  intros Hms Hrun.
  destruct (delay_ms_spec _ _ _ _ Hrun) as (s0 & ss & L & Htn & _).
  exists s0, ss. split; [exact L|].
  change (Sound.PIT_BASE_FREQ / 1000) with 1193.
  rewrite u32_small in Htn by lia. exact Htn.
Qed.

(** A 2 ms delay on the simulated timer, whose counter wraps during the
    call. *)
Lemma delay_ms_reaches_target_witness :
  let m : machine sim_pc unit := Machine (sim_pc_boot 1000 900 0 []) [] tt in
  exists m' s0 ss,
    Sound.delay_ms 10 2 m = Some (tt, m') /\
    log m' = log m ++ flat_map sample_events (s0 :: ss) /\
    2 * (Sound.PIT_BASE_FREQ / 1000) <= total_delta s0 ss.
Proof.
  intros m.
  destruct (Sound.delay_ms 10 2 m) as [[[] m']|] eqn:E;
    [|vm_compute in E; discriminate].
  destruct (delay_ms_reaches_target 10 2 m m' ltac:(lia) E) as (s0 & ss & L & Ht).
  exists m', s0, ss. split; [reflexivity|]. split; assumption.
Defined.

(** C2 (failing input): for [ms = 3600141] the product [ms * 1193]
    exceeds 32 bits and [ticks_needed] is 917.  On a timer that loses 917
    ticks between two samples, [delay_ms] returns after one turn of its
    loop: the samples account for 917 ticks, far fewer than
    [3600141 * 1193]. *)
Theorem delay_ms_overflow_returns_early :
  let m : machine sim_pc unit := Machine (sim_pc_boot 0 917 0 []) [] tt in
  exists m',
    Sound.delay_ms 2 3600141 m = Some (tt, m') /\
    log m' = flat_map sample_events [0; 64619] /\
    total_delta 0 [64619] = 917 /\
    917 < 3600141 * (Sound.PIT_BASE_FREQ / 1000).
Proof.
  intros m. eexists. split; [vm_compute; reflexivity|].
  split; [reflexivity|]. split; [reflexivity|]. vm_compute. reflexivity.
Qed.

(** ** sound.c: the speaker gate *)

Lemma testbit_3 i : 0 <= i < 8 -> Z.testbit 3 i = (i <? 2).
Proof.
  intros Hi.
  assert (Hc : i = 0 \/ i = 1 \/ i = 2 \/ i = 3 \/ i = 4 \/ i = 5 \/ i = 6 \/ i = 7)
    by lia.
  repeat (destruct Hc as [->|Hc]; [reflexivity|]). subst i. reflexivity.
Qed.

Lemma testbit_lnot_3 i : 0 <= i < 8 -> Z.testbit (Z.lnot 3) i = (2 <=? i).
Proof.
  intros Hi. rewrite Z.lnot_spec, testbit_3 by lia.
  destruct (Z.ltb_spec i 2), (Z.leb_spec 2 i); simpl; try reflexivity; lia.
Qed.

(** What [tmp | 0x03] writes back. *)
Lemma gate_on_bits v : gate_bits_set v (u8 (Z.lor v 0x03)).
Proof.
  intros i Hi. rewrite testbit_u8, Z.lor_spec, testbit_3 by lia.
  apply orb_comm.
Qed.

(** What [tmp & ~0x03] writes back. *)
Lemma gate_off_bits v : gate_bits_cleared v (u8 (Z.land v (Z.lnot 0x03))).
Proof.
  intros i Hi. rewrite testbit_u8, Z.land_spec, testbit_lnot_3 by lia.
  apply andb_comm.
Qed.

Section GateFacts.
Context {HW G : Type} `{Hardware HW}.
Implicit Types m : machine HW G.

(** [sound_stop] always returns; it reads port 0x61 once and writes back
    the value read with bits 0 and 1 cleared. *)
Lemma sound_stop_spec m :
  exists u m', Sound.sound_stop m = Some (tt, m') /\
    log m' = log m ++ [EvIn 0x61 u; EvOut 0x61 (u8 (Z.land u (Z.lnot 0x03)))] /\
    globals m' = globals m.
Proof.
  unfold Sound.sound_stop.
  destruct (inb_spec 0x61 m) as (u & m1 & E1 & Hu & L1 & G1).
  destruct (outb_spec 0x61 (Z.land u (Z.lnot 0x03)) m1) as (m2 & E2 & L2 & G2).
  exists u, m2. rewrite (bind_eq _ _ _ _ _ E1). split; [exact E2|].
  split; [|congruence].
  rewrite L2, L1, <- app_assoc. reflexivity.
Qed.

Lemma pit_set_divisor_spec divisor m :
  exists m', Sound.pit_set_divisor divisor m = Some (tt, m') /\
    log m' = log m ++ [EvOut 0x43 0xB6; EvOut 0x42 (u8 (Z.land divisor 0xFF));
                       EvOut 0x42 (u8 (Z.shiftr divisor 8))] /\
    globals m' = globals m.
Proof.
  unfold Sound.pit_set_divisor.
  eexists. split; [reflexivity|]. split; [|reflexivity].
  simpl. rewrite <- !app_assoc. simpl.
  unfold u8. rewrite !Z.mod_mod by lia. reflexivity.
Qed.

End GateFacts.

Section PlayFacts.
Context {HW G : Type} `{Hardware HW}.
Implicit Types m : machine HW G.

Lemma samples_leave_gate_alone ss :
  Forall (fun e => ~ touches 0x61 e) (flat_map sample_events ss).
Proof.
  induction ss as [|s r IH]; simpl; [constructor|].
  repeat (constructor; [simpl; lia|]). exact IH.
Qed.

Lemma sound_play_spec fuel freq_hz duration_ms m m' :
  Sound.sound_play fuel freq_hz duration_ms m = Some (tt, m') ->
  exists v u ticks,
    Forall (fun e => ~ touches 0x61 e) ticks /\
    log m' = log m ++
      (if freq_hz =? 0
       then [EvIn 0x61 u; EvOut 0x61 (u8 (Z.land u (Z.lnot 0x03)))] ++ ticks
       else [EvOut 0x43 0xB6;
             EvOut 0x42 (u8 (Z.land (u16 (Sound.PIT_BASE_FREQ / freq_hz)) 0xFF));
             EvOut 0x42 (u8 (Z.shiftr (u16 (Sound.PIT_BASE_FREQ / freq_hz)) 8))]
            ++ [EvIn 0x61 v; EvOut 0x61 (u8 (Z.lor v 0x03))]
            ++ ticks
            ++ [EvIn 0x61 u; EvOut 0x61 (u8 (Z.land u (Z.lnot 0x03)))]).
Proof.
  unfold Sound.sound_play. intros Hrun.
  destruct (freq_hz =? 0).
  - destruct (sound_stop_spec m) as (u & m1 & E1 & L1 & _).
    rewrite (bind_eq _ _ _ _ _ E1) in Hrun.
    destruct (delay_ms_spec _ _ _ _ Hrun) as (s0 & ss & L & _).
    exists 0, u, (flat_map sample_events (s0 :: ss)).
    split; [apply samples_leave_gate_alone|].
    rewrite L, L1, <- app_assoc. reflexivity.
  - destruct (pit_set_divisor_spec (u16 (Sound.PIT_BASE_FREQ / freq_hz)) m)
      as (m1 & E1 & L1 & _).
    rewrite (bind_eq _ _ _ _ _ E1) in Hrun.
    destruct (inb_spec 0x61 m1) as (v & m2 & E2 & _ & L2 & _).
    rewrite (bind_eq _ _ _ _ _ E2) in Hrun.
    destruct (outb_spec 0x61 (Z.lor v 0x03) m2) as (m3 & E3 & L3 & _).
    rewrite (bind_eq _ _ _ _ _ E3) in Hrun.
    apply bind_Some in Hrun. destruct Hrun as ([] & m4 & E4 & E5).
    destruct (delay_ms_spec _ _ _ _ E4) as (s0 & ss & L4 & _).
    destruct (sound_stop_spec m4) as (u & m5 & E6 & L5 & _).
    rewrite E6 in E5. inversion E5; subst m5.
    exists v, u, (flat_map sample_events (s0 :: ss)).
    split; [apply samples_leave_gate_alone|].
    rewrite L5, L4, L3, L2, L1, <- !app_assoc. reflexivity.
Qed.

End PlayFacts.

(** C7: every operation that opens or closes the speaker gate reads port
    0x61 and writes the value back with only bits 0 and 1 changed.
    [sound_stop] always returns: it reads [u] and writes [u] with bits 0
    and 1 cleared.  [sound_play] with a non-zero frequency programs the
    divisor, reads [v] and writes [v] with bits 0 and 1 set, polls the
    timer without touching port 0x61, then reads [u] and writes [u] with
    bits 0 and 1 cleared; with frequency zero it only does the latter
    before polling. *)
Theorem speaker_gate_read_modify_write {HW G : Type} `{Hardware HW}
    (fuel : nat) (freq_hz duration_ms : Z) (m : machine HW G) :
  (exists u off m1,
     Sound.sound_stop m = Some (tt, m1) /\
     gate_bits_cleared u off /\
     log m1 = log m ++ [EvIn 0x61 u; EvOut 0x61 off])
  /\
  (forall m', Sound.sound_play fuel freq_hz duration_ms m = Some (tt, m') ->
     exists v on u off program ticks,
       gate_bits_set v on /\ gate_bits_cleared u off /\
       Forall (fun e => ~ touches 0x61 e) (program ++ ticks) /\
       log m' = log m ++
         (if freq_hz =? 0
          then [EvIn 0x61 u; EvOut 0x61 off] ++ ticks
          else program ++ [EvIn 0x61 v; EvOut 0x61 on] ++ ticks
                       ++ [EvIn 0x61 u; EvOut 0x61 off])).
Proof.
  split.
  - destruct (sound_stop_spec m) as (u & m1 & E & L & _).
    exists u, (u8 (Z.land u (Z.lnot 0x03))), m1.
    split; [exact E|]. split; [apply gate_off_bits|exact L].
  - intros m' Hrun.
    destruct (sound_play_spec _ _ _ _ _ Hrun) as (v & u & ticks & Hticks & L).
    exists v, (u8 (Z.lor v 0x03)), u, (u8 (Z.land u (Z.lnot 0x03))).
    eexists _, ticks.
    split; [apply gate_on_bits|]. split; [apply gate_off_bits|].
    split; [|exact L].
    apply Forall_app. split; [|exact Hticks].
    repeat (constructor; [simpl; lia|]). constructor.
Qed.

(** A 440 Hz tone of 1 ms on the simulated PC, whose port 0x61 holds
    0xA4 when the tone starts. *)
Lemma speaker_gate_read_modify_write_witness :
  let m : machine sim_pc unit := Machine (sim_pc_boot 0 600 0xA4 []) [] tt in
  exists m',
    Sound.sound_play 5 440 1 m = Some (tt, m') /\
    exists v on u off program ticks,
      gate_bits_set v on /\ gate_bits_cleared u off /\
      Forall (fun e => ~ touches 0x61 e) (program ++ ticks) /\
      log m' = log m ++ program ++ [EvIn 0x61 v; EvOut 0x61 on] ++ ticks
                     ++ [EvIn 0x61 u; EvOut 0x61 off].
Proof.
  intros m.
  destruct (Sound.sound_play 5 440 1 m) as [[[] m']|] eqn:E;
    [|vm_compute in E; discriminate].
  exists m'. split; [reflexivity|].
  exact (proj2 (speaker_gate_read_modify_write 5 440 1 m) m' E).
Defined.

(** ** sound.c: note sequences *)

Lemma cstring_from_stored (l : list Z) : forall (n : nat) (a : Z -> Z) (i : Z),
  Forall (fun c => c <> 0) l ->
  (forall k, (k < length l)%nat -> a (i + Z.of_nat k) = nth k l 0) ->
  a (i + Z.of_nat (length l)) = 0 ->
  (length l < n)%nat ->
  cstring_from n a i = l.
Proof.
  induction l as [|c l IH]; intros n a i Hnz Hcells Hend Hlen.
  - destruct n as [|n]; [reflexivity|]. simpl in *.
    rewrite Z.add_0_r in Hend. rewrite Hend. reflexivity.
  - destruct n as [|n]; [simpl in Hlen; lia|].
    inversion Hnz as [|? ? Hc Hl]; subst.
    assert (Hi : a i = c).
    { specialize (Hcells 0%nat ltac:(simpl; lia)). simpl in Hcells.
      rewrite Z.add_0_r in Hcells. exact Hcells. }
    cbn [cstring_from]. rewrite Hi.
    destruct (Z.eqb_spec c 0) as [?|_]; [contradiction|].
    f_equal. apply IH.
    + exact Hl.
    + intros k Hk. specialize (Hcells (S k) ltac:(simpl; lia)).
      cbn [nth] in Hcells. rewrite <- Hcells. f_equal. lia.
    + rewrite <- Hend. f_equal. simpl length. lia.
    + simpl in Hlen. lia.
Qed.

Lemma firstn_7_length_le (cur : list Z) : (length (firstn 7 cur) <= 7)%nat.
Proof. apply firstn_le_length. Qed.

Lemma holds_token_terminated token ti cur :
  holds_token token ti cur ->
  cstring_from 8 (upd token ti 0) 0 = firstn 7 cur.
Proof.
  intros (Hti & Hcells & Hnz).
  pose proof (firstn_7_length_le cur) as Hle.
  apply cstring_from_stored.
  - rewrite <- (firstn_skipn 7 cur) in Hnz.
    apply Forall_app in Hnz. exact (proj1 Hnz).
  - intros k Hk. rewrite Z.add_0_l. unfold upd.
    destruct (Z.eqb_spec (Z.of_nat k) ti) as [Heq|_]; [lia|].
    apply Hcells. exact Hk.
  - rewrite Z.add_0_l. unfold upd. rewrite <- Hti, Z.eqb_refl. reflexivity.
  - lia.
Qed.

Section SequenceFacts.
Context {HW G : Type} `{Hardware HW}.
Implicit Types m : machine HW G.

Lemma flush_token_spec fuel token ti cur (k : (Z -> Z) * Z -> M (machine HW G) unit)
      (rest : list (list Z)) m :
  holds_token token ti cur ->
  (forall token' m', holds_token token' 0 [] -> k (token', 0) m' = play_tokens fuel rest m') ->
  (cur = [] -> k (token, ti) m = play_tokens fuel rest m) ->
  bind (Sound.flush_token fuel token ti) k m =
  play_tokens fuel (map (firstn 7) (filter nonempty [cur]) ++ rest) m.
Proof.
  intros Hold Hk Hk0. unfold Sound.flush_token.
  destruct cur as [|c cur].
  - destruct Hold as (Hti & _). simpl in Hti. subst ti. simpl.
    apply Hk0. reflexivity.
  - assert (Hpos : (ti >? 0) = true).
    { destruct Hold as (Hti & _). simpl in Hti. apply Z.gtb_lt. lia. }
    rewrite Hpos, (holds_token_terminated _ _ _ Hold).
    cbn [filter nonempty map app play_tokens].
    unfold bind, ret.
    destruct (Sound.sound_note fuel (firstn 7 (c :: cur)) m) as [[[] m1]|];
      [|reflexivity].
    destruct (Sound.sound_play fuel 0 80 m1) as [[[] m2]|]; [|reflexivity].
    apply Hk. split; [reflexivity|]. split; [|constructor].
    intros k0 Hk0'. simpl in Hk0'. lia.
Qed.

Lemma holds_token_push token ti cur c :
  holds_token token ti cur -> c <> 0 -> ti < 7 ->
  holds_token (upd token ti c) (ti + 1) (cur ++ [c]).
Proof.
  intros (Hti & Hcells & Hnz) Hc Hlt.
  assert (Hlen : (length cur < 7)%nat).
  { rewrite length_firstn in Hti. lia. }
  assert (Hall : firstn 7 cur = cur) by (apply firstn_all2; lia).
  assert (Hall' : firstn 7 (cur ++ [c]) = cur ++ [c]).
  { apply firstn_all2. rewrite length_app. simpl. lia. }
  rewrite Hall in *. split; [|split].
  - rewrite Hall', length_app. simpl. lia.
  - rewrite Hall'. intros k Hk. rewrite length_app in Hk. simpl in Hk.
    unfold upd. destruct (Z.eqb_spec (Z.of_nat k) ti) as [Heq|Hne].
    + assert (k = length cur) by lia. subst k.
      rewrite nth_middle. reflexivity.
    + rewrite app_nth1 by lia. apply Hcells. lia.
  - apply Forall_app. split; [exact Hnz|]. constructor; [exact Hc|constructor].
Qed.

Lemma holds_token_full token ti cur c :
  holds_token token ti cur -> c <> 0 -> ~ ti < 7 ->
  holds_token token ti (cur ++ [c]).
Proof.
  intros (Hti & Hcells & Hnz) Hc Hge.
  assert (Hlen : (7 <= length cur)%nat).
  { rewrite length_firstn in Hti. lia. }
  assert (Hsame : firstn 7 (cur ++ [c]) = firstn 7 cur).
  { rewrite firstn_app. replace (7 - length cur)%nat with 0%nat by lia.
    simpl. apply app_nil_r. }
  split; [|split].
  - rewrite Hsame. exact Hti.
  - rewrite Hsame. exact Hcells.
  - apply Forall_app. split; [exact Hnz|]. constructor; [exact Hc|constructor].
Qed.

(** The loop of [sound_play_sequence] plays the tokens that remain. *)
Lemma play_sequence_loop_spec fuel str : forall token ti cur m,
  holds_token token ti cur ->
  Sound.play_sequence_loop fuel str token ti m =
  play_tokens fuel (map (firstn 7) (filter nonempty (split_tokens str cur))) m.
Proof.
  induction str as [|c rest IH]; intros token ti cur m Hold.
  - cbn [Sound.play_sequence_loop split_tokens].
    rewrite <- (app_nil_r (map _ _)).
    apply flush_token_spec with (cur := cur); [exact Hold| |]; reflexivity.
  - cbn [Sound.play_sequence_loop split_tokens].
    destruct (Z.eqb_spec c 0) as [Hc0|Hc0].
    + rewrite orb_true_r. rewrite <- (app_nil_r (map _ _)).
      apply flush_token_spec with (cur := cur); [exact Hold| |]; reflexivity.
    + rewrite orb_false_r. destruct (Z.eqb_spec c 32) as [Hsp|Hsp].
      * change (cur :: split_tokens rest [])
          with ([cur] ++ split_tokens rest []).
        rewrite filter_app, map_app.
        apply flush_token_spec with (cur := cur); [exact Hold| |].
        -- intros token' m' Hold'. apply IH. exact Hold'.
        -- intros ->. apply IH. exact Hold.
      * destruct (Z.ltb_spec ti 7) as [Hlt|Hge].
        -- apply IH. apply holds_token_push; assumption.
        -- apply IH. apply holds_token_full; [assumption..|lia].
Qed.

Lemma sound_play_sequence_spec fuel str m :
  Sound.sound_play_sequence fuel str m = play_tokens fuel (spec_tokens str) m.
Proof.
  unfold Sound.sound_play_sequence, spec_tokens.
  apply play_sequence_loop_spec.
  split; [reflexivity|]. split; [|constructor].
  intros k Hk. simpl in Hk. lia.
Qed.

End SequenceFacts.

(** C3 (as stated): after the last note no silence follows.  On the
    simulated PC the run of [sound_play_sequence "do re"] is the run of
    the two tones separated by one rest, followed by one more 80 ms rest
    that accesses the gate and polls the timer again. *)
Lemma play_sequence_rest_after_last_note :
  let m : machine sim_pc unit := Machine (sim_pc_boot 0 60000 0 []) [] tt in
  exists m2 m3,
    (Sound.sound_play 12 262 450 ;; Sound.sound_play 12 0 80 ;;
     Sound.sound_play 12 294 450) m = Some (tt, m2) /\
    Sound.sound_play_sequence 12 [100; 111; 32; 114; 101] m = Some (tt, m3) /\
    Sound.sound_play 12 0 80 m2 = Some (tt, m3) /\
    Sound.sound_play_sequence 12 [100; 111; 32; 114; 101] m <>
    (Sound.sound_play 12 262 450 ;; Sound.sound_play 12 0 80 ;;
     Sound.sound_play 12 294 450) m.
Proof.
  intros m. eexists _, _.
  split; [vm_compute; reflexivity|].
  split; [vm_compute; reflexivity|].
  split; [vm_compute; reflexivity|].
  vm_compute. intros Heq. inversion Heq.
Qed.

(** C3 (amended): [sound_play_sequence "do re"] plays 262 Hz for 450 ms,
    an 80 ms rest, 294 Hz for 450 ms and an 80 ms rest; in general every
    non-empty space-delimited token, cut to its first seven characters, is
    passed to [sound_note] and followed by one 80 ms rest, also the last
    one, and an empty token produces neither a note nor a rest. *)
Theorem play_sequence_tokens {HW G : Type} `{Hardware HW}
    (fuel : nat) (m : machine HW G) :
  Sound.sound_play_sequence fuel [100; 111; 32; 114; 101] m =
    (Sound.sound_play fuel 262 450 ;; Sound.sound_play fuel 0 80 ;;
     Sound.sound_play fuel 294 450 ;; Sound.sound_play fuel 0 80) m
  /\
  (forall str, Sound.sound_play_sequence fuel str m =
               play_tokens fuel (spec_tokens str) m)
  /\
  (forall str, Forall (fun t => t <> [] /\ (length t <= 7)%nat) (spec_tokens str)).
Proof.
  split; [|split].
  - rewrite sound_play_sequence_spec.
    change (spec_tokens [100; 111; 32; 114; 101]) with [[100; 111]; [114; 101]].
    cbn [play_tokens].
    change (Sound.sound_note fuel [100; 111]) with (Sound.sound_play (G := G) fuel 262 450).
    change (Sound.sound_note fuel [114; 101]) with (Sound.sound_play (G := G) fuel 294 450).
    unfold bind, ret.
    destruct (Sound.sound_play fuel 262 450 m) as [[[] m1]|]; [|reflexivity].
    destruct (Sound.sound_play fuel 0 80 m1) as [[[] m2]|]; [|reflexivity].
    destruct (Sound.sound_play fuel 294 450 m2) as [[[] m3]|]; [|reflexivity].
    destruct (Sound.sound_play fuel 0 80 m3) as [[[] m4]|]; reflexivity.
  - intros str. apply sound_play_sequence_spec.
  - intros str. unfold spec_tokens. apply Forall_map, Forall_forall.
    intros t Hin. apply filter_In in Hin. destruct Hin as (_ & Hne).
    split; [|apply firstn_le_length].
    destruct t; [discriminate|]. simpl. discriminate.
Qed.

(** ** vga.c: loops, clearing and scrolling *)

Section VgaFacts.
Context {HW : Type} `{Hardware HW}.
Implicit Types m : machine HW X86.vga_state.

Lemma for_range_S {S} (n : nat) (body : Z -> S -> S) (s : S) :
  X86.for_range (Datatypes.S n) body s = body (Z.of_nat n) (X86.for_range n body s).
Proof.
  unfold X86.for_range. rewrite seq_S, fold_left_app. reflexivity.
Qed.

Lemma for_range_0 {S} (body : Z -> S -> S) (s : S) : X86.for_range 0 body s = s.
Proof. reflexivity. Qed.

Lemma for_range_inv {S} (P : S -> Prop) (n : nat) (body : Z -> S -> S) (s : S) :
  (forall i s, 0 <= i < Z.of_nat n -> P s -> P (body i s)) ->
  P s -> P (X86.for_range n body s).
Proof.
  intros Hbody Hs. induction n as [|n IH]; [exact Hs|].
  rewrite for_range_S. apply Hbody; [lia|]. apply IH.
  intros i s0 Hi. apply Hbody. lia.
Qed.

(** Reading the globals after a write.  The proofs below rewrite with
    these equations instead of unfolding the state. *)
Lemma update_cursor_globals m : globals (X86.vga_update_cursor m) = globals m.
Proof. reflexivity. Qed.

Lemma row_update_cursor m : X86.row (X86.vga_update_cursor m) = X86.row m.
Proof. reflexivity. Qed.
Lemma col_update_cursor m : X86.col (X86.vga_update_cursor m) = X86.col m.
Proof. reflexivity. Qed.
Lemma color_update_cursor m : X86.color (X86.vga_update_cursor m) = X86.color m.
Proof. reflexivity. Qed.
Lemma cell_update_cursor m j : X86.cell (X86.vga_update_cursor m) j = X86.cell m j.
Proof. reflexivity. Qed.

Lemma hw_log_update_cursor m :
  exists a b, log (X86.vga_update_cursor m) =
              log m ++ [EvOut 0x3D4 0x0F; EvOut 0x3D5 a; EvOut 0x3D4 0x0E; EvOut 0x3D5 b].
Proof.
  eexists _, _. unfold X86.vga_update_cursor, port_out. cbn [log].
  rewrite <- !app_assoc. reflexivity.
Qed.

(** The four port writes of [vga_update_cursor]: the low byte of the
    position goes to register 0x0F, the high byte to register 0x0E. *)
Lemma log_update_cursor m :
  log (X86.vga_update_cursor m) =
  log m ++
    [EvOut 0x3D4 0x0F;
     EvOut 0x3D5 (u8 (u8 (Z.land (u16 (X86.row m * X86.VGA_WIDTH + X86.col m)) 0xFF)));
     EvOut 0x3D4 0x0E;
     EvOut 0x3D5 (u8 (u8 (Z.shiftr (u16 (X86.row m * X86.VGA_WIDTH + X86.col m)) 8)))].
Proof.
  unfold X86.vga_update_cursor, port_out. cbn [log].
  rewrite <- !app_assoc. reflexivity.
Qed.

Lemma log_set_col c m : log (X86.set_col c m) = log m.
Proof. reflexivity. Qed.

Lemma row_set_row r m : X86.row (X86.set_row r m) = r.
Proof. reflexivity. Qed.
Lemma col_set_row r m : X86.col (X86.set_row r m) = X86.col m.
Proof. reflexivity. Qed.
Lemma color_set_row r m : X86.color (X86.set_row r m) = X86.color m.
Proof. reflexivity. Qed.
Lemma cell_set_row r m j : X86.cell (X86.set_row r m) j = X86.cell m j.
Proof. reflexivity. Qed.
Lemma hw_set_row r m : hw (X86.set_row r m) = hw m.
Proof. reflexivity. Qed.
Lemma log_set_row r m : log (X86.set_row r m) = log m.
Proof. reflexivity. Qed.

Lemma row_set_col c m : X86.row (X86.set_col c m) = X86.row m.
Proof. reflexivity. Qed.
Lemma col_set_col c m : X86.col (X86.set_col c m) = c.
Proof. reflexivity. Qed.
Lemma color_set_col c m : X86.color (X86.set_col c m) = X86.color m.
Proof. reflexivity. Qed.
Lemma cell_set_col c m j : X86.cell (X86.set_col c m) j = X86.cell m j.
Proof. reflexivity. Qed.

Lemma row_set_color a m : X86.row (X86.set_color a m) = X86.row m.
Proof. reflexivity. Qed.
Lemma col_set_color a m : X86.col (X86.set_color a m) = X86.col m.
Proof. reflexivity. Qed.
Lemma color_set_color a m : X86.color (X86.set_color a m) = a.
Proof. reflexivity. Qed.
Lemma cell_set_color a m j : X86.cell (X86.set_color a m) j = X86.cell m j.
Proof. reflexivity. Qed.

Lemma row_poke i v m : X86.row (X86.poke i v m) = X86.row m.
Proof. reflexivity. Qed.
Lemma col_poke i v m : X86.col (X86.poke i v m) = X86.col m.
Proof. reflexivity. Qed.
Lemma color_poke i v m : X86.color (X86.poke i v m) = X86.color m.
Proof. reflexivity. Qed.
Lemma cell_poke i v m j :
  X86.cell (X86.poke i v m) j = if j =? i then v else X86.cell m j.
Proof. reflexivity. Qed.
Lemma hw_poke i v m : hw (X86.poke i v m) = hw m.
Proof. reflexivity. Qed.
Lemma log_poke i v m : log (X86.poke i v m) = log m.
Proof. reflexivity. Qed.

Lemma vga_scroll_eq m :
  X86.vga_scroll m =
  X86.set_row (X86.VGA_HEIGHT - 1)
    (X86.for_range (Z.to_nat X86.VGA_WIDTH) (fun c m =>
       X86.poke ((X86.VGA_HEIGHT - 1) * X86.VGA_WIDTH + c)
                (X86.vga_entry 32 (X86.color m)) m)
       (X86.for_range (Z.to_nat (X86.VGA_HEIGHT - 1)) (fun r m =>
          X86.for_range (Z.to_nat X86.VGA_WIDTH) (fun c m =>
            X86.poke (r * X86.VGA_WIDTH + c)
                     (X86.cell m ((r + 1) * X86.VGA_WIDTH + c)) m) m) m)).
Proof. reflexivity. Qed.

Lemma vga_clear_eq m :
  X86.vga_clear m =
  X86.vga_update_cursor (X86.set_col 0 (X86.set_row 0
    (X86.for_range (Z.to_nat (X86.VGA_WIDTH * X86.VGA_HEIGHT))
       (fun i m => X86.poke i (X86.vga_entry 32 (X86.color m)) m) m))).
Proof. reflexivity. Qed.

(** A loop that stores [value i m0] in cell [base + i]: [n] turns fill
    the cells [base .. base + n - 1] and leave the rest of the machine
    alone, provided the stored value is read outside the cells already
    written. *)
Lemma store_loop_spec (n : nat) (base : Z) (src : Z -> machine HW X86.vga_state -> Z)
      (val : Z -> Z) m :
  (forall i m', 0 <= i < Z.of_nat n ->
     same_cursor m m' ->
     (forall j, ~ (base <= j < base + i) -> X86.cell m' j = X86.cell m j) ->
     src i m' = val i) ->
  let m' := X86.for_range n (fun i m => X86.poke (base + i) (src i m) m) m in
  same_cursor m m' /\ hw m' = hw m /\ log m' = log m /\
  forall j, X86.cell m' j =
            if (base <=? j) && (j <? base + Z.of_nat n)
            then val (j - base) else X86.cell m j.
Proof.
  cbv zeta. induction n as [|n IH]; intros Hsrc.
  - rewrite for_range_0. repeat split; try reflexivity. intros j.
    destruct (Z.leb_spec base j), (Z.ltb_spec j (base + Z.of_nat 0));
      simpl; try reflexivity; lia.
  - rewrite for_range_S.
    destruct IH as (Hcur & Hhw & Hlog & Hcell).
    { intros i m' Hi. apply Hsrc. lia. }
    set (mn := X86.for_range n _ m) in *.
    assert (Hv : src (Z.of_nat n) mn = val (Z.of_nat n)).
    { apply Hsrc; [lia|exact Hcur|]. intros j Hj. rewrite Hcell.
      destruct (Z.leb_spec base j), (Z.ltb_spec j (base + Z.of_nat n));
        simpl; try reflexivity; lia. }
    split; [|split; [|split]].
    { destruct Hcur as (Cr & Cc & Ca). unfold same_cursor.
      rewrite row_poke, col_poke, color_poke. repeat split; assumption. }
    { rewrite hw_poke. exact Hhw. }
    { rewrite log_poke. exact Hlog. }
    intros j. rewrite cell_poke, Hv.
    destruct (Z.eqb_spec j (base + Z.of_nat n)) as [Heq|Hne].
    + subst j.
      destruct (Z.leb_spec base (base + Z.of_nat n)),
               (Z.ltb_spec (base + Z.of_nat n) (base + Z.of_nat (Datatypes.S n)));
        simpl; try lia.
      f_equal. lia.
    + rewrite Hcell.
      destruct (Z.leb_spec base j), (Z.ltb_spec j (base + Z.of_nat n)),
               (Z.ltb_spec j (base + Z.of_nat (Datatypes.S n)));
        simpl; try reflexivity; lia.
Qed.

Lemma for_range_ext {S} (n : nat) (f g : Z -> S -> S) (s : S) :
  (forall i s, f i s = g i s) -> X86.for_range n f s = X86.for_range n g s.
Proof.
  intros Hfg. induction n as [|n IH]; [reflexivity|].
  rewrite !for_range_S, IH. apply Hfg.
Qed.

Opaque X86.for_range.

Lemma same_cursor_refl m : same_cursor m m.
Proof. repeat split. Qed.

Lemma same_cursor_trans m1 m2 m3 :
  same_cursor m1 m2 -> same_cursor m2 m3 -> same_cursor m1 m3.
Proof. unfold same_cursor. intuition congruence. Qed.

(** The loop of [vga_clear] and the second loop of [vga_scroll]: [n]
    cells from [base] on become blanks in the current colour. *)
Lemma blank_loop_spec (n : nat) (base : Z) m :
  let m' := X86.for_range n
              (fun i m => X86.poke (base + i) (X86.vga_entry 32 (X86.color m)) m) m in
  same_cursor m m' /\ hw m' = hw m /\ log m' = log m /\
  forall j, X86.cell m' j =
            if (base <=? j) && (j <? base + Z.of_nat n)
            then X86.vga_entry 32 (X86.color m) else X86.cell m j.
Proof.
  apply (store_loop_spec n base (fun _ m => X86.vga_entry 32 (X86.color m))
           (fun _ => X86.vga_entry 32 (X86.color m)) m).
  intros i m' _ (_ & _ & Hc) _. rewrite Hc. reflexivity.
Qed.

(** The inner loop of [vga_scroll]: row [r] receives row [r + 1]. *)
Lemma copy_row_spec (r : Z) m :
  let m' := X86.for_range (Z.to_nat X86.VGA_WIDTH) (fun c m =>
              X86.poke (r * X86.VGA_WIDTH + c)
                       (X86.cell m ((r + 1) * X86.VGA_WIDTH + c)) m) m in
  same_cursor m m' /\ hw m' = hw m /\ log m' = log m /\
  forall j, X86.cell m' j =
            if (r * 80 <=? j) && (j <? r * 80 + 80)
            then X86.cell m (j + 80) else X86.cell m j.
Proof.
  cbv zeta. unfold X86.VGA_WIDTH.
  destruct (store_loop_spec (Z.to_nat 80) (r * 80)
              (fun c m => X86.cell m ((r + 1) * 80 + c))
              (fun c => X86.cell m ((r + 1) * 80 + c)) m)
    as (Hcur & Hhw & Hlog & Hcell).
  { intros i m' Hi _ Hout. apply Hout. lia. }
  split; [exact Hcur|]. split; [exact Hhw|]. split; [exact Hlog|].
  intros j. rewrite Hcell. rewrite Z2Nat.id by lia.
  destruct ((r * 80 <=? j) && (j <? r * 80 + 80)); [|reflexivity].
  f_equal. lia.
Qed.

(** The first loop of [vga_scroll] after [k] rows. *)
Lemma copy_rows_spec (k : nat) m :
  let m' := X86.for_range k (fun r m =>
              X86.for_range (Z.to_nat X86.VGA_WIDTH) (fun c m =>
                X86.poke (r * X86.VGA_WIDTH + c)
                         (X86.cell m ((r + 1) * X86.VGA_WIDTH + c)) m) m) m in
  same_cursor m m' /\ hw m' = hw m /\ log m' = log m /\
  forall j, X86.cell m' j =
            if (0 <=? j) && (j <? Z.of_nat k * 80)
            then X86.cell m (j + 80) else X86.cell m j.
Proof.
  cbv zeta. induction k as [|k IH].
  - rewrite for_range_0. split; [apply same_cursor_refl|].
    repeat split. intros j.
    destruct (Z.leb_spec 0 j), (Z.ltb_spec j (Z.of_nat 0 * 80));
      simpl; try reflexivity; lia.
  - rewrite for_range_S. destruct IH as (Hcur & Hhw & Hlog & Hcell).
    set (mk := X86.for_range k _ m) in *.
    destruct (copy_row_spec (Z.of_nat k) mk) as (Hcur' & Hhw' & Hlog' & Hcell').
    split; [exact (same_cursor_trans _ _ _ Hcur Hcur')|].
    split; [congruence|]. split; [congruence|].
    intros j. rewrite Hcell', !Hcell.
    destruct (Z.leb_spec (Z.of_nat k * 80) j), (Z.ltb_spec j (Z.of_nat k * 80 + 80)),
             (Z.leb_spec 0 j), (Z.ltb_spec j (Z.of_nat k * 80)),
             (Z.leb_spec 0 (j + 80)), (Z.ltb_spec (j + 80) (Z.of_nat k * 80)),
             (Z.ltb_spec j (Z.of_nat (Datatypes.S k) * 80));
      simpl; try reflexivity; lia.
Qed.

(** [vga_scroll]: every row moves up by one, the last row is blanked and
    the cursor is put on the last row. *)
Lemma vga_scroll_spec m :
  let m' := X86.vga_scroll m in
  X86.row m' = 24 /\ X86.col m' = X86.col m /\ X86.color m' = X86.color m /\
  hw m' = hw m /\ log m' = log m /\
  forall j, X86.cell m' j =
            if (0 <=? j) && (j <? 1920) then X86.cell m (j + 80)
            else if (1920 <=? j) && (j <? 2000) then X86.vga_entry 32 (X86.color m)
            else X86.cell m j.
Proof.
  cbv zeta. rewrite vga_scroll_eq.
  destruct (copy_rows_spec (Z.to_nat (X86.VGA_HEIGHT - 1)) m)
    as ((_ & Hc1 & Ha1) & Hhw1 & Hlog1 & Hcell1).
  set (m1 := X86.for_range (Z.to_nat (X86.VGA_HEIGHT - 1)) _ m) in *.
  clearbody m1.
  rewrite (for_range_ext (Z.to_nat X86.VGA_WIDTH)
    (fun c m => X86.poke ((X86.VGA_HEIGHT - 1) * X86.VGA_WIDTH + c)
                         (X86.vga_entry 32 (X86.color m)) m)
    (fun c m => X86.poke (1920 + c) (X86.vga_entry 32 (X86.color m)) m) m1
    (fun i s => eq_refl)).
  destruct (blank_loop_spec (Z.to_nat X86.VGA_WIDTH) 1920 m1)
    as ((_ & Hc2 & Ha2) & Hhw2 & Hlog2 & Hcell2).
  set (m2 := X86.for_range (Z.to_nat X86.VGA_WIDTH) _ m1) in *.
  clearbody m2.
  rewrite row_set_row, col_set_row, color_set_row, hw_set_row, log_set_row.
  split; [reflexivity|].
  split; [congruence|]. split; [congruence|].
  split; [congruence|]. split; [congruence|].
  intros j. rewrite cell_set_row, Hcell2, Hcell1, Ha1.
  replace (Z.of_nat (Z.to_nat X86.VGA_WIDTH)) with 80
    by (unfold X86.VGA_WIDTH; lia).
  replace (Z.of_nat (Z.to_nat (X86.VGA_HEIGHT - 1)) * 80) with 1920
    by (unfold X86.VGA_HEIGHT; lia).
  destruct (Z.leb_spec 1920 j), (Z.ltb_spec j (1920 + 80)), (Z.ltb_spec j 2000),
           (Z.leb_spec 0 j), (Z.ltb_spec j 1920);
    cbn [andb]; try reflexivity; lia.
Qed.

(** [vga_clear]: the 2000 cells are blanked and the cursor is at the
    origin. *)
Lemma vga_clear_spec m :
  let m' := X86.vga_clear m in
  X86.row m' = 0 /\ X86.col m' = 0 /\ X86.color m' = X86.color m /\
  forall j, X86.cell m' j =
            if (0 <=? j) && (j <? 2000) then X86.vga_entry 32 (X86.color m)
            else X86.cell m j.
Proof.
  cbv zeta. rewrite vga_clear_eq.
  rewrite (for_range_ext (Z.to_nat (X86.VGA_WIDTH * X86.VGA_HEIGHT))
    (fun i m => X86.poke i (X86.vga_entry 32 (X86.color m)) m)
    (fun i m => X86.poke (0 + i) (X86.vga_entry 32 (X86.color m)) m) m
    (fun i s => eq_refl)).
  destruct (blank_loop_spec (Z.to_nat (X86.VGA_WIDTH * X86.VGA_HEIGHT)) 0 m)
    as ((_ & _ & Ha) & _ & _ & Hcell).
  set (m1 := X86.for_range _ _ m) in *. clearbody m1.
  rewrite row_update_cursor, col_update_cursor, color_update_cursor.
  rewrite row_set_col, col_set_col, color_set_col, row_set_row, color_set_row.
  split; [reflexivity|]. split; [reflexivity|]. split; [exact Ha|].
  intros j. rewrite cell_update_cursor, cell_set_col, cell_set_row, Hcell.
  replace (0 + Z.of_nat (Z.to_nat (X86.VGA_WIDTH * X86.VGA_HEIGHT))) with 2000
    by (unfold X86.VGA_WIDTH, X86.VGA_HEIGHT; lia).
  reflexivity.
Qed.

Opaque X86.vga_scroll X86.vga_clear X86.vga_update_cursor.

End VgaFacts.

(** ** vga.c: writing characters *)

Section PutcharFacts.
Context {HW : Type} `{Hardware HW}.
Implicit Types m : machine HW X86.vga_state.

Lemma vga_putchar_moved c m :
  X86.vga_putchar c m =
  X86.vga_update_cursor
    (if X86.row (moved c m) >=? X86.VGA_HEIGHT then X86.vga_scroll (moved c m)
     else moved c m).
Proof. reflexivity. Qed.

Lemma moved_cursor c m :
  cursor_valid m ->
  0 <= X86.row (moved c m) <= 25 /\ 0 <= X86.col (moved c m) <= 79 /\
  X86.color (moved c m) = X86.color m.
Proof.
  intros Hv. unfold moved.
  destruct (c =? 10); [vga_unfold; lia|].
  destruct (c =? 13); [vga_unfold; lia|].
  destruct (c =? 8).
  - destruct (Z.gtb_spec (X86.col m) 0); vga_unfold; lia.
  - cbv zeta.
    destruct (Z.geb_spec (X86.col (X86.set_col (X86.col (X86.poke
                (X86.row m * X86.VGA_WIDTH + X86.col m)
                (X86.vga_entry c (X86.color m)) m) + 1)
                (X86.poke (X86.row m * X86.VGA_WIDTH + X86.col m)
                   (X86.vga_entry c (X86.color m)) m))) X86.VGA_WIDTH);
      vga_unfold; lia.
Qed.

(** [vga_putchar] keeps the cursor on the screen, whatever the character. *)
Lemma vga_putchar_valid c m :
  cursor_valid m ->
  cursor_valid (X86.vga_putchar c m) /\
  X86.color (X86.vga_putchar c m) = X86.color m.
Proof.
  intros Hv. rewrite vga_putchar_moved. unfold cursor_valid.
  rewrite row_update_cursor, col_update_cursor, color_update_cursor.
  destruct (moved_cursor c m Hv) as (Hr & Hc & Ha).
  destruct (Z.geb_spec (X86.row (moved c m)) X86.VGA_HEIGHT) as [Hge|Hlt].
  - destruct (vga_scroll_spec (moved c m)) as (Sr & Sc & Sa & _).
    rewrite Sr, Sc, Sa. unfold X86.VGA_HEIGHT, X86.VGA_WIDTH. lia.
  - unfold X86.VGA_HEIGHT, X86.VGA_WIDTH in *. lia.
Qed.

(** [vga_putchar] in terms of the machine after the cursor movement. *)
Lemma vga_putchar_scrolls c m :
  let m1 := moved c m in
  let m' := X86.vga_putchar c m in
  X86.color m' = X86.color m1 /\ X86.col m' = X86.col m1 /\
  if X86.row m1 >=? 25
  then X86.row m' = 24 /\
       forall j, X86.cell m' j =
         if (0 <=? j) && (j <? 1920) then X86.cell m1 (j + 80)
         else if (1920 <=? j) && (j <? 2000) then X86.vga_entry 32 (X86.color m1)
         else X86.cell m1 j
  else X86.row m' = X86.row m1 /\ forall j, X86.cell m' j = X86.cell m1 j.
Proof.
  cbv zeta. rewrite vga_putchar_moved. change X86.VGA_HEIGHT with 25.
  rewrite row_update_cursor, col_update_cursor, color_update_cursor.
  destruct (X86.row (moved c m) >=? 25).
  - destruct (vga_scroll_spec (moved c m)) as (Sr & Sc & Sa & _ & _ & Scell).
    split; [exact Sa|]. split; [exact Sc|]. split; [exact Sr|].
    intros j. rewrite cell_update_cursor. apply Scell.
  - split; [reflexivity|]. split; [reflexivity|]. split; [reflexivity|].
    intros j. apply cell_update_cursor.
Qed.

Lemma moved_printable c m :
  printable c ->
  let m1 := moved c m in
  X86.row m1 = (if X86.col m + 1 >=? 80 then X86.row m + 1 else X86.row m) /\
  X86.col m1 = (if X86.col m + 1 >=? 80 then 0 else X86.col m + 1) /\
  X86.color m1 = X86.color m /\
  forall j, X86.cell m1 j =
            if j =? pos m then X86.vga_entry c (X86.color m) else X86.cell m j.
Proof.
  intros (H10 & H13 & H8). cbv zeta. unfold moved.
  destruct (Z.eqb_spec c 10) as [?|_]; [contradiction|].
  destruct (Z.eqb_spec c 13) as [?|_]; [contradiction|].
  destruct (Z.eqb_spec c 8) as [?|_]; [contradiction|].
  vga_unfold. destruct (X86.cursor_col (globals m) + 1 >=? 80); repeat split.
Qed.

Lemma moved_newline m :
  let m1 := moved 10 m in
  X86.row m1 = X86.row m + 1 /\ X86.col m1 = 0 /\
  X86.color m1 = X86.color m /\ forall j, X86.cell m1 j = X86.cell m j.
Proof. repeat split. Qed.

(** A drawn character before the last cell of the screen: the cell under
    the cursor receives it and the cursor moves to the next cell. *)
Lemma vga_putchar_printable c m :
  printable c -> cursor_valid m -> pos m < 1999 ->
  let m' := X86.vga_putchar c m in
  cursor_valid m' /\ pos m' = pos m + 1 /\ X86.color m' = X86.color m /\
  forall j, X86.cell m' j =
            if j =? pos m then X86.vga_entry c (X86.color m) else X86.cell m j.
Proof.
  intros Hc Hv Hp. cbv zeta.
  destruct (moved_printable c m Hc) as (Mr & Mc & Ma & Mcell).
  destruct (vga_putchar_scrolls c m) as (Pa & Pc & Prow).
  destruct (vga_putchar_valid c m Hv) as (Hv' & _).
  split; [exact Hv'|].
  assert (Hrow : X86.row (moved c m) < 25).
  { rewrite Mr. unfold cursor_valid, pos, X86.VGA_WIDTH, X86.VGA_HEIGHT in *.
    destruct (Z.geb_spec (X86.col m + 1) 80); lia. }
  destruct (Z.geb_spec (X86.row (moved c m)) 25) as [?|_]; [lia|].
  destruct Prow as (Pr & Pcell).
  split; [|split; [congruence|]].
  - unfold pos at 1. rewrite Pr, Pc, Mr, Mc.
    unfold cursor_valid, pos, X86.VGA_WIDTH, X86.VGA_HEIGHT in *.
    destruct (Z.geb_spec (X86.col m + 1) 80); lia.
  - intros j. rewrite Pcell. apply Mcell.
Qed.

(** A drawn character in the last cell of the screen: the screen scrolls
    and the cursor goes to the start of the last row. *)
Lemma vga_putchar_last_cell c m :
  printable c -> cursor_valid m -> pos m = 1999 ->
  let m' := X86.vga_putchar c m in
  X86.row m' = 24 /\ X86.col m' = 0 /\ X86.color m' = X86.color m /\
  forall j, X86.cell m' j =
    if (0 <=? j) && (j <? 1920)
    then (if j + 80 =? 1999 then X86.vga_entry c (X86.color m) else X86.cell m (j + 80))
    else if (1920 <=? j) && (j <? 2000) then X86.vga_entry 32 (X86.color m)
    else X86.cell m j.
Proof.
  intros Hc Hv Hp. cbv zeta.
  destruct (moved_printable c m Hc) as (Mr & Mc & Ma & Mcell).
  destruct (vga_putchar_scrolls c m) as (Pa & Pc & Prow).
  assert (Hrc : X86.row m = 24 /\ X86.col m = 79).
  { unfold cursor_valid, pos, X86.VGA_WIDTH, X86.VGA_HEIGHT in *. lia. }
  destruct Hrc as (Hr & Hcol). rewrite Hr, Hcol in Mr. rewrite Hcol in Mc.
  change (79 + 1 >=? 80) with true in Mr, Mc. cbv iota in Mr, Mc.
  rewrite Mr in Prow. change (24 + 1 >=? 25) with true in Prow. cbv iota in Prow.
  destruct Prow as (Pr & Pcell).
  split; [exact Pr|]. split; [congruence|]. split; [congruence|].
  intros j. rewrite Pcell, !Mcell, Ma, Hp.
  destruct (Z.leb_spec 0 j), (Z.ltb_spec j 1920), (Z.leb_spec 1920 j), (Z.ltb_spec j 2000),
           (Z.eqb_spec j 1999); simpl; try reflexivity; lia.
Qed.

(** A newline on the last row scrolls the screen. *)
Lemma vga_putchar_newline m :
  cursor_valid m ->
  let m' := X86.vga_putchar 10 m in
  X86.col m' = 0 /\ X86.color m' = X86.color m /\
  if X86.row m <? 24
  then X86.row m' = X86.row m + 1 /\ forall j, X86.cell m' j = X86.cell m j
  else X86.row m' = 24 /\
       forall j, X86.cell m' j =
         if (0 <=? j) && (j <? 1920) then X86.cell m (j + 80)
         else if (1920 <=? j) && (j <? 2000) then X86.vga_entry 32 (X86.color m)
         else X86.cell m j.
Proof.
  intros Hv. cbv zeta.
  destruct (moved_newline m) as (Mr & Mc & Ma & Mcell).
  destruct (vga_putchar_scrolls 10 m) as (Pa & Pc & Prow).
  split; [congruence|]. split; [congruence|].
  rewrite Mr in Prow. unfold cursor_valid, X86.VGA_HEIGHT in Hv.
  destruct (Z.ltb_spec (X86.row m) 24), (Z.geb_spec (X86.row m + 1) 25); try lia.
  - destruct Prow as (Pr & Pcell). split; [congruence|].
    intros j. rewrite Pcell. apply Mcell.
  - destruct Prow as (Pr & Pcell). split; [exact Pr|].
    intros j. rewrite Pcell, !Mcell, Ma. reflexivity.
Qed.

Lemma put_chars_cons c s m :
  put_chars (c :: s) m = put_chars s (X86.vga_putchar c m).
Proof. reflexivity. Qed.

Lemma put_chars_app s t m : put_chars (s ++ t) m = put_chars t (put_chars s m).
Proof. unfold put_chars. apply fold_left_app. Qed.

(** Characters written before the last cell is reached fill consecutive
    cells; nothing scrolls. *)
Lemma put_chars_spec s : forall m,
  Forall printable s -> cursor_valid m -> pos m + Z.of_nat (length s) <= 1999 ->
  let m' := put_chars s m in
  cursor_valid m' /\ pos m' = pos m + Z.of_nat (length s) /\
  X86.color m' = X86.color m /\
  forall j, X86.cell m' j =
            if (pos m <=? j) && (j <? pos m + Z.of_nat (length s))
            then X86.vga_entry (nth (Z.to_nat (j - pos m)) s 0) (X86.color m)
            else X86.cell m j.
Proof.
  induction s as [|c s IH]; intros m Hs Hv Hp; cbv zeta.
  - simpl. split; [exact Hv|]. split; [lia|]. split; [reflexivity|].
    intros j. destruct (Z.leb_spec (pos m) j), (Z.ltb_spec j (pos m + 0));
      simpl; try reflexivity; lia.
  - inversion Hs as [|? ? Hc Hs']; subst.
    rewrite put_chars_cons. simpl length in *.
    destruct (vga_putchar_printable c m Hc Hv ltac:(lia)) as (Hv1 & Hp1 & Ha1 & Hcell1).
    destruct (IH (X86.vga_putchar c m) Hs' Hv1 ltac:(lia)) as (Hv2 & Hp2 & Ha2 & Hcell2).
    split; [exact Hv2|]. split; [lia|]. split; [congruence|].
    intros j. rewrite Hcell2, Hcell1, Hp1, Ha1.
    destruct (Z.leb_spec (pos m + 1) j),
             (Z.ltb_spec j (pos m + 1 + Z.of_nat (length s))),
             (Z.leb_spec (pos m) j),
             (Z.ltb_spec j (pos m + Z.of_nat (S (length s)))),
             (Z.eqb_spec j (pos m)); simpl; try reflexivity; try lia.
    + replace (Z.to_nat (j - pos m)) with (S (Z.to_nat (j - (pos m + 1)))) by lia.
      reflexivity.
    + subst j. rewrite Z.sub_diag. reflexivity.
Qed.

End PutcharFacts.

(** ** vga.c: the cursor invariant *)

Section ConsoleFacts.
Context {HW : Type} `{Hardware HW}.
Implicit Types m : machine HW X86.vga_state.

Lemma vga_clear_valid m : cursor_valid (X86.vga_clear m) /\ pos (X86.vga_clear m) = 0.
Proof.
  destruct (vga_clear_spec m) as (Hr & Hc & _).
  unfold cursor_valid, pos. rewrite Hr, Hc.
  unfold X86.VGA_HEIGHT, X86.VGA_WIDTH. lia.
Qed.

Lemma vga_print_valid s : forall m, cursor_valid m -> cursor_valid (X86.vga_print s m).
Proof.
  induction s as [|c s IH]; intros m Hv; [exact Hv|].
  cbn [X86.vga_print]. destruct (c =? 0); [exact Hv|].
  apply IH. exact (proj1 (vga_putchar_valid c m Hv)).
Qed.

(** Ten turns are enough for the digits of a 32-bit number: more turns
    give the same digits. *)
Lemma digits_loop_enough (k : nat) : forall (j : nat) n buf i,
  0 <= n < 10 ^ Z.of_nat k ->
  X86.digits_loop (k + j) n buf i = X86.digits_loop k n buf i.
Proof.
  induction k as [|k IH]; intros j n buf i Hn.
  - assert (n = 0) by (simpl in Hn; lia). subst n.
    destruct j; reflexivity.
  - cbn [Nat.add X86.digits_loop]. destruct (n >? 0); [|reflexivity].
    apply IH. rewrite Nat2Z.inj_succ, Z.pow_succ_r in Hn by lia.
    split; [apply Z.div_pos; lia|].
    apply Z.div_lt_upper_bound; lia.
Qed.

Lemma digits_loop_u32 (j : nat) n buf i :
  X86.digits_loop (10 + j) (u32 n) buf i = X86.digits_loop 10 (u32 n) buf i.
Proof.
  apply digits_loop_enough. pose proof (u32_range n).
  change (10 ^ Z.of_nat 10) with 10000000000. lia.
Qed.

Lemma vga_print_int_valid n m : cursor_valid m -> cursor_valid (X86.vga_print_int n m).
Proof.
  intros Hv. unfold X86.vga_print_int.
  destruct (u32 n =? 0); [exact (proj1 (vga_putchar_valid _ m Hv))|].
  destruct (X86.digits_loop 10 (u32 n) (fun _ => 0) 0) as [buf i].
  apply for_range_inv; [|exact Hv].
  intros k m' _ Hv'. exact (proj1 (vga_putchar_valid _ m' Hv')).
Qed.

Lemma vga_print_int2_valid n m : cursor_valid m -> cursor_valid (X86.vga_print_int2 n m).
Proof.
  intros Hv. unfold X86.vga_print_int2.
  exact (proj1 (vga_putchar_valid _ _ (proj1 (vga_putchar_valid _ m Hv)))).
Qed.

Lemma cursor_of_pos m r c :
  cursor_valid m -> pos m = r * 80 + c -> 0 <= c < 80 ->
  X86.row m = r /\ X86.col m = c.
Proof.
  unfold cursor_valid, pos, X86.VGA_WIDTH, X86.VGA_HEIGHT. lia.
Qed.

(** Characters written on a cleared screen, as long as the last cell is
    not reached. *)
Lemma put_chars_on_clear s m :
  Forall printable s -> Z.of_nat (length s) <= 1999 ->
  let m' := put_chars s (X86.vga_clear m) in
  cursor_valid m' /\ pos m' = Z.of_nat (length s) /\ X86.color m' = X86.color m /\
  forall j, 0 <= j < 2000 ->
    X86.cell m' j =
      if j <? Z.of_nat (length s)
      then X86.vga_entry (nth (Z.to_nat j) s 0) (X86.color m)
      else X86.vga_entry 32 (X86.color m).
Proof.
  intros Hs Hlen. cbv zeta.
  destruct (vga_clear_valid m) as (Hv0 & Hp0).
  destruct (vga_clear_spec m) as (_ & _ & Ha0 & Hcell0).
  destruct (put_chars_spec s (X86.vga_clear m) Hs Hv0 ltac:(lia))
    as (Hv & Hp & Ha & Hcell).
  split; [exact Hv|]. split; [lia|]. split; [congruence|].
  intros j Hj. rewrite Hcell, Hcell0, Hp0, Ha0, Z.sub_0_r.
  destruct (Z.leb_spec 0 j), (Z.ltb_spec j (0 + Z.of_nat (length s))),
           (Z.ltb_spec j (Z.of_nat (length s))), (Z.ltb_spec j 2000);
    cbn [andb]; try reflexivity; lia.
Qed.

Lemma split_last_two (s : list Z) (n : nat) :
  length s = S (S n) ->
  s = firstn n s ++ [nth n s 0; nth (S n) s 0].
Proof.
  intros Hlen.
  assert (Hf : length (firstn n s) = n) by (apply firstn_length_le; lia).
  pose proof (firstn_skipn n s) as Hsplit.
  assert (Hsk : length (skipn n s) = 2%nat) by (rewrite length_skipn; lia).
  destruct (skipn n s) as [|a [|b [|x t]]]; try discriminate Hsk.
  assert (Ha : nth n s 0 = a).
  { rewrite <- Hsplit. rewrite app_nth2 by lia. rewrite Hf.
    replace (n - n)%nat with 0%nat by lia. reflexivity. }
  assert (Hb : nth (S n) s 0 = b).
  { rewrite <- Hsplit. rewrite app_nth2 by lia. rewrite Hf.
    replace (S n - n)%nat with 1%nat by lia. reflexivity. }
  rewrite Ha, Hb. symmetry. exact Hsplit.
Qed.

(** Writing 2001 characters on a cleared screen scrolls it once: the
    first 80 characters are gone, the next 1920 fill rows 0 to 23, and the
    last one stands at the start of row 24. *)
Lemma put_chars_2001 s m :
  Forall printable s -> Z.of_nat (length s) = 2001 ->
  let m' := put_chars s (X86.vga_clear m) in
  X86.row m' = 24 /\ X86.col m' = 1 /\ X86.color m' = X86.color m /\
  forall j, 0 <= j < 2000 ->
    X86.cell m' j =
      if j <=? 1920
      then X86.vga_entry (nth (Z.to_nat (j + 80)) s 0) (X86.color m)
      else X86.vga_entry 32 (X86.color m).
Proof.
  intros Hs Hlen. cbv zeta.
  assert (Hn : length s = S (S 1999)) by lia.
  pose proof (split_last_two s 1999 Hn) as Hsplit.
  remember (firstn 1999 s) as s1 eqn:Es1.
  remember (nth 1999 s 0) as a eqn:Ea.
  remember (nth 2000 s 0) as b eqn:Eb.
  assert (Hlen1 : length s1 = 1999%nat).
  { subst s1. apply firstn_length_le. lia. }
  assert (Hs1 : Forall printable s1 /\ printable a /\ printable b).
  { rewrite Hsplit in Hs. apply Forall_app in Hs. destruct Hs as (H1 & H2).
    inversion H2 as [|? ? Hpa H3]; subst. inversion H3; subst. auto. }
  destruct Hs1 as (Hs1 & Hpa & Hpb).
  assert (Hnth : forall k, (k < 1999)%nat -> nth k s1 0 = nth k s 0).
  { intros k Hk. rewrite Hsplit. rewrite app_nth1 by lia. reflexivity. }
  assert (Hrun : put_chars s (X86.vga_clear m) =
                 X86.vga_putchar b (X86.vga_putchar a (put_chars s1 (X86.vga_clear m)))).
  { rewrite Hsplit. rewrite put_chars_app, !put_chars_cons. reflexivity. }
  rewrite Hrun. clear Hrun.
  destruct (put_chars_on_clear s1 m Hs1 ltac:(lia)) as (Hv1 & Hp1 & Ha1 & Hcell1).
  set (m1 := put_chars s1 (X86.vga_clear m)) in *. clearbody m1.
  destruct (vga_putchar_last_cell a m1 Hpa Hv1 ltac:(lia)) as (Hr2 & Hc2 & Ha2 & Hcell2).
  set (m2 := X86.vga_putchar a m1) in *. clearbody m2.
  assert (Hv2 : cursor_valid m2).
  { unfold cursor_valid. rewrite Hr2, Hc2. unfold X86.VGA_HEIGHT, X86.VGA_WIDTH. lia. }
  assert (Hp2 : pos m2 = 1920).
  { unfold pos. rewrite Hr2, Hc2. reflexivity. }
  destruct (vga_putchar_printable b m2 Hpb Hv2 ltac:(lia)) as (Hv3 & Hp3 & Ha3 & Hcell3).
  set (m3 := X86.vga_putchar b m2) in *. clearbody m3.
  destruct (cursor_of_pos m3 24 1 Hv3 ltac:(lia) ltac:(lia)) as (Hr3 & Hc3).
  split; [exact Hr3|]. split; [exact Hc3|]. split; [congruence|].
  intros j Hj. rewrite Hcell3, Hp2, Hcell2, Ha2, Ha1.
  destruct (Z.eqb_spec j 1920) as [->|Hne].
  - rewrite Eb. reflexivity.
  - destruct (Z.leb_spec 0 j), (Z.ltb_spec j 1920), (Z.leb_spec 1920 j),
             (Z.ltb_spec j 2000), (Z.leb_spec j 1920); cbn [andb]; try lia.
    destruct (Z.eqb_spec (j + 80) 1999) as [Heq|Hne'].
    + rewrite Heq, Ea. reflexivity.
    + rewrite Hcell1 by lia. rewrite Hlen1.
      destruct (Z.ltb_spec (j + 80) (Z.of_nat 1999)); [|lia].
      rewrite Hnth by lia. reflexivity.
Qed.

End ConsoleFacts.

(** C4: every console operation keeps the cursor on a cell of the screen.
    [vga_init], [vga_clear], [vga_putchar] with any character,
    [vga_print], [vga_newline], [vga_print_int], [vga_print_int2] and
    [vga_set_color] preserve [0 <= row <= 24] and [0 <= col <= 79].  A
    character drawn in the last column moves the cursor to column 0 of the
    next row; when that happens on the last row, or on a newline on the
    last row, every row receives the row below it, the last row is
    blanked and the cursor stays on the last row. *)
Theorem console_cursor_invariant {HW : Type} `{Hardware HW}
    (m : machine HW X86.vga_state) :
  cursor_valid m ->
  (cursor_valid (X86.vga_init m) /\ cursor_valid (X86.vga_clear m) /\
   (forall c, cursor_valid (X86.vga_putchar c m)) /\
   (forall s, cursor_valid (X86.vga_print s m)) /\
   cursor_valid (X86.vga_newline m) /\
   (forall n, cursor_valid (X86.vga_print_int n m)) /\
   (forall n, cursor_valid (X86.vga_print_int2 n m)) /\
   (forall fg bg, cursor_valid (X86.vga_set_color fg bg m)))
  /\
  (forall c, printable c -> X86.col m = 79 -> X86.row m < 24 ->
     X86.row (X86.vga_putchar c m) = X86.row m + 1 /\
     X86.col (X86.vga_putchar c m) = 0)
  /\
  (forall c, printable c -> X86.col m = 79 -> X86.row m = 24 ->
     let m' := X86.vga_putchar c m in
     X86.row m' = 24 /\ X86.col m' = 0 /\ row_blank m' 24 /\
     forall r k, 0 <= r < 24 -> 0 <= k < 80 ->
       X86.cell m' (r * 80 + k) =
         if (r =? 23) && (k =? 79) then X86.vga_entry c (X86.color m)
         else X86.cell m ((r + 1) * 80 + k))
  /\
  (X86.row m = 24 ->
     let m' := X86.vga_putchar 10 m in
     X86.row m' = 24 /\ X86.col m' = 0 /\ row_blank m' 24 /\
     forall r k, 0 <= r < 24 -> 0 <= k < 80 ->
       X86.cell m' (r * 80 + k) = X86.cell m ((r + 1) * 80 + k)).
Proof.
  intros Hv. split; [|split; [|split]].
  - split; [unfold X86.vga_init; exact (proj1 (vga_clear_valid _))|].
    split; [exact (proj1 (vga_clear_valid m))|].
    split; [intros c; exact (proj1 (vga_putchar_valid c m Hv))|].
    split; [intros s; apply vga_print_valid; exact Hv|].
    split; [exact (proj1 (vga_putchar_valid 10 m Hv))|].
    split; [intros n; apply vga_print_int_valid; exact Hv|].
    split; [intros n; apply vga_print_int2_valid; exact Hv|].
    intros fg bg. unfold X86.vga_set_color, cursor_valid.
    rewrite row_set_color, col_set_color. exact Hv.
  - intros c Hc Hcol Hrow.
    assert (Hp : pos m < 1999).
    { unfold pos, X86.VGA_WIDTH. lia. }
    destruct (vga_putchar_printable c m Hc Hv Hp) as (Hv' & Hp' & _).
    apply cursor_of_pos; [exact Hv'| |lia].
    rewrite Hp'. unfold pos, X86.VGA_WIDTH. lia.
  - intros c Hc Hcol Hrow. cbv zeta.
    assert (Hp : pos m = 1999).
    { unfold pos, X86.VGA_WIDTH. lia. }
    destruct (vga_putchar_last_cell c m Hc Hv Hp) as (Hr' & Hc' & Ha' & Hcell').
    split; [exact Hr'|]. split; [exact Hc'|]. split.
    + intros k Hk. unfold X86.VGA_WIDTH in *. rewrite Hcell', Ha'.
      destruct (Z.leb_spec 0 (24 * 80 + k)), (Z.ltb_spec (24 * 80 + k) 1920),
               (Z.leb_spec 1920 (24 * 80 + k)), (Z.ltb_spec (24 * 80 + k) 2000);
        cbn [andb]; try reflexivity; lia.
    + intros r k Hr Hk. rewrite Hcell'.
      destruct (Z.leb_spec 0 (r * 80 + k)), (Z.ltb_spec (r * 80 + k) 1920);
        cbn [andb]; try lia.
      destruct (Z.eqb_spec (r * 80 + k + 80) 1999), (Z.eqb_spec r 23),
               (Z.eqb_spec k 79); cbn [andb]; try reflexivity; try lia.
      all: f_equal; lia.
  - intros Hrow. cbv zeta.
    destruct (vga_putchar_newline m Hv) as (Hc' & Ha' & Hrest).
    destruct (Z.ltb_spec (X86.row m) 24) as [?|_]; [lia|].
    destruct Hrest as (Hr' & Hcell').
    split; [exact Hr'|]. split; [exact Hc'|]. split.
    + intros k Hk. unfold X86.VGA_WIDTH in *. rewrite Hcell', Ha'.
      destruct (Z.leb_spec 0 (24 * 80 + k)), (Z.ltb_spec (24 * 80 + k) 1920),
               (Z.leb_spec 1920 (24 * 80 + k)), (Z.ltb_spec (24 * 80 + k) 2000);
        cbn [andb]; try reflexivity; lia.
    + intros r k Hr Hk. rewrite Hcell'.
      destruct (Z.leb_spec 0 (r * 80 + k)), (Z.ltb_spec (r * 80 + k) 1920);
        cbn [andb]; try lia.
      f_equal. lia.
Qed.

(** The invariant on the simulated PC with the cursor in the last cell. *)
Lemma console_cursor_invariant_witness :
  let m : machine sim_pc X86.vga_state :=
    Machine (sim_pc_boot 0 1 0 []) [] (X86.Vga 24 79 0x07 (fun _ => 0)) in
  cursor_valid m /\
  (forall c, cursor_valid (X86.vga_putchar c m)) /\
  X86.row (X86.vga_putchar 65 m) = 24 /\ X86.col (X86.vga_putchar 65 m) = 0.
Proof.
  intros m.
  assert (Hv : cursor_valid m).
  { unfold cursor_valid, X86.VGA_HEIGHT, X86.VGA_WIDTH. subst m.
    unfold X86.row, X86.col. simpl. lia. }
  pose proof (console_cursor_invariant m Hv) as (Hops & _ & Hscroll & _).
  split; [exact Hv|]. split; [apply Hops|].
  assert (Hp : printable 65) by (unfold printable; lia).
  destruct (Hscroll 65 Hp eq_refl eq_refl) as (Hr & Hc & _).
  split; [exact Hr|exact Hc].
Defined.

(** C5 (as stated): after 2001 characters exactly one row shows content.
    With 2001 letters [x] written on a cleared screen by the simulated PC,
    rows 0 and 1 both show letters, so no row is the only one with
    content. *)
Lemma one_visible_row_fails :
  let m : machine sim_pc X86.vga_state := Machine (sim_pc_boot 0 1 0 []) [] blank_screen in
  let m' := put_chars (repeat 120 (Z.to_nat 2001)) (X86.vga_clear m) in
  ~ (exists r, 0 <= r < 25 /\ ~ row_blank m' r /\
               forall r', 0 <= r' < 25 -> r' <> r -> row_blank m' r').
Proof.
  intros m m' (r & Hr & _ & Hothers).
  assert (Hs : Forall printable (repeat 120 (Z.to_nat 2001))).
  { apply Forall_forall. intros x Hx. apply repeat_spec in Hx. subst x.
    unfold printable. lia. }
  assert (Hlen : Z.of_nat (length (repeat 120 (Z.to_nat 2001))) = 2001).
  { rewrite repeat_length. lia. }
  destruct (put_chars_2001 _ m Hs Hlen) as (_ & _ & Ha & Hcell).
  fold m' in Ha, Hcell.
  assert (Hshown : forall r', 0 <= r' < 2 -> ~ row_blank m' r').
  { intros r' Hr' Hblank. specialize (Hblank 0 ltac:(unfold X86.VGA_WIDTH; lia)).
    unfold X86.VGA_WIDTH in Hblank.
    rewrite Hcell, Ha in Hblank by lia.
    destruct (Z.leb_spec (r' * 80 + 0) 1920); [|lia].
    rewrite nth_repeat_lt in Hblank by lia.
    vm_compute in Hblank. discriminate. }
  destruct (Z.eq_dec r 0) as [->|Hne].
  - apply (Hshown 1); [lia|]. apply Hothers; lia.
  - apply (Hshown 0); [lia|]. apply Hothers; lia.
Qed.

(** C5 (amended): on a cleared screen, after the first 81 of 2001 drawn
    characters the cursor is at row 1, column 1 and the cells hold those
    81 characters in order, row 0 the first 80; after all 2001 the screen
    has scrolled by one row: the first 80 characters are gone, rows 0 to
    23 hold the next 1920, the last row holds the last character followed
    by blanks, and the cursor is at row 24, column 1. *)
Theorem cursor_wrap_and_scroll {HW : Type} `{Hardware HW}
    (m : machine HW X86.vga_state) (s : list Z) :
  Forall printable s ->
  Z.of_nat (length s) = X86.VGA_HEIGHT * X86.VGA_WIDTH + 1 ->
  let m81 := put_chars (firstn (Z.to_nat (X86.VGA_WIDTH + 1)) s) (X86.vga_clear m) in
  let m' := put_chars s (X86.vga_clear m) in
  (X86.row m81 = 1 /\ X86.col m81 = 1 /\
   forall j, 0 <= j < 2000 ->
     X86.cell m81 j =
       if j <? 81 then X86.vga_entry (nth (Z.to_nat j) s 0) (X86.color m)
       else X86.vga_entry 32 (X86.color m))
  /\
  (X86.row m' = 24 /\ X86.col m' = 1 /\
   forall j, 0 <= j < 2000 ->
     X86.cell m' j =
       if j <=? 1920 then X86.vga_entry (nth (Z.to_nat (j + 80)) s 0) (X86.color m)
       else X86.vga_entry 32 (X86.color m)).
Proof.
  intros Hs Hlen. cbv zeta. unfold X86.VGA_HEIGHT, X86.VGA_WIDTH in Hlen.
  replace (Z.to_nat (X86.VGA_WIDTH + 1)) with 81%nat by reflexivity.
  split.
  - assert (Hs81 : Forall printable (firstn 81 s)).
    { rewrite <- (firstn_skipn 81 s) in Hs. apply Forall_app in Hs. apply Hs. }
    assert (Hl81 : length (firstn 81 s) = 81%nat) by (apply firstn_length_le; lia).
    destruct (put_chars_on_clear (firstn 81 s) m Hs81 ltac:(lia))
      as (Hv & Hp & _ & Hcell).
    destruct (cursor_of_pos _ 1 1 Hv ltac:(lia) ltac:(lia)) as (Hr & Hc).
    split; [exact Hr|]. split; [exact Hc|].
    intros j Hj. rewrite Hcell by lia. rewrite Hl81.
    change (Z.of_nat 81) with 81.
    destruct (Z.ltb_spec j 81); [|reflexivity].
    rewrite <- (firstn_skipn 81 s) at 2. rewrite app_nth1 by lia. reflexivity.
  - destruct (put_chars_2001 s m Hs ltac:(lia)) as (Hr & Hc & _ & Hcell).
    split; [exact Hr|]. split; [exact Hc|exact Hcell].
Qed.

(** The same run on the simulated PC, with 2001 letters [x]. *)
Lemma cursor_wrap_and_scroll_witness :
  let m : machine sim_pc X86.vga_state := Machine (sim_pc_boot 0 1 0 []) [] blank_screen in
  let s := repeat 120 (Z.to_nat 2001) in
  Forall printable s /\
  Z.of_nat (length s) = X86.VGA_HEIGHT * X86.VGA_WIDTH + 1 /\
  X86.row (put_chars (firstn (Z.to_nat (X86.VGA_WIDTH + 1)) s) (X86.vga_clear m)) = 1 /\
  X86.row (put_chars s (X86.vga_clear m)) = 24 /\
  X86.col (put_chars s (X86.vga_clear m)) = 1.
Proof.
  intros m s.
  assert (Hs : Forall printable s).
  { apply Forall_forall. intros x Hx. apply repeat_spec in Hx. subst x.
    unfold printable. lia. }
  assert (Hlen : Z.of_nat (length s) = X86.VGA_HEIGHT * X86.VGA_WIDTH + 1).
  { unfold s. rewrite repeat_length. unfold X86.VGA_HEIGHT, X86.VGA_WIDTH. lia. }
  destruct (cursor_wrap_and_scroll m s Hs Hlen) as ((Hr81 & _) & Hr & Hc & _).
  split; [exact Hs|]. split; [exact Hlen|].
  split; [exact Hr81|]. split; [exact Hr|exact Hc].
Defined.

(** ** vga_rpi3.c: the serial console *)

Lemma uart_sent_app a b : uart_sent (a ++ b) = uart_sent a ++ uart_sent b.
Proof.
  induction a as [|[p v|p v] a IH]; simpl; [reflexivity|exact IH|].
  destruct (p =? Rpi3.UART_DR); simpl; rewrite IH; reflexivity.
Qed.

Lemma uart_received_app a b :
  uart_received (a ++ b) = uart_received a ++ uart_received b.
Proof.
  induction a as [|[p v|p v] a IH]; simpl; [reflexivity| |exact IH].
  destruct (p =? Rpi3.UART_DR); simpl; rewrite IH; reflexivity.
Qed.

Lemma status_polls_silent evs :
  Forall status_poll evs -> uart_sent evs = [] /\ uart_received evs = [].
Proof.
  induction 1 as [|e evs He _ IH]; [split; reflexivity|].
  destruct e as [p v|p v]; simpl in He; [|contradiction]. subst p.
  simpl. exact IH.
Qed.

Section SerialFacts.
Context {HW : Type} `{Hardware HW}.
Implicit Types m : machine HW unit.

Lemma mmio_load_spec addr m :
  exists v m', mmio_load addr m = Some (v, m') /\ 0 <= v < 4294967296 /\
               log m' = log m ++ [EvIn addr v].
Proof.
  unfold mmio_load. destruct (hw_read addr (hw m)) as [v h].
  eexists _, _. split; [reflexivity|]. split; [apply u32_range|reflexivity].
Qed.

Lemma mmio_store_spec addr val m :
  exists m', mmio_store addr val m = Some (tt, m') /\
             log m' = log m ++ [EvOut addr (u32 val)].
Proof. eexists. split; reflexivity. Qed.

(** A loop that does nothing but read the flag register. *)
Lemma poll_loop_spec fuel (test : Z -> bool) m m' :
  iter fuel (fun _ : unit =>
    fr <- mmio_load Rpi3.UART_FR ;;
    if test fr then ret (inl tt) else ret (inr tt)) tt m = Some (tt, m') ->
  exists polls, Forall status_poll polls /\ log m' = log m ++ polls.
Proof.
  intros Hrun.
  pose (I := fun (_ : unit) (s : machine HW unit) =>
    exists polls, Forall status_poll polls /\ log s = log m ++ polls).
  apply (fun Hb HI => iter_inv I (fun _ s => I tt s) _ Hb fuel tt m tt m' HI Hrun).
  - intros [] s r s' (polls & Hpolls & L) Hbody.
    destruct (mmio_load_spec Rpi3.UART_FR s) as (v & s1 & E & _ & L1).
    rewrite (bind_eq _ _ _ _ _ E) in Hbody.
    assert (HI : I tt s1).
    { exists (polls ++ [EvIn Rpi3.UART_FR v]). split.
      - apply Forall_app. split; [exact Hpolls|]. constructor; [reflexivity|constructor].
      - rewrite L1, L, app_assoc. reflexivity. }
    destruct (test v); inversion Hbody; subst; exact HI.
  - exists []. split; [constructor|]. rewrite app_nil_r. reflexivity.
Qed.

(** [uart_putchar] waits for room in the transmitter and stores the
    character, as a byte, in the data register. *)
Lemma uart_putchar_spec fuel c m m' :
  Rpi3.uart_putchar fuel c m = Some (tt, m') ->
  exists polls, Forall status_poll polls /\
                log m' = log m ++ polls ++ [EvOut Rpi3.UART_DR (u8 c)].
Proof.
  unfold Rpi3.uart_putchar. intros Hrun.
  apply bind_Some in Hrun. destruct Hrun as ([] & m1 & Hpoll & Hstore).
  destruct (poll_loop_spec _ _ _ _ Hpoll) as (polls & Hpolls & L1).
  destruct (mmio_store_spec Rpi3.UART_DR (u32 (u8 c)) m1) as (m2 & E & L2).
  rewrite E in Hstore. inversion Hstore; subst m2.
  exists polls. split; [exact Hpolls|].
  rewrite L2, L1, <- app_assoc.
  pose proof (u8_range c). rewrite !(u32_small (u8 c)) by lia. reflexivity.
Qed.

Lemma transmits_nil m : transmits m m [].
Proof. exists []. rewrite app_nil_r. repeat split. Qed.

Lemma exchanges_trans m1 m2 m3 a b r1 r2 :
  exchanges m1 m2 a r1 -> exchanges m2 m3 b r2 ->
  exchanges m1 m3 (a ++ b) (r1 ++ r2).
Proof.
  intros (e1 & L1 & S1 & R1) (e2 & L2 & S2 & R2). exists (e1 ++ e2).
  rewrite L2, L1, <- app_assoc, uart_sent_app, uart_received_app, S1, S2, R1, R2.
  repeat split.
Qed.

Lemma transmits_trans m1 m2 m3 a b :
  transmits m1 m2 a -> transmits m2 m3 b -> transmits m1 m3 (a ++ b).
Proof. apply (exchanges_trans m1 m2 m3 a b [] []). Qed.

Lemma uart_putchar_transmits fuel c m m' :
  Rpi3.uart_putchar fuel c m = Some (tt, m') -> transmits m m' [u8 c].
Proof.
  intros Hrun. destruct (uart_putchar_spec _ _ _ _ Hrun) as (polls & Hpolls & L).
  destruct (status_polls_silent _ Hpolls) as (Hs & Hr).
  exists (polls ++ [EvOut Rpi3.UART_DR (u8 c)]). split; [exact L|].
  rewrite uart_sent_app, uart_received_app, Hs, Hr.
  split; reflexivity.
Qed.

(** [vga_putchar] on the serial console: a line feed is preceded by a
    carriage return. *)
Lemma pi_putchar_transmits fuel c m m' :
  Rpi3.vga_putchar fuel c m = Some (tt, m') ->
  transmits m m' (if c =? 10 then [13; 10] else [u8 c]).
Proof.
  unfold Rpi3.vga_putchar. intros Hrun.
  apply bind_Some in Hrun. destruct Hrun as ([] & m1 & H1 & H2).
  apply uart_putchar_transmits in H2.
  destruct (Z.eqb_spec c 10) as [->|Hne].
  - apply uart_putchar_transmits in H1.
    exact (transmits_trans _ _ _ _ _ H1 H2).
  - inversion H1; subst m1. exact H2.
Qed.

Lemma uart_puts_transmits fuel s : forall m m',
  Rpi3.uart_puts fuel s m = Some (tt, m') -> transmits m m' (crlf s).
Proof.
  induction s as [|c s IH]; intros m m' Hrun.
  - inversion Hrun; subst. apply transmits_nil.
  - cbn [Rpi3.uart_puts crlf] in *.
    destruct (Z.eqb_spec c 0) as [Hc0|Hc0].
    + inversion Hrun; subst. apply transmits_nil.
    + apply bind_Some in Hrun. destruct Hrun as ([] & m1 & H1 & Hrun).
      apply bind_Some in Hrun. destruct Hrun as ([] & m2 & H2 & H3).
      apply uart_putchar_transmits in H2. apply IH in H3.
      destruct (Z.eqb_spec c 10) as [->|Hne].
      * apply uart_putchar_transmits in H1.
        exact (transmits_trans _ _ _ _ _ (transmits_trans _ _ _ _ _ H1 H2) H3).
      * inversion H1; subst m1.
        exact (transmits_trans _ _ _ _ _ H2 H3).
Qed.

(** With a transmitter that is never full, one turn of the polling loop
    is enough: [uart_putchar] returns. *)
Lemma uart_putchar_returns fuel c m :
  tx_always_ready HW ->
  exists m', Rpi3.uart_putchar (S fuel) c m = Some (tt, m').
Proof.
  intros Hready. unfold Rpi3.uart_putchar, bind. cbn [iter].
  unfold mmio_load at 1. specialize (Hready (hw m)).
  destruct (hw_read Rpi3.UART_FR (hw m)) as [v h]. cbn [fst] in Hready.
  rewrite Hready. cbn [Z.eqb negb]. unfold ret.
  eexists. reflexivity.
Qed.

Lemma pi_print_int2_returns fuel n m :
  tx_always_ready HW ->
  exists m', Rpi3.vga_print_int2 (S fuel) n m = Some (tt, m').
Proof.
  intros Hready. unfold Rpi3.vga_print_int2.
  destruct (uart_putchar_returns fuel (u8 (48 + u8 n / 10)) m Hready) as (m1 & E1).
  destruct (uart_putchar_returns fuel (u8 (48 + u8 n mod 10)) m1 Hready) as (m2 & E2).
  exists m2. rewrite (bind_eq _ _ _ _ _ E1). exact E2.
Qed.

Lemma uart_puts_returns fuel s : forall m,
  tx_always_ready HW ->
  exists m', Rpi3.uart_puts (S fuel) s m = Some (tt, m').
Proof.
  induction s as [|c s IH]; intros m Hready; [eexists; reflexivity|].
  cbn [Rpi3.uart_puts]. destruct (c =? 0); [eexists; reflexivity|].
  assert (H1 : exists m1, (if c =? 10 then Rpi3.uart_putchar (S fuel) 13 else ret tt) m
                          = Some (tt, m1)).
  { destruct (c =? 10); [apply uart_putchar_returns; exact Hready|eexists; reflexivity]. }
  destruct H1 as (m1 & E1).
  destruct (uart_putchar_returns fuel c m1 Hready) as (m2 & E2).
  destruct (IH m2 Hready) as (m3 & E3).
  exists m3. rewrite (bind_eq _ _ _ _ _ E1), (bind_eq _ _ _ _ _ E2). exact E3.
Qed.

Lemma pi_set_color_returns fuel fg bg m :
  tx_always_ready HW ->
  exists m', Rpi3.vga_set_color (S fuel) fg bg m = Some (tt, m').
Proof.
  intros Hready. unfold Rpi3.vga_set_color.
  destruct (u8 fg <? 16); [apply uart_puts_returns; exact Hready|eexists; reflexivity].
Qed.

End SerialFacts.

(** ** Attributes and two-digit numbers *)

Lemma testbit_u8_high x i : 8 <= i -> Z.testbit (u8 x) i = false.
Proof.
  intros Hi. unfold u8. change 256 with (2 ^ 8).
  apply Z.mod_pow2_bits_high. lia.
Qed.

(** The attribute byte that [vga_set_color] computes: the low four bits
    are those of [fg], bits 4 to 6 the low three bits of [bg], and bit 7
    is bit 3 of [bg]. *)
Lemma attribute_fields fg bg :
  let attr := u8 (Z.lor (Z.shiftl (u8 bg) 4) (Z.land (u8 fg) 0x0F)) in
  0 <= attr < 256 /\
  Z.land attr 0x0F = Z.land fg 0x0F /\
  Z.land (Z.shiftr attr 4) 0x07 = Z.land bg 0x07 /\
  Z.testbit attr 7 = Z.testbit bg 3.
Proof.
  intros attr. split; [apply u8_range|].
  assert (Hbit : forall i, 0 <= i < 8 ->
            Z.testbit attr i =
              if i <? 4 then Z.testbit fg i else Z.testbit bg (i - 4)).
  { intros i Hi. unfold attr.
    rewrite testbit_u8, Z.lor_spec, Z.land_spec by lia.
    change 0x0F with (Z.ones 4). rewrite Z.testbit_ones_nonneg by lia.
    destruct (Z.ltb_spec i 4).
    - rewrite Z.shiftl_spec_low, testbit_u8 by lia.
      rewrite andb_true_r. reflexivity.
    - rewrite Z.shiftl_spec, testbit_u8 by lia.
      rewrite andb_false_r, orb_false_r. reflexivity. }
  split; [|split].
  - apply Z.bits_inj'. intros i Hi. rewrite !Z.land_spec.
    change 0x0F with (Z.ones 4). rewrite Z.testbit_ones_nonneg by lia.
    destruct (Z.ltb_spec i 4) as [Hlt|Hge].
    + rewrite Hbit by lia. destruct (Z.ltb_spec i 4); [reflexivity|lia].
    + rewrite !andb_false_r. reflexivity.
  - apply Z.bits_inj'. intros i Hi. rewrite !Z.land_spec, Z.shiftr_spec by lia.
    change 0x07 with (Z.ones 3). rewrite Z.testbit_ones_nonneg by lia.
    destruct (Z.ltb_spec i 3) as [Hlt|Hge].
    + rewrite Hbit by lia. destruct (Z.ltb_spec (i + 4) 4); [lia|].
      replace (i + 4 - 4) with i by lia. reflexivity.
    + rewrite !andb_false_r. reflexivity.
  - rewrite Hbit by lia. reflexivity.
Qed.

(** A cell packs the character in its low byte and the attribute in its
    high byte. *)
Lemma vga_entry_fields c attr :
  0 <= attr < 256 ->
  X86.vga_entry c attr = attr * 256 + u8 c /\
  Z.shiftr (X86.vga_entry c attr) 8 = attr /\
  Z.land (X86.vga_entry c attr) 0xFF = u8 c.
Proof.
  intros Ha. pose proof (u8_range c) as Hc.
  assert (He : X86.vga_entry c attr = attr * 256 + u8 c).
  { unfold X86.vga_entry. rewrite (u16_small (u8 c)), (u16_small attr) by lia.
    rewrite Z.lor_comm, lor_shiftl_bytes by lia. apply u16_small. lia. }
  split; [exact He|]. rewrite He. split.
  - rewrite Z.shiftr_div_pow2 by lia. change (2 ^ 8) with 256.
    rewrite Z.add_comm, Z.div_add by lia. rewrite Z.div_small by lia. lia.
  - change 0xFF with (Z.ones 8). rewrite Z.land_ones by lia. change (2 ^ 8) with 256.
    rewrite Z.add_comm, Z.mod_add by lia. apply Z.mod_small. lia.
Qed.

Lemma two_digits n :
  0 <= n <= 99 ->
  Forall is_digit [48 + n / 10; 48 + n mod 10] /\
  decimal_value [48 + n / 10; 48 + n mod 10] = n.
Proof.
  intros Hn.
  pose proof (Z.mod_pos_bound n 10 ltac:(lia)) as Hm.
  assert (Hd : 0 <= n / 10 <= 9).
  { split; [apply Z.div_pos; lia|]. apply Z.lt_succ_r.
    apply Z.div_lt_upper_bound; lia. }
  split.
  - repeat constructor; unfold is_digit; lia.
  - unfold decimal_value. cbn [fold_left].
    pose proof (Z.div_mod n 10 ltac:(lia)). lia.
Qed.

Lemma put_chars_nil {HW : Type} `{Hardware HW} (m : machine HW X86.vga_state) :
  put_chars [] m = m.
Proof. reflexivity. Qed.

(** C8: [vga_set_color fg bg] on the framebuffer stores an attribute
    byte whose low four bits are [fg] reduced to four bits, whose bits 4
    to 6 are [bg] reduced to three bits and whose bit 7, the blink or
    bright flag, is bit 3 of [bg]; the attribute stays in force for the
    characters drawn afterwards, each of which carries it in the high
    byte of its cell.  On the serial console [bg] plays no part: the call
    transmits the escape code of [fg] when [fg < 16] and nothing
    otherwise, and it returns when the transmitter is never full. *)
Theorem set_color_attribute {HW : Type} `{Hardware HW}
    (fuel : nat) (fg bg : Z)
    (m : machine HW X86.vga_state) (p : machine HW unit) :
  (let m1 := X86.vga_set_color fg bg m in
   let attr := X86.color m1 in
   0 <= attr < 256 /\
   Z.land attr 0x0F = Z.land fg 0x0F /\
   Z.land (Z.shiftr attr 4) 0x07 = Z.land bg 0x07 /\
   Z.testbit attr 7 = Z.testbit bg 3 /\
   (cursor_valid m ->
    (forall c, X86.color (X86.vga_putchar c m1) = attr) /\
    (forall c, printable c -> pos m < 1999 ->
       X86.cell (X86.vga_putchar c m1) (pos m) = X86.vga_entry c attr /\
       Z.shiftr (X86.vga_entry c attr) 8 = attr)))
  /\
  ((forall bg', Rpi3.vga_set_color fuel fg bg' p = Rpi3.vga_set_color fuel fg bg p) /\
   (forall p', Rpi3.vga_set_color fuel fg bg p = Some (tt, p') ->
      transmits p p'
        (if u8 fg <? 16 then nth (Z.to_nat (u8 fg)) Rpi3.ansi_fg [] else [])) /\
   (tx_always_ready HW ->
    exists p', Rpi3.vga_set_color (S fuel) fg bg p = Some (tt, p'))).
Proof.
  split.
  - cbv zeta. unfold X86.vga_set_color. rewrite color_set_color.
    destruct (attribute_fields fg bg) as (Hr & Hfg & Hbg & Hblink).
    set (attr := u8 (Z.lor (Z.shiftl (u8 bg) 4) (Z.land (u8 fg) 0x0F))) in *.
    split; [exact Hr|]. split; [exact Hfg|]. split; [exact Hbg|].
    split; [exact Hblink|]. intros Hv.
    assert (Hv1 : cursor_valid (X86.set_color attr m)).
    { unfold cursor_valid. rewrite row_set_color, col_set_color. exact Hv. }
    assert (Hp1 : pos (X86.set_color attr m) = pos m).
    { unfold pos. rewrite row_set_color, col_set_color. reflexivity. }
    split.
    + intros c. rewrite (proj2 (vga_putchar_valid c _ Hv1)).
      apply color_set_color.
    + intros c Hc Hp.
      destruct (vga_putchar_printable c _ Hc Hv1 ltac:(lia)) as (_ & _ & _ & Hcell).
      split.
      * rewrite Hcell, Hp1, Z.eqb_refl, color_set_color. reflexivity.
      * apply vga_entry_fields. exact Hr.
  - split; [reflexivity|].
    split; [|intros Hready; apply pi_set_color_returns; exact Hready].
    intros p' Hrun. unfold Rpi3.vga_set_color in Hrun.
    destruct (u8 fg <? 16).
    + assert (Hplain : forall s, In s Rpi3.ansi_fg \/ s = [] -> crlf s = s).
      { intros s [Hin | ->]; [|reflexivity].
        unfold Rpi3.ansi_fg in Hin. apply in_map_iff in Hin.
        destruct Hin as ([a b] & <- & Hin). simpl in Hin.
        repeat (destruct Hin as [Hin|Hin]; [inversion Hin; subst; reflexivity|]).
        contradiction. }
      apply uart_puts_transmits in Hrun.
      rewrite Hplain in Hrun; [exact Hrun|].
      destruct (nth_in_or_default (Z.to_nat (u8 fg)) Rpi3.ansi_fg []); auto.
    + inversion Hrun; subst. apply transmits_nil.
Qed.

(** White on blue, followed by the letter A, on the simulated devices. *)
Lemma set_color_attribute_witness :
  let m : machine sim_pc X86.vga_state := Machine (sim_pc_boot 0 1 0 []) [] blank_screen in
  let p : machine sim_pc unit := Machine (sim_pc_boot 0 1 0 []) [] tt in
  exists p',
    Rpi3.vga_set_color 1 15 1 p = Some (tt, p') /\
    X86.color (X86.vga_set_color 15 1 m) = 0x1F /\
    X86.cell (X86.vga_putchar 65 (X86.vga_set_color 15 1 m)) 0 = 0x1F41 /\
    transmits p p' [27; 91; 57; 55; 109].
Proof.
  intros m p.
  destruct (Rpi3.vga_set_color 1 15 1 p) as [[[] p']|] eqn:E;
    [|vm_compute in E; discriminate].
  assert (Hv : cursor_valid m).
  { unfold cursor_valid, X86.VGA_HEIGHT, X86.VGA_WIDTH, X86.row, X86.col. simpl. lia. }
  assert (Hc : printable 65) by (unfold printable; lia).
  assert (Hp : pos m < 1999).
  { unfold pos, X86.VGA_WIDTH, X86.row, X86.col. simpl. lia. }
  destruct (set_color_attribute 1 15 1 m p) as ((_ & _ & _ & _ & Hdraw) & _ & Htx & _).
  destruct (Hdraw Hv) as (_ & Hcell). destruct (Hcell 65 Hc Hp) as (Hcell65 & _).
  exists p'. split; [reflexivity|]. split; [reflexivity|].
  split; [exact Hcell65|]. exact (Htx p' E).
Defined.

(** C9: for [n] from 0 to 99, [vga_print_int2 n] writes exactly the two
    characters ['0' + n / 10] and ['0' + n mod 10]; both are ASCII digits
    and their decimal value is [n].  On the framebuffer the call is the
    same as drawing these two characters, which land in consecutive cells
    when the screen does not scroll; on the serial console they are the
    two bytes transmitted, and the call returns when the transmitter is
    never full. *)
Theorem print_two_digit_round_trip {HW : Type} `{Hardware HW}
    (fuel : nat) (n : Z)
    (m : machine HW X86.vga_state) (p : machine HW unit) :
  0 <= n <= 99 ->
  let digits := [48 + n / 10; 48 + n mod 10] in
  Forall is_digit digits /\
  decimal_value digits = n /\
  X86.vga_print_int2 n m = put_chars digits m /\
  (cursor_valid m -> pos m + 2 <= 1999 ->
   pos (X86.vga_print_int2 n m) = pos m + 2 /\
   X86.cell (X86.vga_print_int2 n m) (pos m) = X86.vga_entry (48 + n / 10) (X86.color m) /\
   X86.cell (X86.vga_print_int2 n m) (pos m + 1) =
     X86.vga_entry (48 + n mod 10) (X86.color m)) /\
  (forall p', Rpi3.vga_print_int2 fuel n p = Some (tt, p') -> transmits p p' digits) /\
  (tx_always_ready HW ->
   exists p', Rpi3.vga_print_int2 (S fuel) n p = Some (tt, p') /\ transmits p p' digits).
Proof.
  intros Hn. cbv zeta.
  destruct (two_digits n Hn) as (Hdig & Hval).
  assert (Hd1 : 48 <= 48 + n / 10 <= 57 /\ 48 <= 48 + n mod 10 <= 57).
  { inversion Hdig as [|? ? H1 Hrest]; subst. inversion Hrest; subst. auto. }
  assert (Hpc : X86.vga_print_int2 n m = put_chars [48 + n / 10; 48 + n mod 10] m).
  { unfold X86.vga_print_int2. rewrite (u8_small n) by lia.
    rewrite (u8_small (48 + n / 10)), (u8_small (48 + n mod 10)) by lia.
    rewrite !put_chars_cons, put_chars_nil. reflexivity. }
  assert (Hpi : forall k (q q' : machine HW unit),
            Rpi3.vga_print_int2 k n q = Some (tt, q') ->
            transmits q q' [48 + n / 10; 48 + n mod 10]).
  { intros k q q' Hq.
    unfold Rpi3.vga_print_int2 in Hq. rewrite (u8_small n) in Hq by lia.
    apply bind_Some in Hq. destruct Hq as ([] & p1 & H1 & H2).
    apply uart_putchar_transmits in H1. apply uart_putchar_transmits in H2.
    rewrite !(u8_small (48 + n / 10)) in H1 by lia.
    rewrite !(u8_small (48 + n mod 10)) in H2 by lia.
    exact (transmits_trans _ _ _ _ _ H1 H2). }
  split; [exact Hdig|]. split; [exact Hval|]. split; [exact Hpc|].
  split; [|split].
  - intros Hv Hp. rewrite Hpc.
    assert (Hs : Forall printable [48 + n / 10; 48 + n mod 10]).
    { repeat constructor; unfold printable; lia. }
    destruct (put_chars_spec _ m Hs Hv ltac:(simpl length; lia)) as (_ & Hp' & _ & Hcell).
    split; [rewrite Hp'; simpl length; lia|].
    rewrite !Hcell. simpl length.
    destruct (Z.leb_spec (pos m) (pos m)), (Z.ltb_spec (pos m) (pos m + Z.of_nat 2)),
             (Z.leb_spec (pos m) (pos m + 1)),
             (Z.ltb_spec (pos m + 1) (pos m + Z.of_nat 2)); try lia.
    cbn [andb]. rewrite Z.sub_diag.
    replace (pos m + 1 - pos m) with 1 by lia. split; reflexivity.
  - intros p' Hrun. exact (Hpi _ _ _ Hrun).
  - intros Hready.
    destruct (pi_print_int2_returns fuel n p Hready) as (p' & Hq).
    exists p'. split; [exact Hq|exact (Hpi _ _ _ Hq)].
Qed.

(** The number 7 on the simulated devices gives "07". *)
Lemma print_two_digit_round_trip_witness :
  let m : machine sim_pc X86.vga_state := Machine (sim_pc_boot 0 1 0 []) [] blank_screen in
  let p : machine sim_pc unit := Machine (sim_pc_boot 0 1 0 []) [] tt in
  exists p',
    Rpi3.vga_print_int2 1 7 p = Some (tt, p') /\
    X86.vga_print_int2 7 m = put_chars [48; 55] m /\
    decimal_value [48; 55] = 7 /\
    transmits p p' [48; 55].
Proof.
  intros m p.
  destruct (Rpi3.vga_print_int2 1 7 p) as [[[] p']|] eqn:E;
    [|vm_compute in E; discriminate].
  destruct (print_two_digit_round_trip 1 7 m p ltac:(lia))
    as (_ & Hval & Hpc & _ & Htx & _).
  exists p'. split; [reflexivity|]. split; [exact Hpc|]. split; [exact Hval|].
  exact (Htx p' E).
Defined.

(** ** Line buffers *)

Lemma holds_line_push buf len line c :
  holds_line buf len line -> holds_line (upd buf len c) (len + 1) (line ++ [c]).
Proof.
  intros (Hlen & Hcells). split.
  - rewrite length_app. simpl. lia.
  - intros i Hi. rewrite length_app in Hi. simpl in Hi. unfold upd.
    destruct (Z.eqb_spec (Z.of_nat i) len) as [Heq|Hne].
    + assert (i = length line) by lia. subst i. rewrite nth_middle. reflexivity.
    + rewrite app_nth1 by lia. apply Hcells. lia.
Qed.

Lemma holds_line_pop buf len line :
  holds_line buf len line -> holds_line buf (Z.max 0 (len - 1)) (removelast line).
Proof.
  intros (Hlen & Hcells). unfold holds_line.
  destruct line as [|x l] using rev_ind.
  - cbn [length removelast] in *. split; [lia|]. intros i Hi. cbn [length] in Hi. lia.
  - rewrite removelast_last. rewrite length_app in *. cbn [length] in *.
    split; [lia|].
    intros i Hi. rewrite Hcells by lia. apply app_nth1. exact Hi.
Qed.

Lemma holds_line_terminate buf len line :
  holds_line buf len line -> stored_line (upd buf len 0) len line.
Proof.
  intros (Hlen & Hcells). split; [exact Hlen|]. unfold upd. split.
  - rewrite Z.eqb_refl. reflexivity.
  - intros i Hi. destruct (Z.eqb_spec (Z.of_nat i) len); [lia|].
    apply Hcells. exact Hi.
Qed.

Lemma holds_line_empty buf len line :
  holds_line buf len line -> len <= 0 -> line = [].
Proof.
  intros (Hlen & _) Hle. destruct line; [reflexivity|]. simpl in Hlen. lia.
Qed.

(** ** keyboard.c: the PS/2 keyboard *)

Lemma kbd_keys_app a b : kbd_keys (a ++ b) = kbd_keys a ++ kbd_keys b.
Proof.
  induction a as [|[p v|p v] a IH]; simpl; [reflexivity| |exact IH].
  destruct (p =? X86.KB_DATA); [|exact IH].
  destruct (kbd_key v); simpl; rewrite IH; reflexivity.
Qed.

Section KeyboardFacts.
Context {HW : Type} `{Hardware HW}.
Implicit Types m : machine HW X86.vga_state.

Lemma types_refl m : types m m [].
Proof. exists []. rewrite app_nil_r. split; reflexivity. Qed.

Lemma types_trans m1 m2 m3 a b :
  types m1 m2 a -> types m2 m3 b -> types m1 m3 (a ++ b).
Proof.
  intros (e1 & L1 & K1) (e2 & L2 & K2). exists (e1 ++ e2).
  rewrite L2, L1, <- app_assoc, kbd_keys_app, K1, K2. split; reflexivity.
Qed.

Lemma wait_output_full_types fuel m m' :
  X86.wait_output_full fuel m = Some (tt, m') -> types m m' [].
Proof.
  unfold X86.wait_output_full. intros Hrun.
  apply (fun Hb HI => iter_inv (fun (_ : unit) s => types m s [])
                        (fun (_ : unit) s => types m s []) _ Hb fuel tt m tt m' HI Hrun).
  - intros [] s r s' HI Hbody.
    destruct (inb_spec X86.KB_STATUS s) as (st & s1 & E & _ & L1 & _).
    rewrite (bind_eq _ _ _ _ _ E) in Hbody.
    assert (H1 : types m s1 []).
    { apply (types_trans m s s1 [] [] HI). exists [EvIn X86.KB_STATUS st].
      split; [exact L1|reflexivity]. }
    destruct (Z.land st 1 =? 0); inversion Hbody; subst; exact H1.
  - apply types_refl.
Qed.

(** One turn of the loop of [keyboard_getchar] reads one scan code. *)
Lemma getchar_body_types fuel m r m' :
  X86.getchar_body fuel tt m = Some (r, m') ->
  types m m' (match r with inl _ => [] | inr c => [c] end).
Proof.
  unfold X86.getchar_body. intros Hrun.
  apply bind_Some in Hrun. destruct Hrun as ([] & m1 & Hwait & Hrun).
  apply wait_output_full_types in Hwait.
  destruct (inb_spec X86.KB_DATA m1) as (sc & m2 & E & Hsc & L2 & _).
  rewrite (bind_eq _ _ _ _ _ E) in Hrun.
  assert (Hkey : types m1 m2 (match kbd_key sc with Some c => [c] | None => [] end)).
  { exists [EvIn X86.KB_DATA sc]. split; [exact L2|].
    cbn [kbd_keys]. rewrite Z.eqb_refl. destruct (kbd_key sc); reflexivity. }
  pose proof (types_trans _ _ _ _ _ Hwait Hkey) as Ht. cbn [app] in Ht.
  unfold kbd_key in Ht.
  destruct (Z.land sc 128 =? 0); cbn [negb andb] in *;
    [|inversion Hrun; subst; exact Ht].
  destruct (Z.geb_spec sc 128) as [Hge|Hlt], (Z.ltb_spec sc 128) as [Hlt'|Hge'];
    try lia; [inversion Hrun; subst; exact Ht|].
  cbv zeta in *. destruct (nth (Z.to_nat sc) X86.sc_azerty 0 =? 0);
    cbn [negb] in Hrun; inversion Hrun; subst; exact Ht.
Qed.

(** [keyboard_getchar] returns the first mapped character typed. *)
Lemma keyboard_getchar_types fuel m c m' :
  X86.keyboard_getchar fuel m = Some (c, m') -> types m m' [c].
Proof.
  unfold X86.keyboard_getchar. intros Hrun.
  apply (fun Hb HI => iter_inv (fun (_ : unit) s => types m s [])
                        (fun c s => types m s [c]) _ Hb fuel tt m c m' HI Hrun).
  - intros [] s r s' HI Hbody. apply getchar_body_types in Hbody.
    pose proof (types_trans _ _ _ _ _ HI Hbody) as Ht.
    destruct r as [[]|c']; exact Ht.
  - apply types_refl.
Qed.

Lemma log_moved c m : log (moved c m) = log m.
Proof.
  unfold moved.
  destruct (c =? 10); [reflexivity|].
  destruct (c =? 13); [reflexivity|].
  destruct (c =? 8).
  - destruct (X86.col m >? 0); reflexivity.
  - cbv zeta.
    destruct (X86.col (X86.set_col (X86.col (X86.poke
                (X86.row m * X86.VGA_WIDTH + X86.col m)
                (X86.vga_entry c (X86.color m)) m) + 1)
                (X86.poke (X86.row m * X86.VGA_WIDTH + X86.col m)
                   (X86.vga_entry c (X86.color m)) m)) >=? X86.VGA_WIDTH);
      reflexivity.
Qed.

(** Drawing a character reads nothing from the keyboard. *)
Lemma vga_putchar_types c m : types m (X86.vga_putchar c m) [].
Proof.
  rewrite vga_putchar_moved.
  set (m2 := if X86.row (moved c m) >=? X86.VGA_HEIGHT
             then X86.vga_scroll (moved c m) else moved c m).
  assert (L2 : log m2 = log m).
  { unfold m2. destruct (X86.row (moved c m) >=? X86.VGA_HEIGHT).
    - destruct (vga_scroll_spec (moved c m)) as (_ & _ & _ & _ & L & _).
      rewrite L. apply log_moved.
    - apply log_moved. }
  clearbody m2.
  destruct (hw_log_update_cursor m2) as (a & b & L).
  eexists. rewrite L, L2. split; reflexivity.
Qed.

End KeyboardFacts.

(** ** keyboard.c and keyboard_rpi3.c: reading a line *)

Lemma pc_edit_snoc max keys c :
  pc_edit max (keys ++ [c]) = pc_edit_key max (pc_edit max keys) c.
Proof. unfold pc_edit. rewrite fold_left_app. reflexivity. Qed.



Lemma not_in_snoc (x c : Z) keys : ~ In x keys -> c <> x -> ~ In x (keys ++ [c]).
Proof.
  intros Hn Hc Hin. apply in_app_or in Hin. destruct Hin as [Hin|[Heq|[]]]; auto.
Qed.

Section ReadlineFacts.
Context {HW : Type} `{Hardware HW}.

(** [keyboard_readline] on the PC: the buffer holds the line that the
    keys typed before the newline edit to. *)
Lemma pc_readline_spec fuel buf max (m m' : machine HW X86.vga_state) buf' len :
  X86.keyboard_readline fuel buf max m = Some ((buf', len), m') ->
  exists keys, types m m' (keys ++ [10]) /\ ~ In 10 keys /\
               stored_line buf' len (pc_edit max keys).
Proof.
  unfold X86.keyboard_readline. intros Hrun.
  pose (I := fun (st : (Z -> Z) * Z) (s : machine HW X86.vga_state) =>
    exists keys, types m s keys /\ ~ In 10 keys /\
                 holds_line (fst st) (snd st) (pc_edit max keys)).
  pose (Q := fun (r : (Z -> Z) * Z) (s : machine HW X86.vga_state) =>
    exists keys, types m s (keys ++ [10]) /\ ~ In 10 keys /\
                 stored_line (fst r) (snd r) (pc_edit max keys)).
  apply (fun Hb HI => iter_inv I Q _ Hb fuel (buf, 0) m (buf', len) m' HI Hrun).
  - intros [b l] s r s' (keys & Ht & Hn & Hh) Hbody. cbn [fst snd] in Hh.
    unfold X86.readline_body in Hbody.
    apply bind_Some in Hbody. destruct Hbody as (c & s1 & Hget & Hbody).
    apply keyboard_getchar_types in Hget.
    pose proof (types_trans _ _ _ _ _ Ht Hget) as Ht1.
    assert (Hput : forall x, types m (X86.vga_putchar x s1) (keys ++ [c])).
    { intros x. rewrite <- (app_nil_r (keys ++ [c])).
      exact (types_trans _ _ _ _ _ Ht1 (vga_putchar_types x s1)). }
    destruct (Z.eqb_spec c 10) as [Hc10|Hc10].
    + cbv [bind lift ret] in Hbody. inversion Hbody; subst r s' c.
      exists keys. split; [apply Hput|]. split; [exact Hn|].
      cbn [fst snd]. apply holds_line_terminate. exact Hh.
    + assert (Hn1 : ~ In 10 (keys ++ [c])) by (apply not_in_snoc; assumption).
      destruct (Z.eqb_spec c 8) as [Hc8|Hc8].
      * destruct (Z.gtb_spec l 0) as [Hpos|Hle];
          cbv [bind lift ret] in Hbody; inversion Hbody; subst r s'.
        -- exists (keys ++ [c]). split; [apply Hput|]. split; [exact Hn1|].
           rewrite pc_edit_snoc. unfold pc_edit_key.
           destruct (Z.eqb_spec c 8); [|contradiction].
           cbn [fst snd]. replace (l - 1) with (Z.max 0 (l - 1)) by lia.
           apply holds_line_pop. exact Hh.
        -- exists (keys ++ [c]). split; [exact Ht1|]. split; [exact Hn1|].
           rewrite pc_edit_snoc. unfold pc_edit_key.
           destruct (Z.eqb_spec c 8); [|contradiction].
           pose proof (holds_line_empty _ _ _ Hh Hle) as He.
           rewrite He in *. exact Hh.
      * assert (Hlen : l = Z.of_nat (length (pc_edit max keys))) by apply Hh.
        destruct (Z.ltb_spec l (max - 1)) as [Hroom|Hfull];
          cbv [bind lift ret] in Hbody; inversion Hbody; subst r s'.
        -- exists (keys ++ [c]). split; [apply Hput|]. split; [exact Hn1|].
           rewrite pc_edit_snoc. unfold pc_edit_key.
           destruct (Z.eqb_spec c 8); [contradiction|].
           destruct (Z.ltb_spec (Z.of_nat (length (pc_edit max keys))) (max - 1)); [|lia].
           cbn [fst snd]. apply holds_line_push. exact Hh.
        -- exists (keys ++ [c]). split; [exact Ht1|]. split; [exact Hn1|].
           rewrite pc_edit_snoc. unfold pc_edit_key.
           destruct (Z.eqb_spec c 8); [contradiction|].
           destruct (Z.ltb_spec (Z.of_nat (length (pc_edit max keys))) (max - 1)); [lia|].
           exact Hh.
  - exists []. split; [apply types_refl|]. split; [intros []|].
    split; [reflexivity|]. intros i Hi. simpl in Hi. lia.
Qed.

(** [keyboard_getchar] on the serial port returns the low byte of the
    value it loads from the data register, whatever that byte is. *)
Lemma pi_getchar_spec fuel (p p' : machine HW unit) c :
  Rpi3.keyboard_getchar fuel p = Some (c, p') ->
  exists polls dr, Forall status_poll polls /\
    log p' = log p ++ polls ++ [EvIn Rpi3.UART_DR dr] /\
    c = dr mod 256 /\ 0 <= c < 256.
Proof.
  unfold Rpi3.keyboard_getchar. intros Hrun.
  apply bind_Some in Hrun. destruct Hrun as ([] & p1 & Hpoll & Hrun).
  destruct (poll_loop_spec _ _ _ _ Hpoll) as (polls & Hpolls & L1).
  destruct (mmio_load_spec Rpi3.UART_DR p1) as (dr & p2 & E & Hdr & L2).
  rewrite (bind_eq _ _ _ _ _ E) in Hrun. inversion Hrun; subst c p2.
  exists polls, dr. split; [exact Hpolls|]. split.
  - rewrite L2, L1, <- app_assoc. reflexivity.
  - change 0xFF with (Z.ones 8). rewrite Z.land_ones by lia. change (2 ^ 8) with 256.
    pose proof (Z.mod_pos_bound dr 256 ltac:(lia)).
    rewrite u8_small by lia. split; [reflexivity|lia].
Qed.



End ReadlineFacts.










(** C10: on the serial variant [keyboard_getchar] returns the low byte
    of what it loads from the data register, whatever its value; the loop
    of [keyboard_readline] then drops every control byte below 32 other
    than carriage return, line feed and backspace: buffer and length stay
    as they were and nothing is sent to the terminal, the machine being
    left as [keyboard_getchar] left it.  A turn that stores a character
    does so only for a byte of 32 or more, which it also echoes. *)
Theorem serial_readline_drops_control_bytes {HW : Type} `{Hardware HW}
    (fuel : nat) (max : Z) (buf : Z -> Z) (len c : Z) (p p1 : machine HW unit) :
  Rpi3.keyboard_getchar fuel p = Some (c, p1) ->
  (exists polls dr, Forall status_poll polls /\
     log p1 = log p ++ polls ++ [EvIn Rpi3.UART_DR dr] /\ c = dr mod 256)
  /\
  (c < 32 -> c <> 13 -> c <> 10 -> c <> 8 ->
   Rpi3.readline_body fuel max (buf, len) p = Some (inl (buf, len), p1))
  /\
  (forall buf' p', Rpi3.readline_body fuel max (buf, len) p = Some (inl (buf', len + 1), p') ->
     32 <= c /\ c <> 127 /\ len < max - 1 /\ buf' = upd buf len c /\ transmits p1 p' [c]).
Proof.
  intros Hget.
  destruct (pi_getchar_spec _ _ _ _ Hget) as (polls & dr & Hpolls & L & Hc & Hr).
  split; [exists polls, dr; auto|]. split.
  - intros Hlt H13 H10 H8. unfold Rpi3.readline_body.
    rewrite (bind_eq _ _ _ _ _ Hget).
    destruct (Z.eqb_spec c 13); [contradiction|].
    destruct (Z.eqb_spec c 10); [contradiction|].
    destruct (Z.eqb_spec c 8); [contradiction|].
    destruct (Z.eqb_spec c 127); [lia|].
    destruct (Z.geb_spec c 32); [lia|]. reflexivity.
  - intros buf' p' Hbody. unfold Rpi3.readline_body in Hbody.
    rewrite (bind_eq _ _ _ _ _ Hget) in Hbody.
    destruct ((c =? 13) || (c =? 10)).
    { apply bind_Some in Hbody. destruct Hbody as ([] & s2 & _ & Hbody).
      discriminate Hbody. }
    destruct (Z.eqb_spec c 8) as [H8|H8]; cbn [orb] in Hbody.
    { destruct (len >? 0).
      - apply bind_Some in Hbody. destruct Hbody as ([] & s2 & _ & Hbody).
        apply bind_Some in Hbody. destruct Hbody as ([] & s3 & _ & Hbody).
        apply bind_Some in Hbody. destruct Hbody as ([] & s4 & _ & Hbody).
        inversion Hbody. lia.
      - inversion Hbody. lia. }
    destruct (Z.eqb_spec c 127) as [H127|H127].
    { destruct (len >? 0).
      - apply bind_Some in Hbody. destruct Hbody as ([] & s2 & _ & Hbody).
        apply bind_Some in Hbody. destruct Hbody as ([] & s3 & _ & Hbody).
        apply bind_Some in Hbody. destruct Hbody as ([] & s4 & _ & Hbody).
        inversion Hbody. lia.
      - inversion Hbody. lia. }
    destruct (Z.geb_spec c 32) as [Hge|Hlt], (Z.ltb_spec len (max - 1)) as [Hroom|Hfull];
      cbn [andb] in Hbody; try (inversion Hbody; lia).
    apply bind_Some in Hbody. destruct Hbody as ([] & s2 & Hput & Hbody).
    inversion Hbody; subst s2.
    apply pi_putchar_transmits in Hput.
    destruct (Z.eqb_spec c 10) as [H10|H10].
    + subst c. lia.
    + rewrite u8_small in Hput by lia. repeat split; try lia. exact Hput.
Qed.

(** The bell character, 7, on the simulated serial port. *)
Lemma serial_readline_drops_control_bytes_witness :
  let p : machine sim_uart unit := Machine (SimUart [7]) [] tt in
  exists p1,
    Rpi3.keyboard_getchar 1 p = Some (7, p1) /\
    Rpi3.readline_body 1 16 (fun _ => 0, 0) p = Some (inl (fun _ => 0, 0), p1).
Proof.
  intros p.
  destruct (Rpi3.keyboard_getchar 1 p) as [[c p1]|] eqn:E;
    [|vm_compute in E; discriminate].
  assert (Hc : c = 7) by (vm_compute in E; inversion E; reflexivity).
  subst c. exists p1. split; [reflexivity|].
  destruct (serial_readline_drops_control_bytes 1 16 (fun _ => 0) 0 7 p p1 E)
    as (_ & Hdrop & _).
  apply Hdrop; lia.
Defined.

(** * Further properties of the drivers *)

(** ** Printing numbers *)

Lemma decimal_value_snoc l d :
  decimal_value (l ++ [d]) = 10 * decimal_value l + (d - 48).
Proof. unfold decimal_value. rewrite fold_left_app. reflexivity. Qed.

Lemma digits_rev_zero k : digits_rev k 0 = [].
Proof. destruct k; reflexivity. Qed.

Lemma digits_rev_value k : forall n,
  0 <= n < 10 ^ Z.of_nat k ->
  decimal_value (rev (digits_rev k n)) = n /\ Forall is_digit (digits_rev k n) /\
  (length (digits_rev k n) <= k)%nat.
Proof.
  induction k as [|k IH]; intros n Hn.
  - assert (n = 0) by (simpl in Hn; lia). subst n.
    repeat split; constructor.
  - cbn [digits_rev]. destruct (Z.gtb_spec n 0) as [Hpos|Hle].
    + rewrite Nat2Z.inj_succ, Z.pow_succ_r in Hn by lia.
      assert (Hq : 0 <= n / 10 < 10 ^ Z.of_nat k).
      { split; [apply Z.div_pos; lia|]. apply Z.div_lt_upper_bound; lia. }
      destruct (IH (n / 10) Hq) as (Hv & Hd & Hl).
      pose proof (Z.mod_pos_bound n 10 ltac:(lia)) as Hm.
      split; [|split].
      * cbn [rev]. rewrite decimal_value_snoc, Hv.
        pose proof (Z.div_mod n 10 ltac:(lia)). lia.
      * constructor; [unfold is_digit; lia|exact Hd].
      * simpl. lia.
    + assert (n = 0) by lia. subst n. repeat split; [constructor|simpl; lia].
Qed.

Lemma digits_rev_last k : forall n,
  0 < n < 10 ^ Z.of_nat k -> last (digits_rev k n) 0 <> 48.
Proof.
  induction k as [|k IH]; intros n Hn.
  - simpl in Hn. lia.
  - cbn [digits_rev]. destruct (Z.gtb_spec n 0) as [_|Hle]; [|lia].
    rewrite last_cons.
    rewrite Nat2Z.inj_succ, Z.pow_succ_r in Hn by lia.
    destruct (Z.eq_dec (n / 10) 0) as [Hz|Hnz].
    + rewrite Hz, digits_rev_zero. cbn [last].
      pose proof (Z.div_mod n 10 ltac:(lia)).
      pose proof (Z.mod_pos_bound n 10 ltac:(lia)). lia.
    + assert (Hq : 0 < n / 10 < 10 ^ Z.of_nat k).
      { split.
        - pose proof (Z.div_pos n 10 ltac:(lia) ltac:(lia)). lia.
        - apply Z.div_lt_upper_bound; lia. }
      specialize (IH (n / 10) Hq).
      destruct (digits_rev k (n / 10)) as [|d l] eqn:E;
        [|rewrite last_cons in IH; rewrite last_cons; exact IH].
      exfalso. destruct k; [simpl in Hq; lia|].
      cbn [digits_rev] in E. destruct (Z.gtb_spec (n / 10) 0); [discriminate|lia].
Qed.

Lemma hd_rev_last (l : list Z) d : hd d (rev l) = last l d.
Proof.
  induction l as [|x l IH] using rev_ind; [reflexivity|].
  rewrite rev_app_distr, last_last. reflexivity.
Qed.

(** [decimal n] is made of digits, has the value [n], at most ten digits
    and no leading zero. *)
Lemma decimal_spec n :
  0 <= n < 4294967296 ->
  Forall is_digit (decimal n) /\ decimal_value (decimal n) = n /\
  (1 <= length (decimal n) <= 10)%nat /\ (n <> 0 -> hd 0 (decimal n) <> 48).
Proof.
  intros Hn. unfold decimal. destruct (Z.eqb_spec n 0) as [->|Hnz].
  - split; [repeat constructor; unfold is_digit; lia|].
    split; [reflexivity|]. split; [simpl; lia|]. intros Hc. contradiction.
  - assert (Hr : 0 <= n < 10 ^ Z.of_nat 10).
    { change (10 ^ Z.of_nat 10) with 10000000000. lia. }
    destruct (digits_rev_value 10 n Hr) as (Hv & Hd & Hl).
    split; [apply Forall_rev; exact Hd|]. split; [exact Hv|]. split.
    + rewrite length_rev. split; [|exact Hl].
      cbn [digits_rev]. destruct (Z.gtb_spec n 0); [simpl; lia|lia].
    + intros _. rewrite hd_rev_last. apply digits_rev_last.
      change (10 ^ Z.of_nat 10) with 10000000000. lia.
Qed.

Lemma map_u8_digits l : Forall is_digit l -> map u8 l = l.
Proof.
  induction 1 as [|x l Hx _ IH]; [reflexivity|].
  unfold is_digit in Hx. cbn [map]. rewrite IH, (u8_small x) by lia. reflexivity.
Qed.

(** The digit loop writes the digits of [n] from index [i] on and leaves
    the cells below [i] alone. *)
Lemma digits_loop_spec k : forall n buf i,
  let r := X86.digits_loop k n buf i in
  snd r = i + Z.of_nat (length (digits_rev k n)) /\
  (forall j, (j < length (digits_rev k n))%nat ->
     fst r (i + Z.of_nat j) = u8 (nth j (digits_rev k n) 0)) /\
  (forall x, x < i -> fst r x = buf x).
Proof.
  induction k as [|k IH]; intros n buf i; cbv zeta.
  - simpl. split; [lia|]. split; [intros j Hj; lia|reflexivity].
  - cbn [X86.digits_loop digits_rev]. destruct (n >? 0).
    + destruct (IH (n / 10) (upd buf i (u8 (48 + n mod 10))) (i + 1))
        as (Hs & Hc & Hf).
      split; [rewrite Hs; simpl length; lia|]. split.
      * intros [|j] Hj.
        -- rewrite Z.add_0_r, Hf by lia. unfold upd. rewrite Z.eqb_refl. reflexivity.
        -- simpl in Hj. cbn [nth]. rewrite <- Hc by lia. f_equal. lia.
      * intros x Hx. rewrite Hf by lia. unfold upd.
        destruct (Z.eqb_spec x i); [lia|reflexivity].
    + simpl. split; [lia|]. split; [intros j Hj; lia|reflexivity].
Qed.

Lemma pi_digits_loop_same k : forall n buf i,
  Rpi3.digits_loop k n buf i = X86.digits_loop k n buf i.
Proof.
  induction k as [|k IH]; intros n buf i; [reflexivity|].
  cbn [Rpi3.digits_loop X86.digits_loop]. destruct (n >? 0); [apply IH|reflexivity].
Qed.

(** Reading a buffer that holds [l] from its last cell down to its first
    gives [l] reversed. *)
Lemma read_backwards (buf : Z -> Z) (l : list Z) :
  (forall j, (j < length l)%nat -> buf (Z.of_nat j) = nth j l 0) ->
  map (fun k => buf (Z.of_nat (length l) - 1 - Z.of_nat k)) (seq 0 (length l)) = rev l.
Proof.
  induction l as [|x l IH] using rev_ind; intros Hbuf; [reflexivity|].
  rewrite rev_app_distr, length_app. cbn [length Nat.add app rev].
  replace (length l + 1)%nat with (S (length l)) by lia.
  cbn [seq map]. f_equal.
  - replace (Z.of_nat (S (length l)) - 1 - Z.of_nat 0) with (Z.of_nat (length l)) by lia.
    rewrite Hbuf by (rewrite length_app; simpl; lia).
    apply nth_middle.
  - rewrite <- seq_shift, map_map. rewrite <- IH.
    + apply map_ext. intros k. f_equal. lia.
    + intros j Hj. rewrite Hbuf by (rewrite length_app; simpl; lia).
      apply app_nth1. exact Hj.
Qed.

Section PrintIntFacts.
Context {HW : Type} `{Hardware HW}.

Lemma for_range_put_chars (n : nat) (f : Z -> Z) (m : machine HW X86.vga_state) :
  X86.for_range n (fun k m => X86.vga_putchar (f k) m) m =
  put_chars (map (fun k => f (Z.of_nat k)) (seq 0 n)) m.
Proof.
  induction n as [|n IH].
  - rewrite for_range_0. reflexivity.
  - rewrite for_range_S, IH, seq_S, map_app, put_chars_app.
    cbn [map Nat.add]. rewrite put_chars_cons, put_chars_nil. reflexivity.
Qed.

Lemma put_digits_transmits fuel buf (k : nat) : forall (p p' : machine HW unit),
  Rpi3.put_digits fuel buf k p = Some (tt, p') ->
  transmits p p' (map (fun j => u8 (buf (Z.of_nat k - 1 - Z.of_nat j))) (seq 0 k)).
Proof.
  induction k as [|k IH]; intros p p' Hrun.
  - inversion Hrun; subst. apply transmits_nil.
  - cbn [Rpi3.put_digits] in Hrun.
    apply bind_Some in Hrun. destruct Hrun as ([] & p1 & H1 & H2).
    apply uart_putchar_transmits in H1. apply IH in H2.
    pose proof (transmits_trans _ _ _ _ _ H1 H2) as Ht.
    cbn [seq map]. rewrite <- seq_shift, map_map.
    replace (Z.of_nat (S k) - 1 - Z.of_nat 0) with (Z.of_nat k) by lia.
    erewrite (map_ext (fun x => u8 (buf (Z.of_nat (S k) - 1 - Z.of_nat (S x)))));
      [exact Ht|].
    intros j. cbv beta. f_equal. f_equal. lia.
Qed.

Lemma put_digits_returns fuel buf (k : nat) : forall (p : machine HW unit),
  tx_always_ready HW ->
  exists p', Rpi3.put_digits (S fuel) buf k p = Some (tt, p').
Proof.
  induction k as [|k IH]; intros p Hready; [eexists; reflexivity|].
  cbn [Rpi3.put_digits].
  destruct (uart_putchar_returns fuel (buf (Z.of_nat k)) p Hready) as (p1 & E1).
  destruct (IH p1 Hready) as (p2 & E2).
  exists p2. rewrite (bind_eq _ _ _ _ _ E1). exact E2.
Qed.

Lemma pi_print_int_returns fuel n (p : machine HW unit) :
  tx_always_ready HW ->
  exists p', Rpi3.vga_print_int (S fuel) n p = Some (tt, p').
Proof.
  intros Hready. unfold Rpi3.vga_print_int.
  destruct (u32 n =? 0); [apply uart_putchar_returns; exact Hready|].
  destruct (Rpi3.digits_loop 10 (u32 n) (fun _ => 0) 0) as [buf i].
  apply put_digits_returns. exact Hready.
Qed.

End PrintIntFacts.

(** The digits in the buffer, read from the last one down, are
    [decimal n]. *)
Lemma digits_buffer_decimal n buf i :
  0 < n < 4294967296 ->
  X86.digits_loop 10 n (fun _ => 0) 0 = (buf, i) ->
  0 <= i /\
  map (fun k => buf (i - 1 - Z.of_nat k)) (seq 0 (Z.to_nat i)) = decimal n.
Proof.
  intros Hn E.
  destruct (digits_loop_spec 10 n (fun _ => 0) 0) as (Hs & Hc & _).
  rewrite E in Hs, Hc. cbn [fst snd] in Hs, Hc.
  assert (Hr : 0 <= n < 10 ^ Z.of_nat 10).
  { change (10 ^ Z.of_nat 10) with 10000000000. lia. }
  destruct (digits_rev_value 10 n Hr) as (_ & Hd & _).
  split; [lia|].
  unfold decimal. destruct (Z.eqb_spec n 0); [lia|].
  rewrite Hs, Z.add_0_l, Nat2Z.id.
  apply read_backwards. intros j Hj.
  specialize (Hc j Hj). rewrite Z.add_0_l in Hc. rewrite Hc.
  apply u8_small.
  rewrite Forall_forall in Hd. specialize (Hd (nth j (digits_rev 10 n) 0)).
  unfold is_digit in Hd. pose proof (Hd (nth_In _ _ Hj)). lia.
Qed.

(** X1: [vga_print_int n], on the framebuffer and on the serial console,
    writes the decimal representation of the 32-bit number [n]: between
    one and ten ASCII digits whose decimal value is [n], most significant
    first, without a leading zero, and the single digit 0 for zero.  On
    the serial console the call returns when the transmitter is never
    full. *)
Theorem vga_print_int_decimal {HW : Type} `{Hardware HW}
    (fuel : nat) (n : Z) (m : machine HW X86.vga_state) (p : machine HW unit) :
  0 <= n < 4294967296 ->
  X86.vga_print_int n m = put_chars (decimal n) m /\
  (forall p', Rpi3.vga_print_int fuel n p = Some (tt, p') ->
     transmits p p' (decimal n)) /\
  (tx_always_ready HW -> exists p', Rpi3.vga_print_int (S fuel) n p = Some (tt, p')) /\
  Forall is_digit (decimal n) /\
  decimal_value (decimal n) = n /\
  (1 <= length (decimal n) <= 10)%nat /\
  (n <> 0 -> hd 0 (decimal n) <> 48).
Proof.
  intros Hn.
  split; [|split; [|split; [apply pi_print_int_returns|apply decimal_spec; exact Hn]]].
  - unfold X86.vga_print_int. rewrite u32_small by lia.
    destruct (Z.eqb_spec n 0) as [->|Hnz].
    + change (decimal 0) with [48]. rewrite put_chars_cons, put_chars_nil. reflexivity.
    + destruct (X86.digits_loop 10 n (fun _ => 0) 0) as [buf i] eqn:E.
      destruct (digits_buffer_decimal n buf i ltac:(lia) E) as (Hi & Hd).
      rewrite (for_range_put_chars _ (fun k => buf (i - 1 - k))), Hd. reflexivity.
  - intros p' Hrun. unfold Rpi3.vga_print_int in Hrun. rewrite u32_small in Hrun by lia.
    destruct (Z.eqb_spec n 0) as [->|Hnz].
    + apply uart_putchar_transmits in Hrun. exact Hrun.
    + rewrite pi_digits_loop_same in Hrun.
      destruct (X86.digits_loop 10 n (fun _ => 0) 0) as [buf i] eqn:E.
      destruct (digits_buffer_decimal n buf i ltac:(lia) E) as (Hi & Hd).
      apply put_digits_transmits in Hrun. rewrite Z2Nat.id in Hrun by lia.
      assert (Hu : map u8 (decimal n) = decimal n).
      { apply map_u8_digits. apply decimal_spec. exact Hn. }
      rewrite <- Hu, <- Hd, map_map. exact Hrun.
Qed.

(** The number 4096 on the simulated devices. *)
Lemma vga_print_int_decimal_witness :
  let m : machine sim_pc X86.vga_state := Machine (sim_pc_boot 0 1 0 []) [] blank_screen in
  let p : machine sim_pc unit := Machine (sim_pc_boot 0 1 0 []) [] tt in
  exists p',
    Rpi3.vga_print_int 1 4096 p = Some (tt, p') /\
    X86.vga_print_int 4096 m = put_chars (decimal 4096) m /\
    decimal 4096 = [52; 48; 57; 54] /\
    transmits p p' (decimal 4096).
Proof.
  intros m p.
  destruct (Rpi3.vga_print_int 1 4096 p) as [[[] p']|] eqn:E;
    [|vm_compute in E; discriminate].
  destruct (vga_print_int_decimal 1 4096 m p ltac:(lia)) as (Hpc & Htx & _).
  exists p'. split; [reflexivity|]. split; [exact Hpc|]. split; [reflexivity|].
  exact (Htx p' E).
Defined.

(** ** The framebuffer console: cursor, control characters, clearing *)

Lemma crtc_cursor_programmed evs lo hi :
  crtc_cursor (evs ++ [EvOut 0x3D4 0x0F; EvOut 0x3D5 lo; EvOut 0x3D4 0x0E; EvOut 0x3D5 hi])
  = hi * 256 + lo.
Proof.
  unfold crtc_cursor. rewrite fold_left_app.
  destruct (fold_left crtc_step evs (0, fun _ => 0)) as [i regs].
  reflexivity.
Qed.

Lemma cursor_writes_crtc lo hi :
  Forall crtc_write [EvOut 0x3D4 0x0F; EvOut 0x3D5 lo; EvOut 0x3D4 0x0E; EvOut 0x3D5 hi].
Proof. repeat (constructor; [simpl; lia|]). constructor. Qed.

Lemma position_bytes p :
  0 <= p < 65536 ->
  u8 (u8 (Z.shiftr (u16 p) 8)) * 256 + u8 (u8 (Z.land (u16 p) 0xFF)) = p.
Proof.
  intros Hp. rewrite (u16_small p) by lia.
  change 0xFF with (Z.ones 8). rewrite Z.land_ones, Z.shiftr_div_pow2 by lia.
  change (2 ^ 8) with 256.
  pose proof (Z.mod_pos_bound p 256 ltac:(lia)).
  assert (0 <= p / 256 < 256).
  { split; [apply Z.div_pos; lia|apply Z.div_lt_upper_bound; lia]. }
  rewrite !(u8_small (p / 256)), !(u8_small (p mod 256)) by lia.
  pose proof (Z.div_mod p 256 ltac:(lia)). lia.
Qed.

Section ConsoleFacts.
Context {HW : Type} `{Hardware HW}.
Implicit Types m : machine HW X86.vga_state.

(** What [vga_putchar] adds to the port log: the four writes that
    program the new cursor position. *)
Lemma vga_putchar_log c m :
  cursor_valid m ->
  exists lo hi,
    log (X86.vga_putchar c m) =
      log m ++ [EvOut 0x3D4 0x0F; EvOut 0x3D5 lo; EvOut 0x3D4 0x0E; EvOut 0x3D5 hi] /\
    hi * 256 + lo = pos (X86.vga_putchar c m).
Proof.
  intros Hv. destruct (vga_putchar_valid c m Hv) as (Hv' & _).
  unfold cursor_valid, pos in *. revert Hv'.
  rewrite vga_putchar_moved.
  set (m2 := if X86.row (moved c m) >=? X86.VGA_HEIGHT
             then X86.vga_scroll (moved c m) else moved c m).
  assert (L2 : log m2 = log m).
  { unfold m2. destruct (X86.row (moved c m) >=? X86.VGA_HEIGHT).
    - destruct (vga_scroll_spec (moved c m)) as (_ & _ & _ & _ & L & _).
      rewrite L. apply log_moved.
    - apply log_moved. }
  clearbody m2.
  rewrite row_update_cursor, col_update_cursor, log_update_cursor, L2.
  intros Hv'. eexists _, _. split; [reflexivity|].
  apply position_bytes. unfold X86.VGA_WIDTH, X86.VGA_HEIGHT in *. lia.
Qed.

Lemma put_chars_cursor s : forall m,
  cursor_valid m -> s <> [] ->
  cursor_valid (put_chars s m) /\
  X86.color (put_chars s m) = X86.color m /\
  crtc_cursor (log (put_chars s m)) = pos (put_chars s m) /\
  exists evs, log (put_chars s m) = log m ++ evs /\ Forall crtc_write evs /\
              length evs = (4 * length s)%nat.
Proof.
  induction s as [|c s IH]; intros m Hv Hne; [contradiction|].
  rewrite put_chars_cons.
  destruct (vga_putchar_valid c m Hv) as (Hv1 & Hc1).
  destruct (vga_putchar_log c m Hv) as (lo & hi & L1 & Hpos).
  destruct s as [|c' s'].
  - rewrite put_chars_nil. split; [exact Hv1|]. split; [exact Hc1|]. split.
    + rewrite L1, crtc_cursor_programmed. exact Hpos.
    + eexists. split; [exact L1|]. split; [|reflexivity].
      apply cursor_writes_crtc.
  - destruct (IH (X86.vga_putchar c m) Hv1 ltac:(discriminate))
      as (Hv2 & Hc2 & Hcur & evs & L2 & Hevs & Hlen).
    split; [exact Hv2|]. split; [congruence|]. split; [exact Hcur|].
    eexists. rewrite L2, L1, <- app_assoc. split; [reflexivity|]. split.
    + apply Forall_app. split; [|exact Hevs]. apply cursor_writes_crtc.
    + rewrite length_app, Hlen. simpl length. lia.
Qed.

(** The cursor movement of a backspace. *)
Lemma moved_backspace m :
  let m1 := moved 8 m in
  X86.row m1 = X86.row m /\ X86.color m1 = X86.color m /\
  X86.col m1 = (if X86.col m >? 0 then X86.col m - 1 else X86.col m) /\
  forall j, X86.cell m1 j =
            if (X86.col m >? 0) && (j =? X86.row m * 80 + (X86.col m - 1))
            then X86.vga_entry 32 (X86.color m) else X86.cell m j.
Proof.
  cbv zeta. unfold moved.
  change (8 =? 10) with false. change (8 =? 13) with false.
  change (8 =? 8) with true. cbv iota.
  destruct (X86.col m >? 0); vga_unfold; unfold upd; repeat split.
Qed.

Lemma moved_return m :
  let m1 := moved 13 m in
  X86.row m1 = X86.row m /\ X86.color m1 = X86.color m /\ X86.col m1 = 0 /\
  forall j, X86.cell m1 j = X86.cell m j.
Proof. repeat split. Qed.

Lemma vga_clear_log m :
  log (X86.vga_clear m) =
  log m ++ [EvOut 0x3D4 0x0F; EvOut 0x3D5 0; EvOut 0x3D4 0x0E; EvOut 0x3D5 0].
Proof.
  rewrite vga_clear_eq.
  rewrite (for_range_ext (Z.to_nat (X86.VGA_WIDTH * X86.VGA_HEIGHT))
    (fun i m => X86.poke i (X86.vga_entry 32 (X86.color m)) m)
    (fun i m => X86.poke (0 + i) (X86.vga_entry 32 (X86.color m)) m) m
    (fun i s => eq_refl)).
  destruct (blank_loop_spec (Z.to_nat (X86.VGA_WIDTH * X86.VGA_HEIGHT)) 0 m)
    as (_ & _ & Hlog & _).
  set (m1 := X86.for_range _ _ m) in *. clearbody m1.
  rewrite log_update_cursor, row_set_col, col_set_col, row_set_row.
  rewrite log_set_col, log_set_row, Hlog. reflexivity.
Qed.

Lemma vga_clear_full m :
  X86.row (X86.vga_clear m) = 0 /\ X86.col (X86.vga_clear m) = 0 /\
  X86.color (X86.vga_clear m) = X86.color m /\
  (forall j, 0 <= j < 2000 ->
     X86.cell (X86.vga_clear m) j = X86.vga_entry 32 (X86.color m)) /\
  (forall j, ~ 0 <= j < 2000 -> X86.cell (X86.vga_clear m) j = X86.cell m j) /\
  crtc_cursor (log (X86.vga_clear m)) = 0.
Proof.
  destruct (vga_clear_spec m) as (Hr & Hc & Ha & Hcell).
  split; [exact Hr|]. split; [exact Hc|]. split; [exact Ha|]. split; [|split].
  - intros j Hj. rewrite Hcell.
    destruct (Z.leb_spec 0 j), (Z.ltb_spec j 2000); try lia. reflexivity.
  - intros j Hj. rewrite Hcell.
    destruct (Z.leb_spec 0 j), (Z.ltb_spec j 2000); try lia; reflexivity.
  - rewrite vga_clear_log, crtc_cursor_programmed. reflexivity.
Qed.

Lemma vga_init_full m :
  X86.row (X86.vga_init m) = 0 /\ X86.col (X86.vga_init m) = 0 /\
  X86.color (X86.vga_init m) = 7 /\
  (forall j, 0 <= j < 2000 -> X86.cell (X86.vga_init m) j = 0x0720) /\
  (forall j, ~ 0 <= j < 2000 -> X86.cell (X86.vga_init m) j = X86.cell m j) /\
  crtc_cursor (log (X86.vga_init m)) = 0.
Proof.
  unfold X86.vga_init.
  destruct (vga_clear_full (X86.set_color 7 m)) as (Hr & Hc & Ha & Hin & Hout & Hcur).
  rewrite color_set_color in Ha, Hin.
  split; [exact Hr|]. split; [exact Hc|]. split; [exact Ha|].
  split; [|split; [|exact Hcur]].
  - intros j Hj. rewrite (Hin j Hj). reflexivity.
  - intros j Hj. rewrite (Hout j Hj). apply cell_set_color.
Qed.

Lemma vga_print_until_nul s : forall m,
  X86.vga_print s m = put_chars (until_nul s) m.
Proof.
  induction s as [|c s IH]; intros m; [reflexivity|].
  cbn [X86.vga_print until_nul]. destruct (c =? 0); [reflexivity|].
  rewrite put_chars_cons. apply IH.
Qed.

Lemma until_nul_app s t :
  Forall (fun c => c <> 0) s -> until_nul (s ++ t) = s ++ until_nul t.
Proof.
  induction 1 as [|c s Hc _ IH]; [reflexivity|].
  cbn [app until_nul]. destruct (Z.eqb_spec c 0); [contradiction|].
  rewrite IH. reflexivity.
Qed.

End ConsoleFacts.

(** X2: after any non-empty run of characters written with
    [vga_putchar] from a state whose cursor is on the screen, the cursor
    is still on the screen, the colour is unchanged, and the location
    held by the CRT controller (registers 0x0E and 0x0F) is the software
    cursor [row * 80 + col].  The run performs four port writes per
    character, all of them to the CRT controller. *)
Theorem hardware_cursor_follows {HW : Type} `{Hardware HW}
    (s : list Z) (m : machine HW X86.vga_state) :
  cursor_valid m -> s <> [] ->
  cursor_valid (put_chars s m) /\
  X86.color (put_chars s m) = X86.color m /\
  crtc_cursor (log (put_chars s m)) = pos (put_chars s m) /\
  exists evs, log (put_chars s m) = log m ++ evs /\ Forall crtc_write evs /\
              length evs = (4 * length s)%nat.
Proof. intros Hv Hne. apply put_chars_cursor; assumption. Qed.

(** The text "ok" and a newline on the blank screen. *)
Lemma hardware_cursor_follows_witness :
  let m : machine sim_pc X86.vga_state := Machine (sim_pc_boot 0 1 0 []) [] blank_screen in
  crtc_cursor (log (put_chars [111; 107; 10] m)) = pos (put_chars [111; 107; 10] m).
Proof.
  intros m.
  assert (Hv : cursor_valid m) by (unfold cursor_valid; vm_compute; intuition discriminate).
  exact (proj1 (proj2 (proj2
    (hardware_cursor_follows [111; 107; 10] m Hv ltac:(discriminate))))).
Defined.

(** X3: the two control characters that move the cursor inside its row.
    A backspace with the cursor past column 0 moves it one column to the
    left and blanks the cell it lands on; at column 0 it changes neither
    the cursor nor any cell, so it never goes back to the previous row.
    A carriage return puts the cursor in column 0 and changes no cell.
    Neither changes the row or the colour. *)
Theorem backspace_and_carriage_return {HW : Type} `{Hardware HW}
    (m : machine HW X86.vga_state) :
  cursor_valid m ->
  let b := X86.vga_putchar 8 m in
  let r := X86.vga_putchar 13 m in
  (X86.row b = X86.row m /\ X86.color b = X86.color m /\
   X86.col b = Z.max 0 (X86.col m - 1) /\
   forall j, X86.cell b j =
             if (0 <? X86.col m) && (j =? pos m - 1)
             then X86.vga_entry 32 (X86.color m) else X86.cell m j) /\
  (X86.row r = X86.row m /\ X86.color r = X86.color m /\ X86.col r = 0 /\
   forall j, X86.cell r j = X86.cell m j).
Proof.
  intros Hv. cbv zeta. unfold cursor_valid, X86.VGA_HEIGHT, X86.VGA_WIDTH in Hv.
  split.
  - destruct (moved_backspace m) as (Mr & Ma & Mc & Mcell).
    destruct (vga_putchar_scrolls 8 m) as (Pa & Pc & Prow).
    rewrite Mr in Prow.
    destruct (Z.geb_spec (X86.row m) 25) as [?|_]; [lia|].
    destruct Prow as (Pr & Pcell).
    split; [congruence|]. split; [congruence|]. split.
    + rewrite Pc, Mc. destruct (Z.gtb_spec (X86.col m) 0); lia.
    + intros j. rewrite Pcell, Mcell. unfold pos, X86.VGA_WIDTH.
      replace (X86.row m * 80 + X86.col m - 1) with (X86.row m * 80 + (X86.col m - 1))
        by lia.
      destruct (Z.gtb_spec (X86.col m) 0), (Z.ltb_spec 0 (X86.col m));
        try lia; reflexivity.
  - destruct (moved_return m) as (Mr & Ma & Mc & Mcell).
    destruct (vga_putchar_scrolls 13 m) as (Pa & Pc & Prow).
    rewrite Mr in Prow.
    destruct (Z.geb_spec (X86.row m) 25) as [?|_]; [lia|].
    destruct Prow as (Pr & Pcell).
    split; [congruence|]. split; [congruence|]. split; [congruence|].
    intros j. rewrite Pcell. apply Mcell.
Qed.

(** A backspace at the start of the second row. *)
Lemma backspace_and_carriage_return_witness :
  let m : machine sim_pc X86.vga_state :=
    Machine (sim_pc_boot 0 1 0 []) [] (X86.Vga 1 0 0x07 (fun _ => 0)) in
  X86.row (X86.vga_putchar 8 m) = 1 /\ X86.col (X86.vga_putchar 8 m) = 0.
Proof.
  intros m.
  assert (Hv : cursor_valid m) by (unfold cursor_valid; vm_compute; intuition discriminate).
  destruct (backspace_and_carriage_return m Hv) as ((Hr & _ & Hc & _) & _).
  split; [exact Hr|exact Hc].
Defined.

(** X4: [vga_clear] fills the 2000 cells of the screen with blanks in the
    current colour, leaves every other cell and the colour alone, puts
    the cursor at the origin and programs the CRT controller with
    location 0, whatever the state before.  [vga_init] does the same
    with the colour reset to light grey on black: every cell of the
    screen holds 0x0720. *)
Theorem vga_init_blank_screen {HW : Type} `{Hardware HW}
    (m : machine HW X86.vga_state) :
  (let c := X86.vga_clear m in
   X86.row c = 0 /\ X86.col c = 0 /\ X86.color c = X86.color m /\
   (forall j, 0 <= j < 2000 -> X86.cell c j = X86.vga_entry 32 (X86.color m)) /\
   (forall j, ~ 0 <= j < 2000 -> X86.cell c j = X86.cell m j) /\
   crtc_cursor (log c) = 0) /\
  (let i := X86.vga_init m in
   X86.row i = 0 /\ X86.col i = 0 /\ X86.color i = 7 /\
   (forall j, 0 <= j < 2000 -> X86.cell i j = 0x0720) /\
   (forall j, ~ 0 <= j < 2000 -> X86.cell i j = X86.cell m j) /\
   crtc_cursor (log i) = 0).
Proof.
  split; [exact (vga_clear_full m)|exact (vga_init_full m)].
Qed.

(** The last cell of the screen after [vga_init]. *)
Lemma vga_init_blank_screen_witness :
  let m : machine sim_pc X86.vga_state :=
    Machine (sim_pc_boot 0 1 0 []) [] (X86.Vga 3 5 0x1F (fun _ => 0x4141)) in
  X86.cell (X86.vga_init m) 1999 = 0x0720.
Proof.
  intros m.
  destruct (vga_init_blank_screen m) as (_ & _ & _ & _ & Hin & _).
  exact (Hin 1999 ltac:(lia)).
Defined.

(** X5: [vga_print] writes the characters of its argument up to the first
    NUL and nothing of what follows it; printing a text that contains no
    NUL in two pieces is the same as printing it at once.  While the
    text is free of control characters and ends before the last cell the
    characters land in consecutive cells in the current colour. *)
Theorem vga_print_stops_at_nul {HW : Type} `{Hardware HW}
    (s t : list Z) (m : machine HW X86.vga_state) :
  Forall (fun c => c <> 0) s ->
  X86.vga_print (s ++ 0 :: t) m = put_chars s m /\
  X86.vga_print (s ++ t) m = X86.vga_print t (X86.vga_print s m) /\
  (Forall printable s -> cursor_valid m -> pos m + Z.of_nat (length s) <= 1999 ->
   pos (X86.vga_print s m) = pos m + Z.of_nat (length s) /\
   forall k, (k < length s)%nat ->
     X86.cell (X86.vga_print s m) (pos m + Z.of_nat k) =
     X86.vga_entry (nth k s 0) (X86.color m)).
Proof.
  intros Hs.
  assert (Hu : until_nul s = s).
  { rewrite <- (app_nil_r s) at 1. rewrite (until_nul_app s [] Hs).
    apply app_nil_r. }
  split; [|split].
  - rewrite vga_print_until_nul, (until_nul_app s (0 :: t) Hs).
    cbn [until_nul Z.eqb]. rewrite app_nil_r. reflexivity.
  - rewrite !vga_print_until_nul, (until_nul_app s t Hs), put_chars_app, Hu.
    reflexivity.
  - intros Hp Hv Hlen. rewrite vga_print_until_nul, Hu.
    destruct (put_chars_spec s m Hp Hv Hlen) as (_ & Hpos & _ & Hcell).
    split; [exact Hpos|]. intros k Hk. rewrite Hcell.
    destruct (Z.leb_spec (pos m) (pos m + Z.of_nat k)),
             (Z.ltb_spec (pos m + Z.of_nat k) (pos m + Z.of_nat (length s)));
      try lia.
    cbn [andb]. replace (pos m + Z.of_nat k - pos m) with (Z.of_nat k) by lia.
    rewrite Nat2Z.id. reflexivity.
Qed.

(** The text "hi", a NUL and more on the blank screen. *)
Lemma vga_print_stops_at_nul_witness :
  let m : machine sim_pc X86.vga_state := Machine (sim_pc_boot 0 1 0 []) [] blank_screen in
  X86.vga_print ([104; 105] ++ 0 :: [33]) m = put_chars [104; 105] m.
Proof.
  intros m.
  assert (Hs : Forall (fun c => c <> 0) [104; 105]) by (repeat constructor; discriminate).
  exact (proj1 (vga_print_stops_at_nul [104; 105] [33] m Hs)).
Defined.

(** ** The visual bell *)



Lemma invert_cell_range e : 0 <= X86.invert_cell e < 65536.
Proof. unfold X86.invert_cell. apply u16_range. Qed.


Section FlashFacts.
Context {HW : Type} `{Hardware HW}.
Implicit Types m : machine HW X86.vga_state.



End FlashFacts.



(** ** Note names, the tone divisor and short delays *)

(** The string comparison of sound.c and shell.c compares the two
    arguments as C strings. *)
Lemma str_eq_sound_until_nul a : forall b,
  Sound.str_eq_sound a b = true <-> until_nul a = until_nul b.
Proof.
  induction a as [|x a IH]; intros [|y b]; cbn [Sound.str_eq_sound until_nul deref].
  - split; reflexivity.
  - destruct (Z.eqb_spec 0 y) as [<-|Hy]; [split; reflexivity|].
    destruct (Z.eqb_spec y 0); [lia|]. split; discriminate.
  - destruct (Z.eqb_spec x 0) as [->|Hx]; [split; reflexivity|]. split; discriminate.
  - destruct (Z.eqb_spec x 0) as [->|Hx]; cbn [orb].
    + destruct (Z.eqb_spec 0 y) as [<-|Hy]; [split; reflexivity|].
      destruct (Z.eqb_spec y 0); [lia|]. split; discriminate.
    + destruct (Z.eqb_spec y 0) as [->|Hy].
      * destruct (Z.eqb_spec x 0); [lia|]. split; discriminate.
      * destruct (Z.eqb_spec x y) as [->|Hxy]; cbn [negb].
        -- rewrite IH. split; [intros ->; reflexivity|intros E; inversion E; reflexivity].
        -- split; [discriminate|intros E; inversion E; contradiction].
Qed.

Lemma str_eq_same a : forall b, Shell.str_eq a b = Sound.str_eq_sound a b.
Proof. reflexivity. Qed.

Lemma until_nul_id s : Forall (fun c => c <> 0) s -> until_nul s = s.
Proof.
  intros Hs. rewrite <- (app_nil_r s) at 1. rewrite (until_nul_app s [] Hs).
  apply app_nil_r.
Qed.

Lemma word_bytes d :
  0 <= d < 65536 -> u8 (Z.shiftr d 8) * 256 + u8 (Z.land d 0xFF) = d.
Proof.
  intros Hd.
  change 0xFF with (Z.ones 8). rewrite Z.land_ones, Z.shiftr_div_pow2 by lia.
  change (2 ^ 8) with 256.
  pose proof (Z.mod_pos_bound d 256 ltac:(lia)).
  assert (0 <= d / 256 < 256).
  { split; [apply Z.div_pos; lia|apply Z.div_lt_upper_bound; lia]. }
  rewrite (u8_small (d / 256)), (u8_small (d mod 256)) by lia.
  pose proof (Z.div_mod d 256 ltac:(lia)). lia.
Qed.


Section NoteFacts.
Context {HW G : Type} `{Hardware HW}.
Implicit Types m : machine HW G.

(** The loop over a table of distinct names without NUL: the entry whose
    name is the argument is played, and nothing happens without one. *)
Lemma sound_note_from_spec fuel (tbl : list (list Z * Z)) name m :
  NoDup (map fst tbl) ->
  Forall (fun e => Forall (fun c => c <> 0) (fst e)) tbl ->
  (forall n f, In (n, f) tbl -> until_nul name = n ->
     Sound.sound_note_from fuel tbl name m = Sound.sound_play fuel f 450 m) /\
  ((forall n f, In (n, f) tbl -> until_nul name <> n) ->
     Sound.sound_note_from fuel tbl name m = Some (tt, m)).
Proof.
  induction tbl as [|[n0 f0] tbl IH]; intros Hnd Hnul.
  - split; [intros n f []|reflexivity].
  - inversion Hnd as [|? ? Hnotin Hnd']; subst.
    inversion Hnul as [|? ? Hn0 Hnul']; subst. cbn [fst] in Hn0.
    destruct (IH Hnd' Hnul') as (IH1 & IH2).
    cbn [Sound.sound_note_from].
    pose proof (str_eq_sound_until_nul name n0) as Heq.
    rewrite (until_nul_id n0 Hn0) in Heq.
    destruct (Sound.str_eq_sound name n0) eqn:E.
    + assert (Hname0 : until_nul name = n0) by (apply Heq; reflexivity).
      split.
      * intros n f [Hin|Hin] Hname.
        -- inversion Hin; subst. reflexivity.
        -- exfalso. apply Hnotin. rewrite <- Hname0, Hname.
           change n with (fst (n, f)). apply in_map. exact Hin.
      * intros Hnone. exfalso.
        apply (Hnone n0 f0); [left; reflexivity|exact Hname0].
    + assert (Hname0 : until_nul name <> n0).
      { intros Hc. apply Heq in Hc. discriminate. }
      split.
      * intros n f [Hin|Hin] Hname.
        -- inversion Hin; subst. contradiction.
        -- apply (IH1 n f Hin Hname).
      * intros Hnone. apply IH2.
        intros n f Hin. apply (Hnone n f). right. exact Hin.
Qed.

Lemma notes_distinct :
  NoDup (map fst Sound.notes) /\
  Forall (fun e : list Z * Z => Forall (fun c => c <> 0) (fst e)) Sound.notes.
Proof.
  split.
  - cbn. repeat (constructor; [cbn; intuition discriminate|]). constructor.
  - repeat (constructor; [cbn; repeat constructor; discriminate|]). constructor.
Qed.

End NoteFacts.

(** X7: [sound_note] looks its argument up in the note table as a C
    string: a name of the table ("do", "re", "mi", "fa", "sol", "la",
    "si") is played for 450 ms at the frequency of its entry, whatever
    follows its NUL; any other name, the empty one included, is ignored
    without a single port access.  The comparison is exact: two strings
    are equal for [str_eq_sound] precisely when their characters up to
    the first NUL are the same. *)
Theorem sound_note_lookup {HW G : Type} `{Hardware HW}
    (fuel : nat) (name : list Z) (m : machine HW G) :
  (forall other, Sound.str_eq_sound name other = true <-> until_nul name = until_nul other) /\
  (forall n f, In (n, f) Sound.notes -> until_nul name = n ->
     Sound.sound_note fuel name m = Sound.sound_play fuel f 450 m) /\
  ((forall n f, In (n, f) Sound.notes -> until_nul name <> n) ->
     Sound.sound_note fuel name m = Some (tt, m)).
Proof.
  split; [apply str_eq_sound_until_nul|].
  destruct notes_distinct as (Hnd & Hnul).
  exact (sound_note_from_spec fuel Sound.notes name m Hnd Hnul).
Qed.

(** The name "la" followed by a NUL and further characters. *)
Lemma sound_note_lookup_witness :
  let m : machine sim_pc unit := Machine (sim_pc_boot 0 600 0 []) [] tt in
  Sound.sound_note 5 [108; 97; 0; 33] m = Sound.sound_play 5 440 450 m.
Proof.
  intros m.
  refine (proj1 (proj2 (sound_note_lookup 5 [108; 97; 0; 33] m)) [108; 97] 440 _ _).
  - cbn. tauto.
  - reflexivity.
Defined.

(** X8: a tone of non-zero frequency [freq] starts by programming
    channel 2 of the timer: the mode byte 0xB6 on port 0x43, then the
    low and the high byte of the divisor on port 0x42.  The two bytes
    form [1193180 / freq] reduced to 16 bits; this is [1193180 / freq]
    itself from 19 Hz up, and it is 0 for every frequency above
    1193180 Hz. *)
Theorem tone_divisor_bytes {HW G : Type} `{Hardware HW}
    (fuel : nat) (freq duration_ms : Z) (m m' : machine HW G) :
  0 < freq < 4294967296 ->
  Sound.sound_play fuel freq duration_ms m = Some (tt, m') ->
  exists lo hi rest,
    log m' = log m ++ [EvOut 0x43 0xB6; EvOut 0x42 lo; EvOut 0x42 hi] ++ rest /\
    0 <= lo < 256 /\ 0 <= hi < 256 /\
    hi * 256 + lo = (1193180 / freq) mod 65536 /\
    (19 <= freq -> hi * 256 + lo = 1193180 / freq) /\
    (1193180 < freq -> hi * 256 + lo = 0).
Proof.
  intros Hf Hrun.
  destruct (sound_play_spec _ _ _ _ _ Hrun) as (v & u & ticks & _ & L).
  destruct (Z.eqb_spec freq 0) as [?|_]; [lia|].
  pose proof (u16_range (Sound.PIT_BASE_FREQ / freq)) as Hd.
  eexists _, _, _. split; [exact L|].
  split; [apply u8_range|]. split; [apply u8_range|].
  rewrite (word_bytes _ Hd). unfold u16, Sound.PIT_BASE_FREQ.
  split; [reflexivity|]. split.
  - intros H19. apply Z.mod_small. split; [apply Z.div_pos; lia|].
    apply Z.div_lt_upper_bound; lia.
  - intros Hbig. rewrite (Z.div_small 1193180 freq) by lia. reflexivity.
Qed.

(** The note "la", 440 Hz, on the simulated PC: the divisor is 2711. *)
Lemma tone_divisor_bytes_witness :
  let m : machine sim_pc unit := Machine (sim_pc_boot 0 600 0 []) [] tt in
  exists m' lo hi rest,
    Sound.sound_play 5 440 1 m = Some (tt, m') /\
    log m' = log m ++ [EvOut 0x43 0xB6; EvOut 0x42 lo; EvOut 0x42 hi] ++ rest /\
    hi * 256 + lo = 2711.
Proof.
  intros m.
  destruct (Sound.sound_play 5 440 1 m) as [[[] m']|] eqn:E;
    [|vm_compute in E; discriminate].
  destruct (tone_divisor_bytes 5 440 1 m m' ltac:(lia) E)
    as (lo & hi & rest & L & _ & _ & _ & H19 & _).
  exists m', lo, hi, rest. split; [reflexivity|]. split; [exact L|].
  exact (H19 ltac:(lia)).
Defined.



(** ** The serial console: text and line ends *)

Lemma crlf_length s :
  length (crlf s) = (length (until_nul s) + count_occ Z.eq_dec (until_nul s) 10%Z)%nat.
Proof.
  induction s as [|c s IH]; [reflexivity|].
  cbn [crlf until_nul]. destruct (Z.eqb_spec c 0) as [_|Hc0]; [reflexivity|].
  rewrite length_app, IH. cbn [count_occ length].
  destruct (Z.eqb_spec c 10) as [->|Hne].
  - destruct (Z.eq_dec 10 10); [|contradiction]. cbn [length]. lia.
  - destruct (Z.eq_dec c 10); [contradiction|]. cbn [length]. lia.
Qed.

Lemma crlf_plain s :
  Forall (fun c => 0 < c < 256 /\ c <> 10) s -> crlf s = s.
Proof.
  induction 1 as [|c s (Hc & Hne) _ IH]; [reflexivity|].
  cbn [crlf]. destruct (Z.eqb_spec c 0); [lia|].
  destruct (Z.eqb_spec c 10); [contradiction|].
  rewrite IH, u8_small by lia. reflexivity.
Qed.

(** X10: [vga_print] on the serial console transmits the characters of
    its argument up to the first NUL, each as one byte, with a carriage
    return inserted before every line feed: as many bytes as the text has
    characters plus one per line feed, and the text itself when it has no
    line feed.  It returns when the transmitter is never full.
    [vga_putchar] of a line feed transmits CR LF, while [vga_newline],
    which hands the string CR LF to the same translation, transmits
    CR CR LF. *)
Theorem serial_print_crlf {HW : Type} `{Hardware HW}
    (fuel : nat) (s : list Z) (p : machine HW unit) :
  (forall p', Rpi3.vga_print fuel s p = Some (tt, p') -> transmits p p' (crlf s)) /\
  (tx_always_ready HW -> exists p', Rpi3.vga_print (S fuel) s p = Some (tt, p')) /\
  length (crlf s) = (length (until_nul s) + count_occ Z.eq_dec (until_nul s) 10%Z)%nat /\
  (Forall (fun c => 0 < c < 256 /\ c <> 10) s -> crlf s = s) /\
  (forall p', Rpi3.vga_newline fuel p = Some (tt, p') -> transmits p p' [13; 13; 10]) /\
  (forall p', Rpi3.vga_putchar fuel 10 p = Some (tt, p') -> transmits p p' [13; 10]).
Proof.
  split; [|split; [|split; [|split; [|split]]]].
  - intros p' Hrun. exact (uart_puts_transmits fuel s p p' Hrun).
  - intros Hready. exact (uart_puts_returns fuel s p Hready).
  - apply crlf_length.
  - apply crlf_plain.
  - intros p' Hrun. exact (uart_puts_transmits fuel [13; 10] p p' Hrun).
  - intros p' Hrun. exact (pi_putchar_transmits fuel 10 p p' Hrun).
Qed.

(** The two lines "a" and "b" on the simulated serial port. *)
Lemma serial_print_crlf_witness :
  let p : machine sim_uart unit := Machine (SimUart []) [] tt in
  exists p', Rpi3.vga_print 1 [97; 10; 98] p = Some (tt, p') /\
             transmits p p' [97; 13; 10; 98].
Proof.
  intros p.
  destruct (Rpi3.vga_print 1 [97; 10; 98] p) as [[[] p']|] eqn:E;
    [|vm_compute in E; discriminate].
  exists p'. split; [reflexivity|].
  exact (proj1 (serial_print_crlf 1 [97; 10; 98] p) p' E).
Defined.

(** ** shell.c: clock, colours and the command line *)

Lemma nibbles hi lo :
  0 <= lo < 16 -> (16 * hi + lo) / 16 = hi /\ (16 * hi + lo) mod 16 = lo.
Proof.
  intros Hlo. rewrite (Z.add_comm (16 * hi)), (Z.mul_comm 16).
  rewrite Z.div_add, Z.mod_add by lia.
  rewrite (Z.div_small lo), (Z.mod_small lo) by lia. split; lia.
Qed.

Lemma bcd2dec_value hi lo :
  0 <= hi < 16 -> 0 <= lo < 16 -> Shell.bcd2dec (16 * hi + lo) = 10 * hi + lo.
Proof.
  intros Hhi Hlo. unfold Shell.bcd2dec.
  destruct (nibbles hi lo Hlo) as (Hd & Hm).
  rewrite (u8_small (16 * hi + lo)) by lia.
  rewrite Z.shiftr_div_pow2 by lia. change (2 ^ 4) with 16.
  change 0x0F with (Z.ones 4). rewrite Z.land_ones by lia. change (2 ^ 4) with 16.
  rewrite Hd, Hm. rewrite u8_small by lia. lia.
Qed.

Lemma bcd2dec_range b : 0 <= Shell.bcd2dec b < 256.
Proof. unfold Shell.bcd2dec. apply u8_range. Qed.

Lemma bcd_text_valid b :
  0 <= b < 256 -> valid_bcd b -> bcd_text b = [48 + b / 16; 48 + b mod 16].
Proof.
  intros Hb (Hhi & Hlo). unfold bcd_text.
  pose proof (Z.div_mod b 16 ltac:(lia)) as E.
  pose proof (Z.mod_pos_bound b 16 ltac:(lia)) as Hm.
  assert (Hd : 0 <= b / 16 < 16).
  { split; [apply Z.div_pos; lia|apply Z.div_lt_upper_bound; lia]. }
  replace (Shell.bcd2dec b) with (10 * (b / 16) + b mod 16)
    by (rewrite <- (bcd2dec_value (b / 16) (b mod 16)) by lia; f_equal; lia).
  rewrite (Z.add_comm (10 * (b / 16))), (Z.mul_comm 10).
  rewrite Z.div_add, Z.mod_add by lia.
  rewrite (Z.div_small (b mod 16)), (Z.mod_small (b mod 16)) by lia.
  rewrite Z.add_0_l. reflexivity.
Qed.

(** The loop of [split_arg] stops at the first NUL or space, and inside
    the cells it may look at when one of them holds a NUL. *)
Lemma scan_token_spec (cells : nat) : forall buf i j,
  i <= j < i + Z.of_nat cells -> buf j = 0 ->
  exists p, Shell.scan_token cells buf i = Some p /\ i <= p <= j /\
            (buf p = 0 \/ buf p = 32) /\
            forall k, i <= k < p -> buf k <> 0 /\ buf k <> 32.
Proof.
  induction cells as [|cells IH]; intros buf i j Hj Hz; [lia|].
  cbn [Shell.scan_token].
  destruct (Z.eqb_spec (buf i) 0) as [H0|H0]; cbn [negb andb].
  - exists i. split; [reflexivity|]. split; [lia|]. split; [left; exact H0|].
    intros k Hk. lia.
  - destruct (Z.eqb_spec (buf i) 32) as [H32|H32]; cbn [negb].
    + exists i. split; [reflexivity|]. split; [lia|]. split; [right; exact H32|].
      intros k Hk. lia.
    + assert (Hij : i <> j) by (intros ->; contradiction).
      destruct (IH buf (i + 1) j ltac:(lia) Hz) as (p & E & Hp & Hend & Hbefore).
      exists p. split; [exact E|]. split; [lia|]. split; [exact Hend|].
      intros k Hk. destruct (Z.eq_dec k i) as [->|Hne]; [split; assumption|].
      apply Hbefore. lia.
Qed.

Lemma pc_edit_length max keys :
  1 <= max -> Z.of_nat (length (pc_edit max keys)) <= max - 1.
Proof.
  intros Hmax. induction keys as [|c keys IH] using rev_ind; [simpl; lia|].
  rewrite pc_edit_snoc. unfold pc_edit_key.
  destruct (c =? 8).
  - destruct (pc_edit max keys) as [|x l] using rev_ind; [simpl; lia|].
    rewrite removelast_last. rewrite length_app in IH. simpl in IH. lia.
  - destruct (Z.ltb_spec (Z.of_nat (length (pc_edit max keys))) (max - 1)); [|exact IH].
    rewrite length_app. simpl. lia.
Qed.

Lemma chars_codes :
  Shell.color_table =
  [ ([98; 108; 97; 99; 107], 0); ([98; 108; 117; 101], 1);
    ([103; 114; 101; 101; 110], 2); ([99; 121; 97; 110], 3);
    ([114; 101; 100], 4); ([109; 97; 103; 101; 110; 116; 97], 5);
    ([98; 114; 111; 119; 110], 6); ([103; 114; 101; 121], 7);
    ([100; 97; 114; 107; 103; 114; 101; 121], 8);
    ([108; 105; 103; 104; 116; 98; 108; 117; 101], 9);
    ([108; 105; 103; 104; 116; 103; 114; 101; 101; 110], 10);
    ([108; 105; 103; 104; 116; 99; 121; 97; 110], 11);
    ([108; 105; 103; 104; 116; 114; 101; 100], 12);
    ([108; 105; 103; 104; 116; 109; 97; 103; 101; 110; 116; 97], 13);
    ([121; 101; 108; 108; 111; 119], 14); ([119; 104; 105; 116; 101], 15) ].
Proof. reflexivity. Qed.

Lemma color_table_distinct :
  NoDup (map fst Shell.color_table) /\
  Forall (fun e : list Z * Z =>
            Forall (fun c => c <> 0) (fst e) /\ 0 <= snd e < 16) Shell.color_table.
Proof.
  rewrite chars_codes. split.
  - cbn [map fst]. repeat (constructor; [cbn [In]; intuition discriminate|]). constructor.
  - repeat (constructor; [cbn [fst snd]; split; [repeat constructor; discriminate|lia]|]).
    constructor.
Qed.

Section ShellFacts.
Context {HW : Type} `{Hardware HW}.
Implicit Types m : machine HW X86.vga_state.

Lemma print_int2_put_chars n m :
  0 <= n < 256 ->
  X86.vga_print_int2 n m = put_chars [48 + n / 10; 48 + n mod 10] m.
Proof.
  intros Hn. unfold X86.vga_print_int2. rewrite (u8_small n) by lia.
  pose proof (Z.mod_pos_bound n 10 ltac:(lia)).
  assert (0 <= n / 10 < 26).
  { split; [apply Z.div_pos; lia|apply Z.div_lt_upper_bound; lia]. }
  rewrite (u8_small (48 + n / 10)), (u8_small (48 + n mod 10)) by lia.
  rewrite !put_chars_cons, put_chars_nil. reflexivity.
Qed.

Lemma print_bcd b m :
  Shell.print_uint8_2digits (Shell.bcd2dec b) m = put_chars (bcd_text b) m.
Proof.
  unfold Shell.print_uint8_2digits, bcd_text.
  apply print_int2_put_chars. apply bcd2dec_range.
Qed.

Lemma cmos_read_spec reg m :
  0 <= reg < 256 ->
  exists b m', Shell.cmos_read reg m = (b, m') /\ 0 <= b < 256 /\
               log m' = log m ++ cmos_events reg b /\ globals m' = globals m.
Proof.
  intros Hreg. unfold Shell.cmos_read, Shell.io_wait, port_in, port_out.
  cbn [hw log globals].
  destruct (hw_read 113 _) as [v h].
  eexists _, _. split; [reflexivity|]. split; [apply u8_range|].
  cbn [log globals]. split; [|reflexivity].
  rewrite <- !app_assoc. unfold cmos_events.
  rewrite !(u8_small reg) by lia. reflexivity.
Qed.

Lemma put_chars_valid s : forall m,
  cursor_valid m ->
  cursor_valid (put_chars s m) /\ X86.color (put_chars s m) = X86.color m.
Proof.
  intros m Hv. destruct s as [|c s]; [rewrite put_chars_nil; split; [exact Hv|reflexivity]|].
  destruct (put_chars_cursor (c :: s) m Hv ltac:(discriminate)) as (Hv' & Hc & _).
  split; assumption.
Qed.

(** The foreground codes of the table are the attribute itself when the
    background is black. *)
Lemma set_color_on_black code m :
  0 <= code < 16 -> X86.vga_set_color code 0 m = X86.set_color code m.
Proof.
  intros Hc. unfold X86.vga_set_color. f_equal.
  rewrite (u8_small code) by lia.
  change (Z.shiftl (u8 0) 4) with 0. rewrite Z.lor_0_l.
  change 0x0F with (Z.ones 4). rewrite Z.land_ones by lia. change (2 ^ 4) with 16.
  rewrite Z.mod_small by lia. apply u8_small. lia.
Qed.

Lemma cmd_color_from_spec (tbl : list (list Z * Z)) name m :
  NoDup (map fst tbl) ->
  Forall (fun e => Forall (fun c => c <> 0) (fst e) /\ 0 <= snd e < 16) tbl ->
  (forall n code, In (n, code) tbl -> until_nul name = n ->
     Shell.cmd_color_from tbl name m = X86.set_color code m) /\
  ((forall n code, In (n, code) tbl -> until_nul name <> n) ->
     Shell.cmd_color_from tbl name m =
     put_chars (10 :: ShellText.unknown_color ++ [10]) m).
Proof.
  induction tbl as [|[n0 c0] tbl IH]; intros Hnd Hok.
  - split; [intros n code []|]. intros _.
    cbn [Shell.cmd_color_from]. unfold X86.vga_newline.
    rewrite vga_print_until_nul, put_chars_cons, put_chars_app, put_chars_cons,
      put_chars_nil.
    reflexivity.
  - inversion Hnd as [|? ? Hnotin Hnd']; subst.
    inversion Hok as [|? ? (Hn0 & Hc0) Hok']; subst. cbn [fst snd] in Hn0, Hc0.
    destruct (IH Hnd' Hok') as (IH1 & IH2).
    cbn [Shell.cmd_color_from]. rewrite str_eq_same.
    pose proof (str_eq_sound_until_nul name n0) as Heq.
    rewrite (until_nul_id n0 Hn0) in Heq.
    destruct (Sound.str_eq_sound name n0) eqn:E.
    + assert (Hname0 : until_nul name = n0) by (apply Heq; reflexivity).
      split.
      * intros n code [Hin|Hin] Hname.
        -- inversion Hin; subst. apply set_color_on_black. exact Hc0.
        -- exfalso. apply Hnotin. rewrite <- Hname0, Hname.
           change n with (fst (n, code)). apply in_map. exact Hin.
      * intros Hnone. exfalso.
        apply (Hnone n0 c0); [left; reflexivity|exact Hname0].
    + assert (Hname0 : until_nul name <> n0).
      { intros Hc. apply Heq in Hc. discriminate. }
      split.
      * intros n code [Hin|Hin] Hname.
        -- inversion Hin; subst. contradiction.
        -- apply (IH1 n code Hin Hname).
      * intros Hnone. apply IH2.
        intros n code Hin. apply (Hnone n code). right. exact Hin.
Qed.

End ShellFacts.

(** X11: [bcd2dec] decodes a byte whose halves are [hi] and [lo] to
    [10 * hi + lo], for all sixteen values of each half: the result never
    wraps.  For a byte that holds two decimal digits the result is at
    most 99 and [print_uint8_2digits] prints exactly these two digits. *)
Theorem bcd2dec_decodes {HW : Type} `{Hardware HW}
    (hi lo : Z) (m : machine HW X86.vga_state) :
  0 <= hi < 16 -> 0 <= lo < 16 ->
  Shell.bcd2dec (16 * hi + lo) = 10 * hi + lo /\
  (hi <= 9 -> lo <= 9 ->
   Shell.bcd2dec (16 * hi + lo) <= 99 /\
   Shell.print_uint8_2digits (Shell.bcd2dec (16 * hi + lo)) m =
     put_chars [48 + hi; 48 + lo] m).
Proof.
  intros Hhi Hlo. split; [apply bcd2dec_value; assumption|].
  intros Hh9 Hl9. split; [rewrite bcd2dec_value by assumption; lia|].
  destruct (nibbles hi lo Hlo) as (Hd & Hm).
  rewrite print_bcd, bcd_text_valid.
  - rewrite Hd, Hm. reflexivity.
  - lia.
  - unfold valid_bcd. rewrite Hd, Hm. lia.
Qed.

(** The byte 0x47 gives 47. *)
Lemma bcd2dec_decodes_witness :
  Shell.bcd2dec (16 * 4 + 7) = 10 * 4 + 7.
Proof.
  exact (proj1 (bcd2dec_decodes 4 7 (Machine (sim_pc_boot 0 1 0 []) [] blank_screen)
                  ltac:(lia) ltac:(lia))).
Defined.

(** X12: the clock commands.  [cmd_time] reads the CMOS registers 4, 2
    and 0 (hours, minutes, seconds), in this order and each by the
    sequence select, pause, read, and then prints a line feed, the three
    bytes as two characters each with a colon between them, and a line
    feed.  [cmd_date] reads the registers 7, 8, 9 and 0x32 (day, month,
    year, century) and prints day, month and the century followed by the
    year, with a slash after day and month.  Nothing but these reads
    precedes the output.  The two characters of a byte that holds two
    decimal digits are these digits. *)
Theorem clock_commands_read_cmos {HW : Type} `{Hardware HW}
    (m : machine HW X86.vga_state) :
  (exists bh bm bs m1,
     log m1 = log m ++ cmos_events 4 bh ++ cmos_events 2 bm ++ cmos_events 0 bs /\
     globals m1 = globals m /\
     Shell.cmd_time m =
       put_chars (10 :: bcd_text bh ++ 58 :: bcd_text bm ++ 58 :: bcd_text bs ++ [10]) m1) /\
  (exists bd bmo byr bc m1,
     log m1 = log m ++ cmos_events 7 bd ++ cmos_events 8 bmo ++ cmos_events 9 byr
                    ++ cmos_events 0x32 bc /\
     globals m1 = globals m /\
     Shell.cmd_date m =
       put_chars (10 :: bcd_text bd ++ 47 :: bcd_text bmo ++ 47 :: bcd_text bc
                     ++ bcd_text byr ++ [10]) m1) /\
  (forall b, 0 <= b < 256 -> valid_bcd b -> bcd_text b = [48 + b / 16; 48 + b mod 16]).
Proof.
  split; [|split; [|exact bcd_text_valid]].
  - destruct (cmos_read_spec 4 m ltac:(lia)) as (bh & m1 & E1 & _ & L1 & G1).
    destruct (cmos_read_spec 2 m1 ltac:(lia)) as (bm & m2 & E2 & _ & L2 & G2).
    destruct (cmos_read_spec 0 m2 ltac:(lia)) as (bs & m3 & E3 & _ & L3 & G3).
    exists bh, bm, bs, m3.
    split; [rewrite L3, L2, L1, <- !app_assoc; reflexivity|].
    split; [congruence|].
    unfold Shell.cmd_time. rewrite E1. cbv beta iota zeta.
    rewrite E2. cbv beta iota zeta. rewrite E3. cbv beta iota zeta.
    unfold X86.vga_newline. rewrite !print_bcd.
    unfold bcd_text. cbn [app].
    rewrite !put_chars_cons, put_chars_nil. reflexivity.
  - destruct (cmos_read_spec 7 m ltac:(lia)) as (bd & m1 & E1 & _ & L1 & G1).
    destruct (cmos_read_spec 8 m1 ltac:(lia)) as (bmo & m2 & E2 & _ & L2 & G2).
    destruct (cmos_read_spec 9 m2 ltac:(lia)) as (byr & m3 & E3 & _ & L3 & G3).
    destruct (cmos_read_spec 0x32 m3 ltac:(lia)) as (bc & m4 & E4 & _ & L4 & G4).
    exists bd, bmo, byr, bc, m4.
    split; [rewrite L4, L3, L2, L1, <- !app_assoc; reflexivity|].
    split; [congruence|].
    unfold Shell.cmd_date. rewrite E1. cbv beta iota zeta.
    rewrite E2. cbv beta iota zeta. rewrite E3. cbv beta iota zeta.
    rewrite E4. cbv beta iota zeta.
    unfold X86.vga_newline.
    unfold Shell.print_uint8_2digits.
    rewrite !(print_int2_put_chars (Shell.bcd2dec _)) by apply bcd2dec_range.
    unfold bcd_text. cbn [app].
    rewrite !put_chars_cons, put_chars_nil. reflexivity.
Qed.

(** The byte 0x59 is printed as "59". *)
Lemma clock_commands_read_cmos_witness :
  bcd_text 0x59 = [48 + 0x59 / 16; 48 + 0x59 mod 16].
Proof.
  refine (proj2 (proj2 (clock_commands_read_cmos
                          (Machine (sim_pc_boot 0 1 0 []) [] blank_screen))) 0x59 _ _).
  - lia.
  - unfold valid_bcd. split; apply Z.leb_le; reflexivity.
Defined.

(** X13: [split_arg] on a buffer that holds a line of fewer than 128
    characters.  A line without a space is left as it is and the result
    is NULL.  In a line made of a command without spaces, a space and
    the rest, the space is replaced by a NUL and no other cell changes;
    the buffer then holds the command as a C string, and the result
    points to the rest. *)
Theorem split_arg_in_place (buf : Z -> Z) (len : Z) (cmd rest : list Z) :
  Forall (fun c => c <> 0 /\ c <> 32) cmd ->
  Forall (fun c => c <> 0) rest ->
  len < 128 ->
  (stored_line buf len cmd -> Shell.split_arg 128 buf = Some (buf, None)) /\
  (stored_line buf len (cmd ++ 32 :: rest) ->
   let p := Z.of_nat (length cmd) in
   Shell.split_arg 128 buf = Some (upd buf p 0, Some (p + 1)) /\
   cstring_from 128 (upd buf p 0) 0 = cmd /\
   cstring_from 128 (upd buf p 0) (p + 1) = rest).
Proof.
  intros Hcmd Hrest Hlen.
  assert (Hscan : forall line,
            stored_line buf len line ->
            (forall k, (k < length cmd)%nat -> nth k line 0 = nth k cmd 0) ->
            (length cmd <= length line)%nat ->
            (buf (Z.of_nat (length cmd)) = 0 \/ buf (Z.of_nat (length cmd)) = 32) ->
            Shell.scan_token 128 buf 0 = Some (Z.of_nat (length cmd))).
  { intros line (Hl & Hend & Hcells) Hpre Hle Hstop.
    destruct (scan_token_spec 128 buf 0 len ltac:(lia) Hend)
      as (p & E & Hp & Hpend & Hbefore).
    rewrite E. f_equal.
    destruct (Z.lt_trichotomy p (Z.of_nat (length cmd))) as [Hlt|[Heq|Hgt]];
      [|exact Heq|].
    - exfalso.
      assert (Hk : (Z.to_nat p < length cmd)%nat) by lia.
      pose proof (Hcells (Z.to_nat p) ltac:(lia)) as Hc.
      rewrite Z2Nat.id in Hc by lia. rewrite (Hpre _ Hk) in Hc.
      rewrite Forall_forall in Hcmd.
      destruct (Hcmd _ (nth_In cmd 0 Hk)) as (Hn0 & Hn32).
      rewrite <- Hc in Hn0, Hn32. destruct Hpend; contradiction.
    - exfalso. destruct (Hbefore (Z.of_nat (length cmd)) ltac:(lia)) as (Hn0 & Hn32).
      destruct Hstop; contradiction. }
  split.
  - intros Hst. unfold Shell.split_arg.
    destruct Hst as (Hl & Hend & Hcells).
    rewrite (Hscan cmd (conj Hl (conj Hend Hcells)) (fun k _ => eq_refl)
               (Nat.le_refl _) ltac:(left; rewrite <- Hl; exact Hend)).
    rewrite <- Hl, Hend. reflexivity.
  - intros Hst. cbv zeta.
    destruct Hst as (Hl & Hend & Hcells).
    rewrite length_app in Hl. cbn [length] in Hl.
    assert (Hsp : buf (Z.of_nat (length cmd)) = 32).
    { rewrite (Hcells (length cmd)) by (rewrite length_app; cbn [length]; lia).
      apply nth_middle. }
    split; [|split].
    + unfold Shell.split_arg.
      rewrite (Hscan (cmd ++ 32 :: rest)).
      * rewrite Hsp. reflexivity.
      * split; [rewrite length_app; cbn [length]; exact Hl|]. split; assumption.
      * intros k Hk. apply app_nth1. exact Hk.
      * rewrite length_app. lia.
      * right. exact Hsp.
    + apply cstring_from_stored.
      * apply Forall_impl with (2 := Hcmd). intros c Hc. apply Hc.
      * intros k Hk. rewrite Z.add_0_l. unfold upd.
        destruct (Z.eqb_spec (Z.of_nat k) (Z.of_nat (length cmd))); [lia|].
        rewrite Hcells by (rewrite length_app; lia). apply app_nth1. exact Hk.
      * rewrite Z.add_0_l. unfold upd. rewrite Z.eqb_refl. reflexivity.
      * lia.
    + apply cstring_from_stored.
      * exact Hrest.
      * intros k Hk. unfold upd.
        destruct (Z.eqb_spec (Z.of_nat (length cmd) + 1 + Z.of_nat k)
                             (Z.of_nat (length cmd))); [lia|].
        replace (Z.of_nat (length cmd) + 1 + Z.of_nat k)
          with (Z.of_nat (length cmd + S k)) by lia.
        rewrite Hcells by (rewrite length_app; cbn [length]; lia).
        rewrite app_nth2 by lia.
        replace (length cmd + S k - length cmd)%nat with (S k) by lia.
        reflexivity.
      * unfold upd.
        destruct (Z.eqb_spec (Z.of_nat (length cmd) + 1 + Z.of_nat (length rest))
                             (Z.of_nat (length cmd))); [lia|].
        rewrite <- Hend. f_equal. lia.
      * lia.
Qed.

(** The line "color red". *)
Lemma split_arg_in_place_witness :
  let line := [99; 111; 108; 111; 114; 32; 114; 101; 100] in
  let buf := fun i => nth (Z.to_nat i) line 0 in
  Shell.split_arg 128 buf = Some (upd buf 5 0, Some 6) /\
  cstring_from 128 (upd buf 5 0) 0 = [99; 111; 108; 111; 114] /\
  cstring_from 128 (upd buf 5 0) 6 = [114; 101; 100].
Proof.
  intros line buf.
  refine (proj2 (split_arg_in_place buf 9 [99; 111; 108; 111; 114] [114; 101; 100]
                   _ _ ltac:(lia)) _).
  - repeat constructor; discriminate.
  - repeat constructor; discriminate.
  - split; [reflexivity|]. split; [reflexivity|].
    intros i Hi. unfold buf. rewrite Nat2Z.id. reflexivity.
Defined.

(** X14: [cmd_color] looks the name up in the colour table as a C string.
    For a name of the table the attribute becomes the code of its entry,
    that is this foreground on a black background, and nothing else
    changes; for any other name the command prints "Unknown color name."
    between two line feeds and the colour stays as it was; without an
    argument it prints the usage line and the colour stays as it was. *)
Theorem cmd_color_sets_foreground {HW : Type} `{Hardware HW}
    (name : list Z) (m : machine HW X86.vga_state) :
  cursor_valid m ->
  (forall n code, In (n, code) Shell.color_table -> until_nul name = n ->
     Shell.cmd_color (Some name) m = X86.set_color code m /\
     X86.color (Shell.cmd_color (Some name) m) = code) /\
  ((forall n code, In (n, code) Shell.color_table -> until_nul name <> n) ->
     Shell.cmd_color (Some name) m =
       put_chars (10 :: ShellText.unknown_color ++ [10]) m /\
     X86.color (Shell.cmd_color (Some name) m) = X86.color m) /\
  (Shell.cmd_color None m =
     put_chars (10 :: ShellText.color_usage ++ [10]) m /\
   X86.color (Shell.cmd_color None m) = X86.color m).
Proof.
  intros Hv.
  destruct color_table_distinct as (Hnd & Hok).
  destruct (cmd_color_from_spec Shell.color_table name m Hnd Hok) as (Hknown & Hunknown).
  split; [|split].
  - intros n code Hin Hname. unfold Shell.cmd_color.
    rewrite (Hknown n code Hin Hname). split; [reflexivity|].
    apply color_set_color.
  - intros Hnone. unfold Shell.cmd_color. rewrite (Hunknown Hnone).
    split; [reflexivity|]. apply put_chars_valid. exact Hv.
  - assert (E : Shell.cmd_color None m =
      put_chars (10 :: ShellText.color_usage ++ [10]) m).
    { unfold Shell.cmd_color, X86.vga_newline.
      rewrite vga_print_until_nul, put_chars_cons, put_chars_app, put_chars_cons,
        put_chars_nil.
      reflexivity. }
    rewrite E. split; [reflexivity|]. apply put_chars_valid. exact Hv.
Qed.

(** The command "color yellow" on the blank screen. *)
Lemma cmd_color_sets_foreground_witness :
  let m : machine sim_pc X86.vga_state := Machine (sim_pc_boot 0 1 0 []) [] blank_screen in
  X86.color (Shell.cmd_color (Some [121; 101; 108; 108; 111; 119]) m) = 14.
Proof.
  intros m.
  assert (Hv : cursor_valid m) by (unfold cursor_valid; vm_compute; intuition discriminate).
  refine (proj2 (proj1 (cmd_color_sets_foreground [121; 101; 108; 108; 111; 119] m Hv)
                   [121; 101; 108; 108; 111; 119] 14 _ _)).
  - rewrite chars_codes. cbn. tauto.
  - reflexivity.
Defined.

(** ** shell.c: the command line and its dispatch *)

Lemma cstring_from_no_nul (n : nat) : forall a i,
  Forall (fun c => c <> 0) (cstring_from n a i).
Proof.
  induction n as [|n IH]; intros a i; [constructor|].
  cbn [cstring_from]. destruct (Z.eqb_spec (a i) 0); constructor; [assumption|apply IH].
Qed.

Lemma str_eq_cstring (n : nat) a name :
  Forall (fun c => c <> 0) name ->
  cstring_from n a 0 <> name -> Shell.str_eq (cstring_from n a 0) name = false.
Proof.
  intros Hname Hne. rewrite str_eq_same.
  destruct (Sound.str_eq_sound (cstring_from n a 0) name) eqn:E; [|reflexivity].
  apply str_eq_sound_until_nul in E.
  rewrite (until_nul_id _ (cstring_from_no_nul n a 0)), (until_nul_id _ Hname) in E.
  contradiction.
Qed.

Lemma commands_no_nul : Forall (Forall (fun c => c <> 0)) ShellText.commands.
Proof. repeat (constructor; [repeat constructor; discriminate|]). constructor. Qed.

(** X15: the line that [keyboard_readline] leaves in the 128-byte buffer
    of the shell has at most 127 characters and is NUL-terminated, and
    [split_arg] stays inside it: the loop stops at or before the NUL,
    the only cell that may change is a space of the line, which becomes
    a NUL, and an argument pointer points into the line, at most at its
    NUL. *)
Theorem shell_line_fits_buffer {HW : Type} `{Hardware HW}
    (fuel : nat) (buf buf' : Z -> Z) (len : Z) (m m' : machine HW X86.vga_state) :
  X86.keyboard_readline fuel buf Shell.BUF_SIZE m = Some ((buf', len), m') ->
  0 <= len <= 127 /\ buf' len = 0 /\
  exists buf2 arg,
    Shell.split_arg (Z.to_nat Shell.BUF_SIZE) buf' = Some (buf2, arg) /\
    (forall i, buf2 i <> buf' i -> 0 <= i < len /\ buf' i = 32 /\ buf2 i = 0) /\
    match arg with
    | Some a => 1 <= a <= len /\ buf' (a - 1) = 32 /\ buf2 (a - 1) = 0
    | None => buf2 = buf'
    end.
Proof.
  intros Hrun.
  destruct (pc_readline_spec _ _ _ _ _ _ _ Hrun) as (keys & _ & _ & Hl & Hend & _).
  pose proof (pc_edit_length Shell.BUF_SIZE keys ltac:(unfold Shell.BUF_SIZE; lia)) as Hle.
  unfold Shell.BUF_SIZE in *. rewrite <- Hl in Hle.
  split; [lia|]. split; [exact Hend|].
  change (Z.to_nat 128) with 128%nat.
  destruct (scan_token_spec 128 buf' 0 len ltac:(lia) Hend)
    as (p & E & Hp & Hstop & _).
  unfold Shell.split_arg. rewrite E.
  destruct (Z.eqb_spec (buf' p) 32) as [H32|H32].
  - assert (Hplen : p <> len) by (intros ->; rewrite Hend in H32; discriminate).
    exists (upd buf' p 0), (Some (p + 1)). split; [reflexivity|]. split.
    + intros i. unfold upd. destruct (Z.eqb_spec i p) as [->|_]; [|congruence].
      intros _. split; [lia|]. split; [exact H32|reflexivity].
    + replace (p + 1 - 1) with p by lia. split; [lia|]. split; [exact H32|].
      unfold upd. rewrite Z.eqb_refl. reflexivity.
  - exists buf', None. split; [reflexivity|]. split; [congruence|reflexivity].
Qed.

(** The keys [l], [s], space, [a] and Enter on the simulated keyboard. *)
Lemma shell_line_fits_buffer_witness :
  let m : machine sim_pc X86.vga_state :=
    Machine (sim_pc_boot 0 1 0 [38; 31; 57; 16; 28]) [] blank_screen in
  exists buf' len m',
    X86.keyboard_readline 6 (fun _ => 0) Shell.BUF_SIZE m = Some ((buf', len), m') /\
    0 <= len <= 127 /\ buf' len = 0.
Proof.
  intros m.
  destruct (X86.keyboard_readline 6 (fun _ => 0) Shell.BUF_SIZE m)
    as [[[buf' len] m']|] eqn:E; [|vm_compute in E; discriminate].
  destruct (shell_line_fits_buffer 6 (fun _ => 0) buf' len m m' E) as (Hlen & Hend & _).
  exists buf', len, m'. split; [reflexivity|]. split; [exact Hlen|exact Hend].
Defined.

(** X16: the dispatch of the shell compares the command, the C string at
    the start of the buffer, exactly and with regard to case.  An empty
    line does nothing at all; a non-empty command that is none of the
    eight names prints "Unknown command. Type 'help' to list commands."
    between two line feeds and does nothing else; "note" without an
    argument does nothing; and "reboot" never returns, whatever the
    bound on the polling loops. *)
Theorem dispatch_edge_cases {HW : Type} `{Hardware HW}
    (fuel : nat) (buf : Z -> Z) (arg : option Z) (m : machine HW X86.vga_state) :
  let cmd := cstring_from (Z.to_nat Shell.BUF_SIZE) buf 0 in
  (buf 0 = 0 -> Shell.dispatch fuel buf arg m = Some (tt, m)) /\
  (buf 0 <> 0 -> ~ In cmd ShellText.commands ->
   Shell.dispatch fuel buf arg m =
     Some (tt, put_chars (10 :: ShellText.unknown_command ++ [10]) m)) /\
  (cmd = ShellText.note -> arg = None -> Shell.dispatch fuel buf arg m = Some (tt, m)) /\
  (cmd = ShellText.reboot -> Shell.dispatch fuel buf arg m = None).
Proof.
  cbv zeta.
  assert (Hother : ~ In (cstring_from (Z.to_nat Shell.BUF_SIZE) buf 0) ShellText.commands ->
            Shell.dispatch fuel buf arg m =
            (if negb (buf 0 =? 0)
             then Some (tt, put_chars (10 :: ShellText.unknown_command ++ [10]) m)
             else Some (tt, m))).
  { intros Hnot.
    assert (Hne : forall name, In name ShellText.commands ->
              Shell.str_eq (cstring_from (Z.to_nat Shell.BUF_SIZE) buf 0) name = false).
    { intros name Hin. apply str_eq_cstring.
      - pose proof commands_no_nul as Hc. rewrite Forall_forall in Hc. exact (Hc name Hin).
      - intros Heq. apply Hnot. rewrite Heq. exact Hin. }
    unfold Shell.dispatch.
    repeat match goal with
           | |- context [Shell.str_eq _ ?n] =>
               rewrite (Hne n) by (unfold ShellText.commands; cbn [In]; auto 12)
           end.
    destruct (negb (buf 0 =? 0)); [|reflexivity].
    unfold lift, X86.vga_newline.
    rewrite vga_print_until_nul, put_chars_cons, put_chars_app, put_chars_cons,
      put_chars_nil.
    reflexivity. }
  split; [|split; [|split]].
  - intros H0. rewrite Hother.
    + rewrite H0. reflexivity.
    + change (Z.to_nat Shell.BUF_SIZE) with 128%nat. cbn [cstring_from]. rewrite H0.
      cbn [Z.eqb]. unfold ShellText.commands. cbn [In].
      intros Hin. repeat (destruct Hin as [Hin|Hin]; [discriminate|]). exact Hin.
  - intros H0 Hnot. rewrite (Hother Hnot).
    destruct (Z.eqb_spec (buf 0) 0); [contradiction|]. reflexivity.
  - intros Hcmd ->. unfold Shell.dispatch. rewrite Hcmd. reflexivity.
  - intros Hcmd. unfold Shell.dispatch. rewrite Hcmd. reflexivity.
Qed.

(** The empty line. *)
Lemma dispatch_edge_cases_witness :
  let m : machine sim_pc X86.vga_state := Machine (sim_pc_boot 0 1 0 []) [] blank_screen in
  Shell.dispatch 1 (fun _ => 0) None m = Some (tt, m).
Proof.
  intros m.
  exact (proj1 (dispatch_edge_cases 1 (fun _ => 0) None m) eq_refl).
Defined.

(** ** keyboard.c: the controller protocol *)

Lemma polled_app a : forall r b,
  polled r (a ++ b) <-> polled r a /\ polled (ready_after r a) b.
Proof.
  induction a as [|[p v|p v] a IH]; intros r b; cbn [app polled ready_after].
  - tauto.
  - destruct (p =? X86.KB_STATUS); [apply IH|].
    destruct (p =? X86.KB_DATA); [|tauto].
    rewrite IH. tauto.
  - tauto.
Qed.

Lemma ready_after_app a : forall r b,
  ready_after r (a ++ b) = ready_after (ready_after r a) b.
Proof.
  induction a as [|[p v|p v] a IH]; intros r b; cbn [app ready_after];
    [reflexivity| |apply IH].
  destruct (p =? X86.KB_STATUS); apply IH.
Qed.

Lemma sc_azerty_ascii sc :
  0 <= sc < 128 -> 0 <= nth (Z.to_nat sc) X86.sc_azerty 0 < 128.
Proof.
  intros Hsc.
  assert (Hall : forallb (fun c => (0 <=? c) && (c <? 128)) X86.sc_azerty = true)
    by reflexivity.
  rewrite forallb_forall in Hall.
  assert (Hlen : (Z.to_nat sc < length X86.sc_azerty)%nat).
  { change (length X86.sc_azerty) with 128%nat. lia. }
  specialize (Hall _ (nth_In X86.sc_azerty 0 Hlen)).
  apply andb_prop in Hall. destruct Hall as (H1 & H2).
  apply Z.leb_le in H1. apply Z.ltb_lt in H2. lia.
Qed.

Lemma kbd_key_mapped sc c :
  0 <= sc < 256 -> kbd_key sc = Some c ->
  0 <= sc < 128 /\ c = nth (Z.to_nat sc) X86.sc_azerty 0 /\ 0 < c < 128.
Proof.
  intros Hsc. unfold kbd_key.
  destruct (Z.land sc 128 =? 0); cbn [andb]; [|discriminate].
  destruct (Z.ltb_spec sc 128) as [Hlt|Hge]; [|discriminate].
  pose proof (sc_azerty_ascii sc ltac:(lia)) as Hr.
  cbv zeta. remember (nth (Z.to_nat sc) X86.sc_azerty 0) as c0 eqn:Hc0.
  destruct (Z.eqb_spec c0 0) as [Hz|Hnz]; [discriminate|].
  intros E. assert (Hc : c = c0) by congruence.
  split; [lia|]. split; [exact Hc|lia].
Qed.

Section ControllerFacts.
Context {HW : Type} `{Hardware HW}.
Implicit Types m s : machine HW X86.vga_state.

Lemma kbd_log_refl m : kbd_log m m false [].
Proof. exists []. rewrite app_nil_r. repeat split. Qed.

Lemma kbd_log_status m s s' r keys st :
  kbd_log m s r keys ->
  log s' = log s ++ [EvIn X86.KB_STATUS st] -> globals s' = globals s ->
  kbd_log m s' (negb (Z.land st 1 =? 0)) keys.
Proof.
  intros (evs & L & Hp & Hr & Hk & HG) L' G'.
  exists (evs ++ [EvIn X86.KB_STATUS st]).
  split; [rewrite L', L, app_assoc; reflexivity|].
  split; [apply polled_app; split; [exact Hp|exact I]|].
  split; [rewrite ready_after_app; reflexivity|].
  split; [rewrite kbd_keys_app, Hk; apply app_nil_r|congruence].
Qed.

Lemma kbd_log_data m s s' keys sc :
  kbd_log m s true keys ->
  log s' = log s ++ [EvIn X86.KB_DATA sc] -> globals s' = globals s ->
  kbd_log m s' false (keys ++ match kbd_key sc with Some c => [c] | None => [] end).
Proof.
  intros (evs & L & Hp & Hr & Hk & HG) L' G'.
  exists (evs ++ [EvIn X86.KB_DATA sc]).
  split; [rewrite L', L, app_assoc; reflexivity|].
  split; [apply polled_app; split; [exact Hp|rewrite Hr; split; [reflexivity|exact I]]|].
  split; [rewrite ready_after_app; reflexivity|].
  split; [|congruence].
  rewrite kbd_keys_app, Hk. f_equal.
Qed.

Lemma wait_output_full_log fuel m s s' r keys :
  kbd_log m s r keys ->
  X86.wait_output_full fuel s = Some (tt, s') -> kbd_log m s' true keys.
Proof.
  unfold X86.wait_output_full. intros Hlog Hrun.
  apply (fun Hb HI => iter_inv (fun (_ : unit) x => exists r0, kbd_log m x r0 keys)
                        (fun (_ : unit) x => kbd_log m x true keys)
                        _ Hb fuel tt s tt s' HI Hrun).
  - intros [] x res x' (r0 & HI) Hbody.
    destruct (inb_spec X86.KB_STATUS x) as (st & x1 & E & _ & L1 & G1).
    rewrite (bind_eq _ _ _ _ _ E) in Hbody.
    pose proof (kbd_log_status m x x1 r0 keys st HI L1 G1) as H1.
    destruct (Z.land st 1 =? 0); inversion Hbody; subst.
    + exists (negb true). exact H1.
    + exact H1.
  - exists r. exact Hlog.
Qed.

(** One turn of the loop of [keyboard_getchar]: a turn that goes on has
    read no character, a turn that returns has read the scan code of the
    character as its last access. *)
Lemma getchar_body_log fuel m s res s' r :
  kbd_log m s r [] ->
  X86.getchar_body fuel tt s = Some (res, s') ->
  match res with
  | inl _ => kbd_log m s' false []
  | inr c => exists evs sc,
               log s' = log m ++ evs ++ [EvIn X86.KB_DATA sc] /\
               polled false (evs ++ [EvIn X86.KB_DATA sc]) /\
               kbd_keys evs = [] /\ 0 <= sc < 256 /\ kbd_key sc = Some c /\
               globals s' = globals m
  end.
Proof.
  unfold X86.getchar_body. intros Hlog Hrun.
  apply bind_Some in Hrun. destruct Hrun as ([] & s1 & Hwait & Hrun).
  pose proof (wait_output_full_log _ _ _ _ _ _ Hlog Hwait) as H1.
  destruct (inb_spec X86.KB_DATA s1) as (sc & s2 & E & Hsc & L2 & G2).
  rewrite (bind_eq _ _ _ _ _ E) in Hrun.
  pose proof (kbd_log_data m s1 s2 [] sc H1 L2 G2) as H2. cbn [app] in H2.
  assert (Hret : forall c, kbd_key sc = Some c ->
            exists evs sc0,
              log s2 = log m ++ evs ++ [EvIn X86.KB_DATA sc0] /\
              polled false (evs ++ [EvIn X86.KB_DATA sc0]) /\
              kbd_keys evs = [] /\ 0 <= sc0 < 256 /\ kbd_key sc0 = Some c /\
              globals s2 = globals m).
  { intros c Hc. destruct H1 as (evs & L1 & Hp & Hr & Hk & HG).
    exists evs, sc. split; [rewrite L2, L1, app_assoc; reflexivity|].
    split; [apply polled_app; split; [exact Hp|rewrite Hr; split; [reflexivity|exact I]]|].
    split; [exact Hk|]. split; [exact Hsc|]. split; [exact Hc|congruence]. }
  unfold kbd_key in H2, Hret.
  destruct (Z.land sc 128 =? 0); cbn [negb andb] in *;
    [|inversion Hrun; subst; exact H2].
  destruct (Z.geb_spec sc 128) as [Hge|Hlt], (Z.ltb_spec sc 128) as [Hlt'|Hge'];
    try lia; [inversion Hrun; subst; exact H2|].
  cbv zeta in *. destruct (nth (Z.to_nat sc) X86.sc_azerty 0 =? 0);
    cbn [negb] in Hrun; inversion Hrun; subst; [exact H2|].
  apply Hret. reflexivity.
Qed.

Lemma keyboard_init_spec fuel : forall m m',
  X86.keyboard_init fuel m = Some (tt, m') ->
  exists pairs st,
    log m' = log m ++ flat_map discard pairs ++ [EvIn X86.KB_STATUS st] /\
    Forall (fun sd => Z.land (fst sd) 1 <> 0) pairs /\
    Z.land st 1 = 0 /\ (length pairs < fuel)%nat /\ globals m' = globals m.
Proof.
  induction fuel as [|n IH]; intros m m' Hrun; [discriminate|].
  unfold X86.keyboard_init in Hrun. cbn [iter] in Hrun.
  destruct (inb_spec X86.KB_STATUS m) as (st & m1 & E1 & _ & L1 & G1).
  rewrite (bind_eq _ _ _ _ _ E1) in Hrun.
  destruct (Z.eqb_spec (Z.land st 1) 0) as [Hz|Hnz]; cbn [negb] in Hrun.
  - inversion Hrun; subst m'. exists [], st.
    split; [exact L1|]. split; [constructor|]. split; [exact Hz|].
    split; [simpl; lia|exact G1].
  - destruct (inb_spec X86.KB_DATA m1) as (d & m2 & E2 & _ & L2 & G2).
    rewrite (bind_eq _ _ _ _ _ E2) in Hrun. cbv [ret] in Hrun.
    destruct (IH m2 m' Hrun) as (pairs & st' & L & Hall & Hz & Hlen & HG).
    exists ((st, d) :: pairs), st'.
    split; [|split; [constructor; [exact Hnz|exact Hall]|]].
    + rewrite L, L2, L1. cbn [flat_map discard fst snd].
      rewrite <- !app_assoc. reflexivity.
    + split; [exact Hz|]. split; [simpl; lia|congruence].
Qed.

Lemma polled_discarded pairs st :
  Forall (fun sd => Z.land (fst sd) 1 <> 0) pairs ->
  polled false (flat_map discard pairs ++ [EvIn X86.KB_STATUS st]).
Proof.
  induction 1 as [|[s d] pairs Hs _ IH]; [exact I|].
  cbn [flat_map discard fst snd app polled]. cbn [fst] in Hs.
  rewrite Z.eqb_refl.
  change (X86.KB_DATA =? X86.KB_STATUS) with false. cbv iota.
  rewrite Z.eqb_refl.
  destruct (Z.eqb_spec (Z.land s 1) 0); [contradiction|].
  split; [reflexivity|exact IH].
Qed.

End ControllerFacts.

(** X17: [keyboard_getchar] on the PC.  A call that returns has only read
    the status and the data port of the controller, the data port each
    time right after a status read with bit 0 set, and has left the
    console untouched.  Its last access read a scan code below 128 whose
    entry in the AZERTY table is the returned character, which is an
    ASCII character other than NUL; every scan code read before was a
    key release or an unmapped key.  When the first status read shows a
    byte waiting and this byte is the scan code of a mapped key, the call
    returns its character after these two reads. *)
Theorem keyboard_getchar_protocol {HW : Type} `{Hardware HW}
    (fuel : nat) (m : machine HW X86.vga_state) :
  (forall c m', X86.keyboard_getchar fuel m = Some (c, m') ->
     exists evs sc,
       log m' = log m ++ evs ++ [EvIn X86.KB_DATA sc] /\
       polled false (evs ++ [EvIn X86.KB_DATA sc]) /\
       kbd_keys evs = [] /\
       0 <= sc < 128 /\ c = nth (Z.to_nat sc) X86.sc_azerty 0 /\ 0 < c < 128 /\
       globals m' = globals m) /\
  (forall st sc c m1 m2,
     port_in X86.KB_STATUS m = (st, m1) -> port_in X86.KB_DATA m1 = (sc, m2) ->
     Z.land st 1 <> 0 -> kbd_key sc = Some c ->
     X86.keyboard_getchar (S fuel) m = Some (c, m2)).
Proof.
  split.
  - intros c m' Hrun. unfold X86.keyboard_getchar in Hrun.
    assert (HQ : exists evs sc,
              log m' = log m ++ evs ++ [EvIn X86.KB_DATA sc] /\
              polled false (evs ++ [EvIn X86.KB_DATA sc]) /\
              kbd_keys evs = [] /\ 0 <= sc < 256 /\ kbd_key sc = Some c /\
              globals m' = globals m).
    { apply (fun Hb HI => iter_inv (fun (_ : unit) s => kbd_log m s false [])
               (fun c s => exists evs sc,
                  log s = log m ++ evs ++ [EvIn X86.KB_DATA sc] /\
                  polled false (evs ++ [EvIn X86.KB_DATA sc]) /\
                  kbd_keys evs = [] /\ 0 <= sc < 256 /\ kbd_key sc = Some c /\
                  globals s = globals m)
               _ Hb fuel tt m c m' HI Hrun).
      - intros [] s res s' HI Hbody.
        pose proof (getchar_body_log _ _ _ _ _ _ HI Hbody) as Hres.
        destruct res as [[]|c']; exact Hres.
      - apply kbd_log_refl. }
    destruct HQ as (evs & sc & L & Hp & Hk & Hsc & Hkey & HG).
    destruct (kbd_key_mapped sc c Hsc Hkey) as (Hsc' & Hc & Hrange).
    exists evs, sc. repeat (split; [assumption|]). exact HG.
  - intros st sc c m1 m2 E1 E2 Hst Hkey.
    unfold X86.keyboard_getchar. cbn [iter].
    unfold X86.getchar_body at 1. unfold X86.wait_output_full. cbn [iter].
    unfold bind at 1. unfold bind at 1. unfold inb at 1. rewrite E1.
    destruct (Z.eqb_spec (Z.land st 1) 0) as [?|_]; [contradiction|].
    cbv [ret]. unfold bind at 1. unfold inb at 1. rewrite E2.
    assert (Hsc : 0 <= sc < 256).
    { unfold port_in in E2. destruct (hw_read X86.KB_DATA (hw m1)) as [v h].
      inversion E2; subst. apply u8_range. }
    unfold kbd_key in Hkey.
    destruct (Z.land sc 128 =? 0); cbn [negb andb] in *; [|discriminate].
    destruct (Z.geb_spec sc 128) as [Hge|Hlt], (Z.ltb_spec sc 128) as [Hlt'|Hge'];
      try lia; try discriminate.
    cbv zeta in *. remember (nth (Z.to_nat sc) X86.sc_azerty 0) as c0 eqn:Hc0.
    destruct (c0 =? 0); [discriminate|]. cbn [negb].
    assert (Hc : c0 = c) by congruence. rewrite Hc. reflexivity.
Qed.

(** A release code, an unmapped key and then the key [a] on the
    simulated keyboard. *)
Lemma keyboard_getchar_protocol_witness :
  let m : machine sim_pc X86.vga_state :=
    Machine (sim_pc_boot 0 1 0 [158; 1; 16]) [] blank_screen in
  exists m', X86.keyboard_getchar 4 m = Some (97, m') /\ globals m' = globals m.
Proof.
  intros m.
  destruct (X86.keyboard_getchar 4 m) as [[c m']|] eqn:E;
    [|vm_compute in E; discriminate].
  destruct (proj1 (keyboard_getchar_protocol 4 m) c m' E)
    as (evs & sc & _ & _ & _ & _ & _ & _ & HG).
  assert (Hc : c = 97).
  { assert (Hr : option_map fst (X86.keyboard_getchar 4 m) = Some 97) by reflexivity.
    rewrite E in Hr. inversion Hr. reflexivity. }
  subst c. exists m'. split; [reflexivity|exact HG].
Defined.

(** X18: [keyboard_init] that returns has discarded a number of stale
    bytes smaller than the bound on its loop, each read from the data
    port right after a status read with bit 0 set, and its last access
    is a status read with bit 0 clear: the controller is empty.  It
    reads nothing else, writes to no port and leaves the console
    untouched.  When the first status read shows no byte it returns
    after this single read. *)
Theorem keyboard_init_drains {HW : Type} `{Hardware HW}
    (fuel : nat) (m : machine HW X86.vga_state) :
  (forall m', X86.keyboard_init fuel m = Some (tt, m') ->
     exists pairs st,
       log m' = log m ++ flat_map discard pairs ++ [EvIn X86.KB_STATUS st] /\
       Forall (fun sd => Z.land (fst sd) 1 <> 0) pairs /\
       Z.land st 1 = 0 /\ (length pairs < fuel)%nat /\
       polled false (flat_map discard pairs ++ [EvIn X86.KB_STATUS st]) /\
       globals m' = globals m) /\
  (forall st m1, port_in X86.KB_STATUS m = (st, m1) -> Z.land st 1 = 0 ->
     X86.keyboard_init (S fuel) m = Some (tt, m1)).
Proof.
  split.
  - intros m' Hrun.
    destruct (keyboard_init_spec fuel m m' Hrun) as (pairs & st & L & Hall & Hz & Hlen & HG).
    exists pairs, st. split; [exact L|]. split; [exact Hall|]. split; [exact Hz|].
    split; [exact Hlen|]. split; [apply polled_discarded; exact Hall|exact HG].
  - intros st m1 E Hz. unfold X86.keyboard_init. cbn [iter].
    unfold bind at 1. unfold inb at 1. rewrite E, Hz. reflexivity.
Qed.

(** Two stale bytes in the simulated controller. *)
Lemma keyboard_init_drains_witness :
  let m : machine sim_pc X86.vga_state :=
    Machine (sim_pc_boot 0 1 0 [30; 158]) [] blank_screen in
  exists m' pairs st,
    X86.keyboard_init 3 m = Some (tt, m') /\
    log m' = log m ++ flat_map discard pairs ++ [EvIn X86.KB_STATUS st] /\
    Z.land st 1 = 0.
Proof.
  intros m.
  destruct (X86.keyboard_init 3 m) as [[[] m']|] eqn:E;
    [|vm_compute in E; discriminate].
  destruct (proj1 (keyboard_init_drains 3 m) m' E) as (pairs & st & L & _ & Hz & _).
  exists m', pairs, st. split; [reflexivity|]. split; [exact L|exact Hz].
Defined.

(** ** kernel.c: the start of the system *)

Lemma banner_text :
  Forall printable ShellText.banner /\ Forall (fun c => 0 < c < 256 /\ c <> 10) ShellText.banner /\
  length ShellText.banner = 22%nat.
Proof.
  let b := eval vm_compute in ShellText.banner in change ShellText.banner with b.
  split; [|split; [|reflexivity]].
  - repeat (constructor; [unfold printable; lia|]). constructor.
  - repeat (constructor; [lia|]). constructor.
Qed.

Section KernelFacts.
Context {HW : Type} `{Hardware HW}.

(** The state of the console depends on the globals only. *)
Lemma same_globals (m1 m2 : machine HW X86.vga_state) :
  globals m2 = globals m1 ->
  X86.row m2 = X86.row m1 /\ X86.col m2 = X86.col m1 /\
  X86.color m2 = X86.color m1 /\ forall j, X86.cell m2 j = X86.cell m1 j.
Proof.
  intros HG. unfold X86.row, X86.col, X86.color, X86.cell. rewrite HG.
  repeat split.
Qed.

Lemma pi_init_spec fuel (p p' : machine HW unit) :
  Rpi3.vga_init fuel p = Some (tt, p') ->
  exists p1,
    log p1 = log p ++ [EvOut Rpi3.UART_CR 0; EvOut Rpi3.UART_ICR 0x7FF;
                       EvOut Rpi3.UART_IBRD 26; EvOut Rpi3.UART_FBRD 3;
                       EvOut Rpi3.UART_LCRH 0x70; EvOut Rpi3.UART_CR 0x301] /\
    transmits p1 p' [27; 91; 50; 74; 27; 91; 72].
Proof.
  unfold Rpi3.vga_init. intros Hrun.
  destruct (mmio_store_spec Rpi3.UART_CR 0 p) as (p1 & E1 & L1).
  rewrite (bind_eq _ _ _ _ _ E1) in Hrun.
  destruct (mmio_store_spec Rpi3.UART_ICR 0x7FF p1) as (p2 & E2 & L2).
  rewrite (bind_eq _ _ _ _ _ E2) in Hrun.
  destruct (mmio_store_spec Rpi3.UART_IBRD 26 p2) as (p3 & E3 & L3).
  rewrite (bind_eq _ _ _ _ _ E3) in Hrun.
  destruct (mmio_store_spec Rpi3.UART_FBRD 3 p3) as (p4 & E4 & L4).
  rewrite (bind_eq _ _ _ _ _ E4) in Hrun.
  destruct (mmio_store_spec Rpi3.UART_LCRH (Z.lor (Z.shiftl 3 5) (Z.shiftl 1 4)) p4)
    as (p5 & E5 & L5).
  rewrite (bind_eq _ _ _ _ _ E5) in Hrun.
  destruct (mmio_store_spec Rpi3.UART_CR
              (Z.lor (Z.lor (Z.shiftl 1 0) (Z.shiftl 1 8)) (Z.shiftl 1 9)) p5)
    as (p6 & E6 & L6).
  rewrite (bind_eq _ _ _ _ _ E6) in Hrun.
  exists p6. split.
  - rewrite L6, L5, L4, L3, L2, L1, <- !app_assoc. reflexivity.
  - unfold Rpi3.vga_clear in Hrun.
    exact (uart_puts_transmits _ _ _ _ Hrun).
Qed.

Lemma pi_init_returns fuel (p : machine HW unit) :
  tx_always_ready HW -> exists p', Rpi3.vga_init (S fuel) p = Some (tt, p').
Proof.
  intros Hready. unfold Rpi3.vga_init.
  destruct (mmio_store_spec Rpi3.UART_CR 0 p) as (p1 & E1 & _).
  rewrite (bind_eq _ _ _ _ _ E1).
  destruct (mmio_store_spec Rpi3.UART_ICR 0x7FF p1) as (p2 & E2 & _).
  rewrite (bind_eq _ _ _ _ _ E2).
  destruct (mmio_store_spec Rpi3.UART_IBRD 26 p2) as (p3 & E3 & _).
  rewrite (bind_eq _ _ _ _ _ E3).
  destruct (mmio_store_spec Rpi3.UART_FBRD 3 p3) as (p4 & E4 & _).
  rewrite (bind_eq _ _ _ _ _ E4).
  destruct (mmio_store_spec Rpi3.UART_LCRH (Z.lor (Z.shiftl 3 5) (Z.shiftl 1 4)) p4)
    as (p5 & E5 & _).
  rewrite (bind_eq _ _ _ _ _ E5).
  destruct (mmio_store_spec Rpi3.UART_CR
              (Z.lor (Z.lor (Z.shiftl 1 0) (Z.shiftl 1 8)) (Z.shiftl 1 9)) p5)
    as (p6 & E6 & _).
  rewrite (bind_eq _ _ _ _ _ E6).
  unfold Rpi3.vga_clear. apply uart_puts_returns. exact Hready.
Qed.

End KernelFacts.

(** X19: the PC build up to the first prompt.  When [kernel_main]
    reaches [shell_run], whatever the machine was like before, the first
    row of the screen shows "EXIGE OS [version 0.1]" in light grey on
    black, every other cell of the screen is a blank in that colour, the
    cursor is at the start of the second row, and the CRT controller
    holds this location, 80. *)
Theorem kernel_start_screen {HW : Type} `{Hardware HW}
    (fuel : nat) (m m' : machine HW X86.vga_state) :
  Kernel.kernel_start fuel m = Some (tt, m') ->
  X86.row m' = 1 /\ X86.col m' = 0 /\ X86.color m' = 7 /\
  (forall k, (k < 22)%nat ->
     X86.cell m' (Z.of_nat k) = X86.vga_entry (nth k ShellText.banner 0) 7) /\
  (forall j, 22 <= j < 2000 -> X86.cell m' j = 0x0720) /\
  crtc_cursor (log m') = 80.
Proof.
  intros Hrun. unfold Kernel.kernel_start in Hrun.
  rewrite (bind_eq _ _ _ _ _
             (eq_refl : lift X86.vga_init m = Some (tt, X86.vga_init m))) in Hrun.
  apply bind_Some in Hrun. destruct Hrun as ([] & m1 & Hkbd & Hrun).
  assert (Hm' : m' = X86.vga_putchar 10 (X86.vga_print ShellText.banner m1)).
  { cbv [bind lift] in Hrun. unfold X86.vga_newline in Hrun.
    injection Hrun as <-. reflexivity. }
  destruct (vga_init_full m) as (Hr0 & Hc0 & Ha0 & Hin0 & _).
  set (m0 := X86.vga_init m) in *. clearbody m0.
  destruct (keyboard_init_spec _ _ _ Hkbd) as (_ & _ & _ & _ & _ & _ & HG).
  destruct (same_globals m0 m1 HG) as (Hr1 & Hc1 & Ha1 & Hcell1).
  destruct banner_text as (Hprint & Hplain & Hlen).
  assert (Hv1 : cursor_valid m1).
  { unfold cursor_valid. rewrite Hr1, Hc1, Hr0, Hc0.
    unfold X86.VGA_HEIGHT, X86.VGA_WIDTH. lia. }
  assert (Hp1 : pos m1 = 0) by (unfold pos; rewrite Hr1, Hc1, Hr0, Hc0; reflexivity).
  assert (Hnul : Forall (fun c => c <> 0) ShellText.banner).
  { apply Forall_impl with (2 := Hplain). intros c Hc. lia. }
  rewrite vga_print_until_nul, (until_nul_id _ Hnul) in Hm'.
  destruct (put_chars_spec ShellText.banner m1 Hprint Hv1 ltac:(rewrite Hp1, Hlen; lia))
    as (Hv2 & Hp2 & Ha2 & Hcell2).
  rewrite Hp1, Hlen in Hp2, Hcell2.
  set (m2 := put_chars ShellText.banner m1) in *. clearbody m2.
  destruct (cursor_of_pos m2 0 22 Hv2 ltac:(lia) ltac:(lia)) as (Hr2 & Hc2).
  destruct (vga_putchar_newline m2 Hv2) as (Hc3 & Ha3 & Hrow3).
  rewrite Hr2 in Hrow3. change (0 <? 24) with true in Hrow3. cbv iota in Hrow3.
  destruct Hrow3 as (Hr3 & Hcell3).
  destruct (vga_putchar_log 10 m2 Hv2) as (lo & hi & L3 & Hpos3).
  subst m'.
  split; [lia|]. split; [exact Hc3|]. split; [congruence|]. split; [|split].
  - intros k Hk. rewrite Hcell3, Hcell2.
    destruct (Z.leb_spec 0 (Z.of_nat k)), (Z.ltb_spec (Z.of_nat k) (0 + Z.of_nat 22));
      try lia.
    cbn [andb]. rewrite Z.sub_0_r, Nat2Z.id, Ha1, Ha0. reflexivity.
  - intros j Hj. rewrite Hcell3, Hcell2.
    destruct (Z.leb_spec 0 j), (Z.ltb_spec j (0 + Z.of_nat 22)); try lia.
    cbn [andb]. rewrite Hcell1. apply Hin0. lia.
  - rewrite L3, crtc_cursor_programmed, Hpos3. unfold pos.
    rewrite Hr3, Hc3. reflexivity.
Qed.

(** The start of the system with two stale bytes in the simulated
    keyboard controller. *)
Lemma kernel_start_screen_witness :
  let m : machine sim_pc X86.vga_state :=
    Machine (sim_pc_boot 0 1 0 [30; 158]) [] (X86.Vga 9 9 0x4E (fun _ => 0x4141)) in
  exists m', Kernel.kernel_start 3 m = Some (tt, m') /\
             X86.row m' = 1 /\ X86.col m' = 0 /\ X86.color m' = 7.
Proof.
  intros m.
  destruct (X86.keyboard_init 3 (X86.vga_init m)) as [[[] m1]|] eqn:E;
    [|vm_compute in E; discriminate].
  assert (Hrun : Kernel.kernel_start 3 m =
                 Some (tt, X86.vga_newline (X86.vga_print ShellText.banner m1))).
  { unfold Kernel.kernel_start.
    rewrite (bind_eq _ _ _ _ _
               (eq_refl : lift X86.vga_init m = Some (tt, X86.vga_init m))).
    rewrite (bind_eq _ _ _ _ _ E). reflexivity. }
  destruct (kernel_start_screen 3 m _ Hrun) as (Hr & Hc & Ha & _).
  eexists. split; [exact Hrun|]. split; [exact Hr|]. split; [exact Hc|exact Ha].
Defined.

(** X20: the Raspberry Pi build up to the first prompt.  [kernel_main]
    first disables the UART, clears its interrupts, sets the divisor 26
    and 3/64, selects 8-bit frames with FIFOs and enables the UART with
    its transmitter and receiver, by six register writes in this order;
    only then it transmits, and what it transmits before the first
    prompt is the escape sequence that clears the terminal, the banner
    "EXIGE OS [version 0.1]" and CR CR LF.  It reads nothing from the
    data register, and it reaches the shell when the transmitter is
    never full. *)
Theorem kernel_start_serial {HW : Type} `{Hardware HW}
    (fuel : nat) (p : machine HW unit) :
  (forall p', Kernel.kernel_start_rpi3 fuel p = Some (tt, p') ->
     exists p1,
       log p1 = log p ++ [EvOut Rpi3.UART_CR 0; EvOut Rpi3.UART_ICR 0x7FF;
                          EvOut Rpi3.UART_IBRD 26; EvOut Rpi3.UART_FBRD 3;
                          EvOut Rpi3.UART_LCRH 0x70; EvOut Rpi3.UART_CR 0x301] /\
       transmits p1 p' ([27; 91; 50; 74; 27; 91; 72] ++ ShellText.banner ++ [13; 13; 10])) /\
  (tx_always_ready HW ->
   exists p', Kernel.kernel_start_rpi3 (S fuel) p = Some (tt, p')).
Proof.
  split.
  - intros p' Hrun. unfold Kernel.kernel_start_rpi3 in Hrun.
    apply bind_Some in Hrun. destruct Hrun as ([] & p2 & Hinit & Hrun).
    unfold Rpi3.keyboard_init in Hrun.
    rewrite (bind_eq _ _ _ _ _ (eq_refl : ret tt p2 = Some (tt, p2))) in Hrun.
    apply bind_Some in Hrun. destruct Hrun as ([] & p3 & Hprint & Hnl).
    destruct (pi_init_spec _ _ _ Hinit) as (p1 & L1 & T1).
    exists p1. split; [exact L1|].
    apply (uart_puts_transmits fuel ShellText.banner) in Hprint.
    rewrite (crlf_plain _ (proj1 (proj2 banner_text))) in Hprint.
    apply (uart_puts_transmits fuel [13; 10]) in Hnl.
    exact (transmits_trans _ _ _ _ _ T1 (transmits_trans _ _ _ _ _ Hprint Hnl)).
  - intros Hready. unfold Kernel.kernel_start_rpi3.
    destruct (pi_init_returns fuel p Hready) as (p1 & E1).
    rewrite (bind_eq _ _ _ _ _ E1).
    unfold Rpi3.keyboard_init.
    rewrite (bind_eq _ _ _ _ _ (eq_refl : ret tt p1 = Some (tt, p1))).
    destruct (uart_puts_returns fuel ShellText.banner p1 Hready) as (p2 & E2).
    unfold Rpi3.vga_print.
    rewrite (bind_eq _ _ _ _ _ E2).
    apply uart_puts_returns. exact Hready.
Qed.

(** The start of the system on the simulated serial port. *)
Lemma kernel_start_serial_witness :
  let p : machine sim_uart unit := Machine (SimUart []) [] tt in
  exists p', Kernel.kernel_start_rpi3 1 p = Some (tt, p').
Proof.
  intros p.
  assert (Hready : tx_always_ready sim_uart).
  { intros [[|x q]]; reflexivity. }
  exact (proj2 (kernel_start_serial 0 p) Hready).
Defined.

(** ** Line input stays inside its buffer *)

Section BoundsFacts.
Context {HW : Type} `{Hardware HW}.



End BoundsFacts.



